(** * A circuit breaker for Caddy: the decision core, the middleware and the
      directive parser of [circuitbreaker.go], embedded and verified.

    The embedding follows the Go source function by function.  Every method
    body, and the body of the recovery goroutine, is given its sequential
    meaning: one body runs from its first statement to its return as one
    step.  What the package imports but does not contain (the sliding-window
    metrics of [memmetrics], the token dispenser of [caddyfile], the parsers
    of [strconv] and [time], the [http.ResponseWriter]) enters as an
    interface, a type class of operations; the theorems hold for every
    implementation of it, and one implementation of each is given to run the
    examples. *)

From Stdlib Require Import ZArith String Ascii Floats Lia Bool.
From stdpp Require Import base option strings pretty gmap list.

#[local] Open Scope Z_scope.

(** ** Go: the few notions of the language and its library the package uses *)

Module Go.

(** The [error] interface.  A nil error is [None] of [option error]. *)
Inductive error : Type := errorString (msg : string).

(** [err.Error()], which is also what the verb [%v] prints. *)
Definition Error (e : error) : string :=
  match e with errorString msg => msg end.

(** [fmt.Errorf], with the verbs of the format already substituted. *)
Definition Errorf (msg : string) : error := errorString msg.

(** A result [(v, err)] of which the value counts only when [err] is nil. *)
Definition succeeds {A : Type} (r : error + A) : bool :=
  match r with inl _ => false | inr _ => true end.

(** [time.Duration]: an int64 count of nanoseconds. *)
Abbreviation Duration := Z (only parsing).
Definition Nanosecond : Duration := 1.
Definition Microsecond : Duration := 1000 * Nanosecond.
Definition Millisecond : Duration := 1000 * Microsecond.
Definition Second : Duration := 1000 * Millisecond.

(** [d.Nanoseconds()] is [int64(d)]. *)
Definition Nanoseconds (d : Duration) : Z := d.

(** A reading of the clock, in nanoseconds. *)
Abbreviation Time := Z (only parsing).

(** [float64]: IEEE 754 binary64, the kernel's primitive floats. *)
Abbreviation float64 := float (only parsing).

(** The conversion [float64(n)] of an int64: the nearest float, ties to
    even.  [PrimFloat.of_uint63] does this for 0 <= n < 2^63. *)
Definition float64_of_int64 (n : Z) : float64 :=
  if n =? - 2 ^ 63
  then PrimFloat.opp (PrimFloat.mul (PrimFloat.of_uint63 (Uint63.of_Z (2 ^ 62))) 2%float)
  else if n <? 0 then PrimFloat.opp (PrimFloat.of_uint63 (Uint63.of_Z (- n)))
  else PrimFloat.of_uint63 (Uint63.of_Z n).

(** The comparison [a > b] of two float64 (false when either is NaN). *)
Definition gt (a b : float64) : bool := PrimFloat.ltb b a.

(** [http.StatusServiceUnavailable] *)
Definition StatusServiceUnavailable : Z := 503.

End Go.
Import Go.

(** ** memmetrics: the interface of [*memmetrics.RTMetrics]

  The sliding-window statistics come from an external library.  Its
    windows age with the clock, so every operation that reads them takes the
    time of the call.  [M] is the aggregator's state, [H] a merged latency
    histogram. *)

Module memmetrics.

Class RTMetrics (M H : Type) : Type := {
  NewRTMetrics : error + M;                     (* memmetrics.NewRTMetrics() *)
  Record_ : Time -> Z -> Duration -> M -> M;    (* m.Record(code, duration) *)
  TotalCount : Time -> M -> Z;                  (* m.TotalCount() *)
  NetworkErrorRatio : Time -> M -> float64;     (* m.NetworkErrorRatio() *)
  ResponseCodeRatio : Time -> Z -> Z -> Z -> Z -> M -> float64;
                              (* m.ResponseCodeRatio(startA, endA, startB, endB) *)
  LatencyHistogram : Time -> M -> error + H;    (* m.LatencyHistogram() *)
  LatencyAtQuantile : float64 -> H -> Duration; (* hist.LatencyAtQuantile(q) *)
  Reset : M -> M                                (* m.Reset() *)
}.

(** What the breaker's recovery relies on: a window that was reset counts
    no sample, whenever it is read. *)
Class ResetClears (M H : Type) `{RTMetrics M H} : Prop :=
  TotalCount_Reset : forall (t : Time) (m : M), TotalCount t (Reset m) = 0.

(** A sample recorded adds at most one to the count, whenever the window is
    read. *)
Class RecordCountsOne (M H : Type) `{RTMetrics M H} : Prop :=
  TotalCount_Record : forall (t t' : Time) (code : Z) (d : Duration) (m : M),
    TotalCount t (Record_ t' code d m) <= TotalCount t m + 1.

End memmetrics.
Import memmetrics.

(** ** net/http and caddyhttp: the writer and the downstream handler *)

Module http.

(** [http.ResponseWriter], as far as the middleware uses it. *)
Class ResponseWriter (W : Type) : Type := {
  WriteHeader : Z -> W -> W;   (* w.WriteHeader(statusCode) *)
  Write : string -> W -> W     (* w.Write(data); the results are not looked at *)
}.

End http.
Import http.

Module caddyhttp.

(** One call [next.ServeHTTP(rec, r)] as the middleware sees it.  [rec] is
  the recorder [caddyhttp.NewResponseRecorder(w, nil, ...)] whose buffering
  test answers false: what the handler writes goes on to [w], and the
  recorder keeps the status.  [S] is whatever state the handler has. *)
Record Served (W S : Type) : Type := mkServed {
  writer : W;               (* [w] after the handler's writes *)
  state : S;                (* the handler's state after the call *)
  Status : Z;               (* rec.Status() *)
  returned : option error;  (* the error the handler returns *)
  took : Duration           (* how long the call took *)
}.
Arguments mkServed {W S} _ _ _ _ _.
Arguments writer {W S} _.
Arguments state {W S} _.
Arguments Status {W S} _.
Arguments returned {W S} _.
Arguments took {W S} _.

(** [caddyhttp.Handler], with the request type [R] left open. *)
Definition Handler (W S R : Type) : Type := W -> R -> S -> Served W S.

End caddyhttp.
Import caddyhttp.

(** ** strconv and time: the parsers of literals *)

Module strconv.

Class Parsers : Type := {
  ParseFloat : string -> Z -> error + float64;   (* strconv.ParseFloat(s, bitSize) *)
  Atoi : string -> error + Z;                    (* strconv.Atoi(s) *)
  ParseDuration : string -> error + Duration     (* time.ParseDuration(s) *)
}.

End strconv.
Import strconv.

(** ** caddyfile: the interface of [*caddyfile.Dispenser]

  The dispenser hands out the tokens of a configuration block.  It is a
    cursor over tokens, so its methods take the dispenser and give it back
    moved.  [remaining] counts the tokens it can still hand out; it is what
    makes a loop over [NextBlock] end. *)

Module caddyfile.

Class Dispenser (D : Type) : Type := {
  Nesting : D -> Z;                 (* d.Nesting() *)
  NextBlock : Z -> D -> bool * D;   (* d.NextBlock(initialNestingLevel) *)
  NextArg : D -> bool * D;          (* d.NextArg() *)
  Val : D -> string;                (* d.Val() *)
  ArgErr : D -> error;              (* d.ArgErr() *)
  Errf : D -> string -> error;      (* d.Errf(format, args...), the verbs substituted *)
  remaining : D -> nat
}.

(** A dispenser consumes: a [NextBlock] that answers true has moved to a
  further token, and [NextArg] never moves back. *)
Class Consuming (D : Type) `{Dispenser D} : Prop := {
  NextBlock_remaining : forall (n : Z) (d d' : D),
  NextBlock n d = (true, d') -> (remaining d' < remaining d)%nat;
  NextArg_remaining : forall (b : bool) (d d' : D),
  NextArg d = (b, d') -> (remaining d' <= remaining d)%nat
}.

End caddyfile.
Import caddyfile.

(** ** The breaker: [Config], [Simple], [Provision], [OK], [RecordMetric],
   [checkAndSet] *)

Module circuitbreaker.

(** [type Config struct] *)
Record Config : Type := mkConfig {
  Threshold : float64;
  Factor : string;
  TripDuration : Duration;   (* caddy.Duration, an int64 of nanoseconds *)
  MinRequests : Z
}.

(** [type Simple struct].  [metrics] is a pointer: nil ([None]) until
    [Provision] has run. *)
Record Simple (M : Type) : Type := mkSimple {
  tripped : Z;    (* int32, accessed atomically *)
  cbFactor : Z;   (* int32 *)
  metrics : option M;
  config : Config
}.
Arguments mkSimple {M} _ _ _ _.
Arguments tripped {M} _.
Arguments cbFactor {M} _.
Arguments metrics {M} _.
Arguments config {M} _.

(** The constants of the package: [iota + 1] counts from 1. *)
Definition factorLatency : Z := 1.
Definition factorErrorRatio : Z := 2.
Definition factorStatusCodeRatio : Z := 3.
Definition defaultTripDuration : Duration := 5 * Second.

(** [var typeCB = map[string]int32{...}] *)
Definition typeCB : gmap string Z :=
  <["latency" := factorLatency]>
    (<["error_ratio" := factorErrorRatio]>
       (<["status_ratio" := factorStatusCodeRatio]> ∅)).

(** The value of [var cb Simple] and of [new(Simple)]. *)
Definition zeroConfig : Config := mkConfig 0%float "" 0 0.
Definition zeroSimple {M : Type} : Simple M := mkSimple 0 0 None zeroConfig.

Section Fields.
Context {M : Type}.
Implicit Types c : Simple M.

(** Assignments to the fields of the receiver. *)
Definition set_tripped (v : Z) c : Simple M :=
  mkSimple v (cbFactor c) (metrics c) (config c).
Definition set_cbFactor (v : Z) c : Simple M :=
  mkSimple (tripped c) v (metrics c) (config c).
Definition set_metrics (v : option M) c : Simple M :=
  mkSimple (tripped c) (cbFactor c) v (config c).
Definition set_config (v : Config) c : Simple M :=
  mkSimple (tripped c) (cbFactor c) (metrics c) v.
Definition set_Threshold (v : float64) c : Simple M :=
  set_config (mkConfig v (Factor (config c)) (TripDuration (config c)) (MinRequests (config c))) c.
Definition set_Factor (v : string) c : Simple M :=
  set_config (mkConfig (Threshold (config c)) v (TripDuration (config c)) (MinRequests (config c))) c.
Definition set_TripDuration (v : Duration) c : Simple M :=
  set_config (mkConfig (Threshold (config c)) (Factor (config c)) v (MinRequests (config c))) c.
Definition set_MinRequests (v : Z) c : Simple M :=
  set_config (mkConfig (Threshold (config c)) (Factor (config c)) (TripDuration (config c)) v) c.

(** [func (c *Simple) OK() bool] *)
Definition OK c : bool := tripped c =? 0.
End Fields.

(** The process around one breaker: the clock, the breaker, and the
    recovery goroutines that were started and still sleep, each with the
    time at which its [time.Sleep] returns. *)
Record World (M : Type) : Type := mkWorld {
  now : Time;
  cb : Simple M;
  sleeping : list Time
}.
Arguments mkWorld {M} _ _ _.
Arguments now {M} _.
Arguments cb {M} _.
Arguments sleeping {M} _.

Section Core.
Context {M H : Type} `{RTMetrics M H}.
Implicit Types (c : Simple M) (w : World M).

(** [func (c *Simple) Provision(ctx caddy.Context) error]: the receiver
    after the call, and the error returned. *)
Definition Provision c : Simple M * option error :=
  let c := if String.eqb (Factor (config c)) "" then set_Factor "error_ratio" c else c in
  let c := if MinRequests (config c) =? 0 then set_MinRequests 10 c else c in
  match typeCB !! Factor (config c) with
  | None =>
      (c, Some (Errorf ("invalid factor '" +:+ Factor (config c)
                          +:+ "', must be one of: latency, error_ratio, status_ratio")))
  | Some f =>
      let c := if TripDuration (config c) =? 0
               then set_TripDuration defaultTripDuration c else c in
      match NewRTMetrics with
      | inl err => (c, Some (Errorf ("cannot create new metrics: " +:+ Error err)))
      | inr mt => (set_tripped 0 (set_metrics (Some mt) (set_cbFactor f c)), None)
      end
  end.

(** [atomic.StoreInt32(&c.tripped, v)] *)
Definition store_tripped (v : Z) w : World M :=
  mkWorld (now w) (set_tripped v (cb w)) (sleeping w).

(** [go func() { time.Sleep(time.Duration(c.Config.TripDuration)); ... }()]:
    a goroutine starts and sleeps until [TripDuration] from now. *)
Definition go_recover w : World M :=
  mkWorld (now w) (cb w) ((now w + TripDuration (config (cb w))) :: sleeping w).

(** The rest of that goroutine, run when its sleep is over.  [None] is
    the panic of a nil [metrics]. *)
Definition recovery c : option (Simple M) :=
  let c := set_tripped 0 c in
  m ← metrics c;
  Some (set_metrics (Some (Reset m)) c).

(** The literal [0.95] as a float64: the nearest binary64 value. *)
Definition quantile95 : float64 := 0x1.e666666666666p-1%float.

(** The [switch c.cbFactor] of [checkAndSet]: the value of [isTripped]
    after it, or [None] where the latency case returns from the function. *)
Definition evaluate (t : Time) (m : M) c : option bool :=
  if cbFactor c =? factorErrorRatio then
    let errorRatio := NetworkErrorRatio t m in
    let statusRatio := ResponseCodeRatio t 500 600 0 600 m in
    Some (gt errorRatio (Threshold (config c)) || gt statusRatio (Threshold (config c)))
  else if cbFactor c =? factorLatency then
    match LatencyHistogram t m with
    | inl _ => None
    | inr hist =>
        let l := LatencyAtQuantile quantile95 hist in
        Some (gt (PrimFloat.div (float64_of_int64 (Nanoseconds l)) (float64_of_int64 Millisecond))
                 (Threshold (config c)))
    end
  else if cbFactor c =? factorStatusCodeRatio then
    Some (gt (ResponseCodeRatio t 500 600 0 600 m) (Threshold (config c)))
  else Some false.

(** [func (c *Simple) checkAndSet()].  [None] is the panic of a nil
    [metrics]. *)
Definition checkAndSet w : option (World M) :=
  m ← metrics (cb w);
  if TotalCount (now w) m <? MinRequests (config (cb w)) then Some w
  else
    match evaluate (now w) m (cb w) with
    | None => Some w
    | Some isTripped =>
        if isTripped then Some (go_recover (store_tripped 1 w)) else Some w
    end.

(** [c.metrics.Record(statusCode, latency)] on the aggregator [m] that
    [c.metrics] points to. *)
Definition with_sample (statusCode : Z) (latency : Duration) (m : M) w : World M :=
  mkWorld (now w) (set_metrics (Some (Record_ (now w) statusCode latency m)) (cb w)) (sleeping w).

(** [func (c *Simple) RecordMetric(statusCode int, latency time.Duration)] *)
Definition RecordMetric (statusCode : Z) (latency : Duration) w : option (World M) :=
  m ← metrics (cb w);
  checkAndSet (with_sample statusCode latency m w).

(** A breaker as [Provision] leaves it: [cbFactor] is what [typeCB] holds
  for [Factor]. *)
Definition provisioned c : Prop :=
  typeCB !! Factor (config c) = Some (cbFactor c).
End Core.

(** *** The middleware *)

Section Middleware.
Context {M H : Type} `{RTMetrics M H}.
Context {W : Type} `{ResponseWriter W}.
Context {S R : Type}.
Implicit Types (w : World M) (wr : W) (r : R) (s : S) (next : Handler W S R).

(** What a call of [ServeHTTP] leaves behind: the process, the writer, the
    downstream handler's state, and the error returned. *)
Record Result : Type := mkResult {
  world : World M;
  response : W;
  downstream : S;
  err : option error
}.

(** [func (c *Simple) ServeHTTP(w http.ResponseWriter, r *http.Request,
    next caddyhttp.Handler) error].  The clock moves by the time the
    downstream call takes, so [time.Since(start)] is the difference of two
    readings.  [None] is the panic of a nil [metrics]. *)
Definition ServeHTTP wr r next s w : option Result :=
  if negb (OK (cb w)) then
    let wr := WriteHeader StatusServiceUnavailable wr in
    let wr := Write "Service Unavailable - Circuit Breaker Open" wr in
    Some (mkResult w wr s None)
  else
    let start := now w in
    let served := next wr r s in
    let w := mkWorld (now w + took served) (cb w) (sleeping w) in
    let latency := now w - start in
    let status := Status served in
    let status := if returned served is Some _ then 500 else status in
    w ← RecordMetric status latency w;
    Some (mkResult w (writer served) (state served) (returned served)).

(** *** The process over time

    What can happen to a provisioned breaker: a caller records a metric, a
    request is served, a caller polls [OK], time passes, or the sleep of a
    recovery goroutine ends and the goroutine runs. *)
Inductive Event : Type :=
  | CallRecordMetric (statusCode : Z) (latency : Duration)
  | CallServeHTTP (wr : W) (r : R) (next : Handler W S R) (s : S)
  | CallOK
  | Elapse (d : Duration)
  | Wake (i : nat).

(** The [i]-th sleeping goroutine wakes: possible only once the clock has
    reached the end of its sleep.  It runs [recovery] and is gone. *)
Definition wake (i : nat) w : option (World M) :=
  t ← sleeping w !! i;
  if t <=? now w then
    c ← recovery (cb w);
    Some (mkWorld (now w) c (delete i (sleeping w)))
  else None.

(** One event.  [None]: the event cannot happen in this world, or panics. *)
Definition run (e : Event) w : option (World M) :=
  match e with
  | CallRecordMetric statusCode latency => RecordMetric statusCode latency w
  | CallServeHTTP wr r next s => world <$> ServeHTTP wr r next s w
  | CallOK => Some w
  | Elapse d => if 0 <=? d then Some (mkWorld (now w + d) (cb w) (sleeping w)) else None
  | Wake i => wake i w
  end.

(** A step from [w] to [w'] trips when it stores 1 in the flag and starts a
    recovery goroutine, which sleeps until [TripDuration] after the step. *)
Definition trips w w' : Prop :=
  tripped (cb w') = 1 /\
  sleeping w' = (now w' + TripDuration (config (cb w'))) :: sleeping w.

(** A sequence of events, one after the other. *)
Fixpoint run_all (es : list Event) w : option (World M) :=
  match es with
  | [] => Some w
  | e :: es => w ← run e w; run_all es w
  end.

(** How one step finds and leaves the breaker: it is a plain step, which
    keeps the flag and the sleeping goroutines; or a trip; or the waking of
    a goroutine whose sleep is over. *)
Inductive Change w (e : Event) w' : Prop :=
  | Change_plain :
      tripped (cb w') = tripped (cb w) ->
      sleeping w' = sleeping w ->
      Change w e w'
  | Change_trip :
      trips w w' ->
      Change w e w'
  | Change_wake (i : nat) (t : Time) :
      e = Wake i ->
      sleeping w !! i = Some t ->
      t <= now w ->
      now w' = now w ->
      tripped (cb w') = 0 ->
      sleeping w' = delete i (sleeping w) ->
      Change w e w'.

(** The goroutine that sleeps until [t] was started by a trip among the
    events [es] that happened since [w0]: some step of them tripped, at a
    time that lies [TripDuration] before [t]. *)
Definition started_by_trip w0 (es : list Event) (t : Time) : Prop :=
  exists (es1 : list Event) (e1 : Event) (es2 : list Event) (wa wb : World M),
    es = es1 ++ e1 :: es2
    /\ run_all es1 w0 = Some wa
    /\ run e1 wa = Some wb
    /\ trips wa wb
    /\ t = now wb + TripDuration (config (cb wb)).

(** The events in which the breaker records a sample when it is closed, and
    those among them that come through the middleware. *)
Definition records (e : Event) : bool :=
  match e with
  | CallRecordMetric _ _ | CallServeHTTP _ _ _ _ => true
  | _ => false
  end.

Definition recordings (es : list Event) : Z :=
  Z.of_nat (length (List.filter records es)).

Definition through_middleware (e : Event) : bool :=
  match e with
  | CallRecordMetric _ _ => false
  | _ => true
  end.
End Middleware.

(** *** The directive parser *)

Section Caddyfile.
Context {M : Type}.
Context {D : Type} `{Dispenser D} `{Parsers}.
Implicit Types (c : Simple M) (d : D).

(** What a parsing step leaves behind: the dispenser, the receiver, and the
    error returned. *)
Record Parsed : Type := mkParsed {
  dispenser : D;
  receiver : Simple M;
  failure : option error
}.

(** The body of the loop of [UnmarshalCaddyfile]: [switch d.Val() {...}]. *)
Definition directive d c : Parsed :=
  if String.eqb (Val d) "threshold" then
    let '(more, d) := NextArg d in
    if negb more then mkParsed d c (Some (ArgErr d))
    else
      match ParseFloat (Val d) 64 with
      | inl err => mkParsed d c (Some (Errf d ("invalid threshold value: " +:+ Error err)))
      | inr val => mkParsed d (set_Threshold val c) None
      end
  else if String.eqb (Val d) "factor" then
    let '(more, d) := NextArg d in
    if negb more then mkParsed d c (Some (ArgErr d))
    else mkParsed d (set_Factor (Val d) c) None
  else if String.eqb (Val d) "trip_duration" then
    let '(more, d) := NextArg d in
    if negb more then mkParsed d c (Some (ArgErr d))
    else
      match ParseDuration (Val d) with
      | inl err => mkParsed d c (Some (Errf d ("invalid trip_duration: " +:+ Error err)))
      | inr dur => mkParsed d (set_TripDuration dur c) None
      end
  else if String.eqb (Val d) "min_requests" then
    let '(more, d) := NextArg d in
    if negb more then mkParsed d c (Some (ArgErr d))
    else
      match Atoi (Val d) with
      | inl err => mkParsed d c (Some (Errf d ("invalid min_requests value: " +:+ Error err)))
      | inr val => mkParsed d (set_MinRequests val c) None
      end
  else mkParsed d c (Some (Errf d ("unrecognized subdirective: " +:+ Val d))).

(** [for nesting := d.Nesting(); d.NextBlock(nesting); { ... }], with a
    bound on the number of rounds.  [None]: the bound was too small. *)
Fixpoint blocks (rounds : nat) (nesting : Z) d c : option Parsed :=
  match rounds with
  | O => None
  | Datatypes.S rounds =>
      let '(more, d) := NextBlock nesting d in
      if more then
        let p := directive d c in
        if failure p is Some _ then Some p
        else blocks rounds nesting (dispenser p) (receiver p)
      else Some (mkParsed d c None)
  end.

(** [func (c *Simple) UnmarshalCaddyfile(d *caddyfile.Dispenser) error].
    Every round hands out a token, so one round more than there are tokens
    is enough: [UnmarshalCaddyfile_total] below. *)
Definition UnmarshalCaddyfile d c : option Parsed :=
  blocks (Datatypes.S (remaining d)) (Nesting d) d c.

(** [func parseCaddyfileHandler(h httpcaddyfile.Helper)
    (caddyhttp.MiddlewareHandler, error)], on [h.Dispenser]: the handler
    (nil is [None]) and the error. *)
Definition parseCaddyfileHandler d : option (option (Simple M) * option error) :=
  p ← UnmarshalCaddyfile d zeroSimple;
  if failure p is Some e then Some (None, Some e)
  else Some (Some (receiver p), None).

(** **** What a block says, read off the dispenser

    A line of a block is a directive name and, when one follows on the line,
    its argument.  [Lines nesting d ls d'] reads the block that [d] is about
    to hand out as the lines [ls], ending in [d']. *)
Inductive Lines (nesting : Z) : D -> list (string * option string) -> D -> Prop :=
  | Lines_end d d' :
      NextBlock nesting d = (false, d') ->
      Lines nesting d [] d'
  | Lines_arg d d1 d2 ls d' :
      NextBlock nesting d = (true, d1) ->
      NextArg d1 = (true, d2) ->
      Lines nesting d2 ls d' ->
      Lines nesting d ((Val d1, Some (Val d2)) :: ls) d'
  | Lines_bare d d1 d2 ls d' :
      NextBlock nesting d = (true, d1) ->
      NextArg d1 = (false, d2) ->
      Lines nesting d2 ls d' ->
      Lines nesting d ((Val d1, None) :: ls) d'.

(** The four directives. *)
Definition known (name : string) : bool :=
  String.eqb name "threshold" || String.eqb name "factor"
  || String.eqb name "trip_duration" || String.eqb name "min_requests".

(** A line the parser accepts: a known directive with an argument that its
    parser accepts. *)
Definition accepted (line : string * option string) : bool :=
  match line with
  | (name, Some arg) =>
      if String.eqb name "threshold" then succeeds (ParseFloat arg 64)
      else if String.eqb name "factor" then true
      else if String.eqb name "trip_duration" then succeeds (ParseDuration arg)
      else if String.eqb name "min_requests" then succeeds (Atoi arg)
      else false
  | (_, None) => false
  end.

(** What an accepted line assigns to the receiver. *)
Definition assign (line : string * option string) c : Simple M :=
  match line with
  | (name, Some arg) =>
      if String.eqb name "threshold" then
        match ParseFloat arg 64 with inr val => set_Threshold val c | inl _ => c end
      else if String.eqb name "factor" then set_Factor arg c
      else if String.eqb name "trip_duration" then
        match ParseDuration arg with inr dur => set_TripDuration dur c | inl _ => c end
      else if String.eqb name "min_requests" then
        match Atoi arg with inr val => set_MinRequests val c | inl _ => c end
      else c
  | (_, None) => c
  end.

Definition assign_all (ls : list (string * option string)) c : Simple M :=
  foldl (fun c line => assign line c) c ls.

(** The parse [p] stopped at the line [line] with the error that belongs to
    it: the name is not a directive, or the argument is missing, or the
    argument is no literal of its kind. *)
Definition refused (line : string * option string) (p : Parsed) : Prop :=
  exists e : error,
    failure p = Some e
    /\ (known line.1 = false ->
        e = Errf (dispenser p) ("unrecognized subdirective: " +:+ line.1))
    /\ (known line.1 = true -> line.2 = None -> e = ArgErr (dispenser p))
    /\ (forall (arg : string) (cause : error),
          line = ("threshold", Some arg) -> ParseFloat arg 64 = inl cause ->
          e = Errf (dispenser p) ("invalid threshold value: " +:+ Error cause))
    /\ (forall (arg : string) (cause : error),
          line = ("trip_duration", Some arg) -> ParseDuration arg = inl cause ->
          e = Errf (dispenser p) ("invalid trip_duration: " +:+ Error cause))
    /\ (forall (arg : string) (cause : error),
          line = ("min_requests", Some arg) -> Atoi arg = inl cause ->
          e = Errf (dispenser p) ("invalid min_requests value: " +:+ Error cause)).

(** The argument of the last line that names the directive [name]. *)
Fixpoint mentioned (name : string) (ls : list (string * option string)) : option string :=
  match ls with
  | [] => None
  | (name', arg) :: ls =>
      match mentioned name ls with
      | Some a => Some a
      | None => if String.eqb name' name then arg else None
      end
  end.
End Caddyfile.

End circuitbreaker.
Import circuitbreaker.

(** ** Implementations of the interfaces, to run the breaker on examples *)

(** *** The aggregator *)

Module window.

(** Modelled from the spec: the Request Metrics Aggregator, for which the
    package relies on the external library [memmetrics].  The window is the
    samples of the last ten seconds; each sample is kept with the time it was
    recorded at, and a query looks at those that are recent. *)
Record Sample : Type := mkSample {
  at_ : Time;
  code : Z;
  latency : Duration
}.

Definition period : Duration := 10 * Second.

Definition recent (t : Time) (m : list Sample) : list Sample :=
  List.filter (fun s => t - period <? at_ s) m.

(** The number of samples whose status code is in [lo, hi). *)
Definition between (lo hi : Z) (m : list Sample) : Z :=
  Z.of_nat (length (List.filter (fun s => (lo <=? code s) && (code s <? hi)) m)).

Definition total (t : Time) (m : list Sample) : Z :=
  Z.of_nat (length (recent t m)).

(** A status code outside the range 1xx-5xx of HTTP stands for a failure of
    the transport; the ratio is 0 on an empty window. *)
Definition networkErrorRatio (t : Time) (m : list Sample) : float64 :=
  let n := total t m in
  if n =? 0 then 0%float
  else PrimFloat.div (float64_of_int64 (n - between 100 600 (recent t m))) (float64_of_int64 n).

(** The samples in [startA, endA) relative to those in [startB, endB); 0 when
    there are none of the latter. *)
Definition responseCodeRatio (t : Time) (startA endA startB endB : Z) (m : list Sample) : float64 :=
  let a := between startA endA (recent t m) in
  let b := between startB endB (recent t m) in
  if b =? 0 then 0%float else PrimFloat.div (float64_of_int64 a) (float64_of_int64 b).

(** The histogram is the latencies of the window; there is none of an empty
    window. *)
Definition latencyHistogram (t : Time) (m : list Sample) : error + list Duration :=
  match recent t m with
  | [] => inl (Errorf "no latency recorded")
  | s :: m' => inr (List.map latency (s :: m'))
  end.

(** The fraction of the latencies that are at most [v]. *)
Definition fraction_upto (v : Duration) (h : list Duration) : float64 :=
  PrimFloat.div (float64_of_int64 (Z.of_nat (length (List.filter (fun x => x <=? v) h))))
                (float64_of_int64 (Z.of_nat (length h))).

(** The latency at quantile [q]: the least recorded latency that a fraction
    [q] of the samples does not exceed. *)
Definition latencyAtQuantile (q : float64) (h : list Duration) : Duration :=
  let reached := List.filter (fun v => PrimFloat.leb q (fraction_upto v h)) h in
  match reached with
  | [] => 0
  | v :: vs => List.fold_right Z.min v vs
  end.

#[export] Instance RTMetrics_window : RTMetrics (list Sample) (list Duration) := {
  NewRTMetrics := inr [];
  Record_ t code latency m := mkSample t code latency :: m;
  TotalCount := total;
  NetworkErrorRatio := networkErrorRatio;
  ResponseCodeRatio := responseCodeRatio;
  LatencyHistogram := latencyHistogram;
  LatencyAtQuantile := latencyAtQuantile;
  Reset _ := []
}.

End window.

(** *** An aggregator that has no latency distribution to give *)

Module nohistogram.
Import window.

(** The aggregator in the degraded state that [checkAndSet] provides for:
    it counts and rates as the window does, and its [LatencyHistogram]
    answers an error whatever was recorded, as the library does when it
    cannot merge its histogram. *)
Record Unmerged : Type := mkUnmerged {
  samples : list Sample
}.

#[export] Instance RTMetrics_unmerged : RTMetrics Unmerged (list Duration) := {
  NewRTMetrics := inr (mkUnmerged []);
  Record_ t code latency m := mkUnmerged (mkSample t code latency :: samples m);
  TotalCount t m := total t (samples m);
  NetworkErrorRatio t m := networkErrorRatio t (samples m);
  ResponseCodeRatio t startA endA startB endB m :=
    responseCodeRatio t startA endA startB endB (samples m);
  LatencyHistogram _ _ := inl (Errorf "cannot merge the histogram");
  LatencyAtQuantile := latencyAtQuantile;
  Reset _ := mkUnmerged []
}.

End nohistogram.

(** *** The response writer *)

Module httptest.

(** A writer that keeps what was written, in the manner of
    [httptest.ResponseRecorder]: the first status written counts, and a
    write of data without a status before it implies 200. *)
Record ResponseRecorder : Type := mkRecorder {
  Code : Z;
  Body : string;
  wroteHeader : bool
}.

Definition NewRecorder : ResponseRecorder := mkRecorder 200 "" false.

Definition writeHeader (code : Z) (rw : ResponseRecorder) : ResponseRecorder :=
  if wroteHeader rw then rw else mkRecorder code (Body rw) true.

Definition write (data : string) (rw : ResponseRecorder) : ResponseRecorder :=
  let rw := writeHeader 200 rw in
  mkRecorder (Code rw) (Body rw +:+ data) true.

#[export] Instance ResponseWriter_recorder : ResponseWriter ResponseRecorder := {
  WriteHeader := writeHeader;
  Write := write
}.

(** A downstream handler that answers every request with [status], returns
    [failure], takes [d], and counts its calls. *)
Definition answering (status : Z) (failure : option error) (d : Duration)
  : Handler ResponseRecorder nat unit :=
  fun rw _ calls => mkServed (writeHeader status rw) (Datatypes.S calls) status failure d.

End httptest.

(** *** The dispenser *)

Module tokens.

(** A dispenser over a list of tokens with their lines, in the manner of
    [caddyfile.Dispenser]: a cursor, which starts before the first token, and
    the depth of the blocks entered. *)
Record Token : Type := mkToken {
  File : string;
  Line : Z;
  Text : string
}.

Record Cursor : Type := mkCursor {
  toks : list Token;
  cursor : Z;
  nesting : Z
}.

Definition NewDispenser (ts : list Token) : Cursor := mkCursor ts (-1) 0.

Definition len (d : Cursor) : Z := Z.of_nat (length (toks d)).

Definition token (d : Cursor) : option Token :=
  if (cursor d <? 0) || (len d <=? cursor d) then None
  else toks d !! Z.to_nat (cursor d).

Definition val (d : Cursor) : string :=
  match token d with Some t => Text t | None => "" end.

Definition move (k : Z) (d : Cursor) : Cursor :=
  mkCursor (toks d) (cursor d + k) (nesting d).

Definition nest (k : Z) (d : Cursor) : Cursor :=
  mkCursor (toks d) (cursor d) (nesting d + k).

(** [d.Next()] *)
Definition next (d : Cursor) : bool * Cursor :=
  if cursor d <? len d - 1 then (true, move 1 d) else (false, d).

Definition isNextOnNewLine (t1 t2 : Token) : bool :=
  negb (String.eqb (File t1) (File t2)) || (Line t1 <? Line t2).

(** [d.nextOnSameLine()] *)
Definition nextOnSameLine (d : Cursor) : bool * Cursor :=
  if cursor d <? 0 then (true, move 1 d)
  else if len d - 1 <=? cursor d then (false, d)
  else
    match token d, token (move 1 d) with
    | Some curr, Some next' =>
        if negb (isNextOnNewLine curr next') then (true, move 1 d) else (false, d)
    | _, _ => (false, d)
    end.

(** [d.NextArg()] *)
Definition nextArg (d : Cursor) : bool * Cursor :=
  let '(same, d) := nextOnSameLine d in
  if negb same then (false, d)
  else if String.eqb (val d) "{" then (false, move (-1) d)
  else (true, d).

(** [d.NextBlock(initialNestingLevel)] *)
Definition nextBlock (initialNestingLevel : Z) (d : Cursor) : bool * Cursor :=
  if initialNestingLevel <? nesting d then
    let '(more, d) := next d in
    if negb more then (false, d)
    else
      let d :=
        if String.eqb (val d) "}" then
          let '(same, d) := nextOnSameLine d in
          if negb same then nest (-1) d
          else if String.eqb (val d) "{" then
            let '(same, d) := nextOnSameLine d in
            if negb same then nest 1 d else d
          else d
        else if String.eqb (val d) "{" then
          let '(same, d) := nextOnSameLine d in
          if negb same then nest 1 d else d
        else d in
      (initialNestingLevel <? nesting d, d)
  else
    let '(same, d) := nextOnSameLine d in
    if negb same then (false, d)
    else if negb (String.eqb (val d) "{") then (false, move (-1) d)
    else
      let '(_, d) := next d in
      if String.eqb (val d) "}" then (false, d)
      else (true, nest 1 d).

(** The decimal numeral of a line number. *)
Definition numeral (n : Z) : string := pretty.pretty n.

(** [d.Errf(...)]: the message, and where the dispenser stands. *)
Definition errf (d : Cursor) (msg : string) : error :=
  match token d with
  | Some t => Errorf (msg +:+ ", at " +:+ File t +:+ ":" +:+ numeral (Line t))
  | None => Errorf (msg +:+ ", at :0")
  end.

(** [d.ArgErr()] *)
Definition argErr (d : Cursor) : error :=
  if String.eqb (val d) "{" then errf d "unexpected token '{', expecting argument"
  else errf d ("wrong argument count or unexpected line ending after '" +:+ val d +:+ "'").

#[export] Instance Dispenser_cursor : Dispenser Cursor := {
  Nesting := nesting;
  NextBlock := nextBlock;
  NextArg := nextArg;
  Val := val;
  ArgErr := argErr;
  Errf := errf;
  remaining d := Z.to_nat (len d - 1 - cursor d)
}.

(** The tokens of a text whose lines are given as lists of words, in the
    file [Testfile] as [caddyfile.NewTestDispenser] names it. *)
Fixpoint lex (line : Z) (text : list (list string)) : list Token :=
  match text with
  | [] => []
  | words :: text => List.map (mkToken "Testfile" line) words ++ lex (line + 1) text
  end.

Definition NewTestDispenser (text : list (list string)) : Cursor :=
  NewDispenser (lex 1 text).

(** The words of a line of a block: the name of the directive and, when the
    line has one, its argument. *)
Definition words (line : string * option string) : list string :=
  match line with
  | (name, Some arg) => [name; arg]
  | (name, None) => [name]
  end.

(** The text of a block from its opening brace on, as TestUnmarshalCaddyfile
    writes it: the brace, the lines, the closing brace. *)
Definition blockText (ls : list (string * option string)) : list (list string) :=
  ["{"] :: List.map words ls ++ [["}"]].

(** The text of a directive as a Caddyfile and TestCaddyfileParsing write
    it: the name of the directive, and its block opened on the same line. *)
Definition directiveText (name : string) (ls : list (string * option string))
  : list (list string) :=
  [name; "{"] :: List.map words ls ++ [["}"]].

(** The dispenser after [d.Next()]. *)
Definition afterNext (d : Cursor) : Cursor := (next d).2.

(** A line whose words are words and not the braces that open and close a
    block: such a name is handed out as a name, and such an argument as an
    argument. *)
Definition plain (line : string * option string) : bool :=
  negb (String.eqb line.1 "{") && negb (String.eqb line.1 "}")
  && negb (if line.2 is Some arg then String.eqb arg "{" else false).

End tokens.

(** *** The parsers of literals *)

Module literals.

(** Parsers for the literals a configuration usually holds: decimal integers
    with a sign, decimal fractions of up to 18 places with a mantissa below
    2^53 (both exact as float64, so their quotient is the nearest float64, as
    [strconv.ParseFloat] gives it), and durations made of whole numbers and
    units.  What is outside (exponents, hexadecimal, fractions of a
    duration) these implementations refuse. *)
Definition digit (a : ascii) : option Z :=
  let n := Z.of_N (N_of_ascii a) in
  if (48 <=? n) && (n <=? 57) then Some (n - 48) else None.

Fixpoint digits (acc : Z) (s : string) : option Z :=
  match s with
  | EmptyString => Some acc
  | String a s => d ← digit a; digits (10 * acc + d) s
  end.

Definition number (s : string) : option Z :=
  match s with
  | EmptyString => None
  | _ => digits 0 s
  end.

(** [s] between double quotes, as the verb [%q] prints a plain string. *)
Definition quoted (s : string) : string :=
  String (ascii_of_nat 34) (s +:+ String (ascii_of_nat 34) EmptyString).

Definition signed (s : string) : bool * string :=
  match s with
  | String "-"%char s' => (true, s')
  | String "+"%char s' => (false, s')
  | _ => (false, s)
  end.

Definition atoi (s : string) : error + Z :=
  let '(neg, body) := signed s in
  match number body with
  | None => inl (Errorf ("strconv.Atoi: parsing " +:+ quoted s +:+ ": invalid syntax"))
  | Some n =>
      let v := if neg then - n else n in
      if (- 2 ^ 63 <=? v) && (v <? 2 ^ 63) then inr v
      else inl (Errorf ("strconv.Atoi: parsing " +:+ quoted s +:+ ": value out of range"))
  end.

(** The longest prefix of characters that satisfy [p], and the rest. *)
Fixpoint span (p : ascii -> bool) (s : string) : string * string :=
  match s with
  | EmptyString => (EmptyString, EmptyString)
  | String a s' =>
      if p a then let '(l, r) := span p s' in (String a l, r)
      else (EmptyString, s)
  end.

Definition is_digit (a : ascii) : bool :=
  match digit a with Some _ => true | None => false end.

Definition parseFloat (s : string) (bitSize : Z) : error + float64 :=
  let refused := inl (Errorf ("strconv.ParseFloat: parsing " +:+ quoted s +:+ ": invalid syntax")) in
  let '(neg, body) := signed s in
  let '(whole, rest) := span is_digit body in
  let places :=
    match rest with
    | EmptyString => Some EmptyString
    | String "."%char f => if forallb is_digit (list_ascii_of_string f) then Some f else None
    | _ => None
    end in
  match places with
  | None => refused
  | Some f =>
      match number (whole +:+ f) with
      | None => refused
      | Some mantissa =>
          let k := Z.of_nat (String.length f) in
          if (mantissa <? 2 ^ 53) && (k <=? 18) then
            let v := PrimFloat.div (float64_of_int64 mantissa) (float64_of_int64 (10 ^ k)) in
            inr (if neg then PrimFloat.opp v else v)
          else refused
      end
  end.

Definition unitMap (u : string) : option Duration :=
  if String.eqb u "ns" then Some Nanosecond
  else if String.eqb u "us" then Some Microsecond
  else if String.eqb u "ms" then Some Millisecond
  else if String.eqb u "s" then Some Second
  else if String.eqb u "m" then Some (60 * Second)
  else if String.eqb u "h" then Some (3600 * Second)
  else None.

(** The terms [<number><unit>] of a duration, summed.  Every term takes at
    least one character, so the length of the text bounds their number. *)
Fixpoint terms (bound : nat) (s : string) : option Z :=
  match bound with
  | O => None
  | Datatypes.S bound =>
      let '(n, rest) := span is_digit s in
      let '(u, rest) := span (fun a => negb (is_digit a) && negb (Ascii.eqb a "."%char)) rest in
      v ← number n;
      scale ← unitMap u;
      match rest with
      | EmptyString => Some (v * scale)
      | _ => more ← terms bound rest; Some (v * scale + more)
      end
  end.

Definition parseDuration (s : string) : error + Duration :=
  let refused := inl (Errorf ("time: invalid duration " +:+ quoted s)) in
  let '(neg, body) := signed s in
  if String.eqb body "0" then inr 0
  else
    match terms (String.length body) body with
    | None => refused
    | Some v =>
        let v := if neg then - v else v in
        if (- 2 ^ 63 <=? v) && (v <? 2 ^ 63) then inr v else refused
    end.

#[export] Instance Parsers_literals : Parsers := {
  ParseFloat := parseFloat;
  Atoi := atoi;
  ParseDuration := parseDuration
}.

End literals.

(** ** The scenarios of the package's tests *)

Module scenario.
Import window nohistogram httptest tokens literals.

(** The events of a process whose requests carry nothing and whose
    downstream handler counts its calls. *)
Definition Ev : Type := @Event ResponseRecorder nat unit.

(** [cb := &Simple{Config: cfg}; cb.Provision(ctx)], at time 0. *)
Definition provision (cfg : Config) : World (list Sample) :=
  mkWorld 0 (Provision (mkSimple 0 0 None cfg)).1 [].

(** [n] calls [cb.RecordMetric(status, latency)] in a row. *)
Definition calls (n : nat) (status : Z) (latency : Duration) : list Ev :=
  replicate n (CallRecordMetric status latency).

(** The process after the events [es]; it stays where it is when they
    cannot happen. *)
Definition after (es : list Ev) (w : World (list Sample)) : World (list Sample) :=
  default w (run_all es w).

(** The aggregator of a process; an empty one stands for none. *)
Definition window_of (w : World (list Sample)) : list Sample :=
  default [] (metrics (cb w)).

(** TestErrorRatioTripping: three 200s and then 500s. *)
Definition errorRatio : World (list Sample) :=
  provision (mkConfig 0.5%float "error_ratio" (100 * Millisecond) 5).
Definition errorRatio6 : World (list Sample) :=
  after (calls 3 200 (10 * Millisecond) ++ calls 3 500 (10 * Millisecond)) errorRatio.

Definition errorRatio7 : World (list Sample) :=
  after (calls 1 500 (10 * Millisecond)) errorRatio6.

(** TestStatusRatioTripping: three 200s and then 503s.  The threshold is
    the float64 of the literal 0.4. *)
Definition statusRatio : World (list Sample) :=
  provision (mkConfig 0x1.999999999999ap-2%float "status_ratio" (100 * Millisecond) 5).
Definition statusRatio5 : World (list Sample) :=
  after (calls 3 200 (10 * Millisecond) ++ calls 2 503 (10 * Millisecond)) statusRatio.

(** TestLatencyTripping: requests of 500ms against a threshold of 10ms. *)
Definition slow : World (list Sample) :=
  provision (mkConfig 10%float "latency" (100 * Millisecond) 5).
Definition slow4 : World (list Sample) :=
  after (calls 4 200 (500 * Millisecond)) slow.

(** TestMinimumRequestsRequirement: 500s below the minimum of ten.  The
    threshold is the float64 of the literal 0.1. *)
Definition tenAtLeast : World (list Sample) :=
  provision (mkConfig 0x1.999999999999ap-4%float "error_ratio" (100 * Millisecond) 10).
Definition tenAtLeast4 : World (list Sample) :=
  after (calls 4 500 (10 * Millisecond)) tenAtLeast.

(** TestServeHTTPCircuitOpen: five 500s trip a breaker whose minimum is 1. *)
Definition opened : World (list Sample) :=
  after (calls 5 500 (10 * Millisecond))
        (provision (mkConfig 0x1.999999999999ap-4%float "error_ratio" (1 * Second) 1)).

(** TestServeHTTPCircuitClosed.  The threshold is the float64 of the
    literal 0.9. *)
Definition closed : World (list Sample) :=
  provision (mkConfig 0x1.ccccccccccccdp-1%float "error_ratio" (1 * Second) 10).

(** TestCircuitBreakerDirectiveRegistration: the block of the directive. *)
Definition block : Cursor :=
  NewTestDispenser
    [["{"]; ["threshold"; "0.1"]; ["factor"; "error_ratio"];
     ["trip_duration"; "30s"]; ["min_requests"; "5"]; ["}"]].

(** Blocks that do not parse: a threshold and a duration that are no
    literals, a name that is no directive, a directive alone on its line. *)
Definition blockBadThreshold : Cursor :=
  NewTestDispenser [["{"]; ["factor"; "latency"]; ["threshold"; "invalid"]; ["}"]].
Definition blockBadDuration : Cursor :=
  NewTestDispenser [["{"]; ["trip_duration"; "invalid"]; ["}"]].
Definition blockUnknown : Cursor :=
  NewTestDispenser [["{"]; ["unknown_option"; "value"]; ["}"]].
Definition blockBare : Cursor :=
  NewTestDispenser [["{"]; ["min_requests"]; ["}"]].

(** A second trip of the open breaker of TestErrorRatioTripping: 60ms after
    the seventh sample a further 500 is recorded, and 40ms later the sleep of
    the first recovery is over. *)
Definition trippedTwice : World (list Sample) :=
  after [Elapse (60 * Millisecond); CallRecordMetric 500 (10 * Millisecond);
         Elapse (40 * Millisecond)] errorRatio7.

(** Requests through the middleware of a breaker whose minimum is 1: the
    first is answered 500 by the handler and trips; the second is rejected;
    then time passes. *)
Definition oneAtLeast : World (list Sample) :=
  provision (mkConfig 0x1.999999999999ap-4%float "error_ratio" (1 * Second) 1).
Definition served : list Ev :=
  [CallServeHTTP NewRecorder tt (answering 500 None (7 * Millisecond)) 0%nat;
   CallServeHTTP NewRecorder tt (answering 200 None (7 * Millisecond)) 1%nat;
   Elapse (2 * Second)].

(** A configuration that [Provision] refuses, with nothing else set. *)
Definition refusedConfig : Simple (list Sample) :=
  mkSimple 0 0 None (mkConfig 0.5%float "invalid" 0 0).

(** A breaker whose threshold is NaN, and ten 500s. *)
Definition notANumber : World (list Sample) :=
  provision (mkConfig PrimFloat.nan "status_ratio" (1 * Second) 1).

(** The block of TestUnmarshalCaddyfile, and the same lines in another
    order. *)
Definition blockForth : Cursor :=
  NewTestDispenser
    [["{"]; ["threshold"; "0.25"]; ["factor"; "status_ratio"];
     ["trip_duration"; "45s"]; ["min_requests"; "15"]; ["}"]].
Definition blockBack : Cursor :=
  NewTestDispenser
    [["{"]; ["min_requests"; "15"]; ["trip_duration"; "45s"];
     ["factor"; "status_ratio"]; ["threshold"; "0.25"]; ["}"]].

(** A block that sets a zero minimum and a zero duration. *)
Definition blockZeros : Cursor :=
  NewTestDispenser
    [["{"]; ["factor"; "latency"]; ["min_requests"; "0"]; ["trip_duration"; "0s"]; ["}"]].

(** A block whose factor is none of the three. *)
Definition blockBadFactor : Cursor :=
  NewTestDispenser [["{"]; ["factor"; "errors"]; ["}"]].

(** Latencies that differ, against the threshold of 10ms of
    TestLatencyTripping: four requests of 5ms, and nineteen. *)
Definition fast4 : World (list Sample) :=
  after (calls 4 200 (5 * Millisecond)) slow.
Definition fast19 : World (list Sample) :=
  after (calls 19 200 (5 * Millisecond)) slow.

(** A latency breaker whose minimum is below zero, so that the policy looks
    at the window however few samples it holds; its window is empty. *)
Definition noMinimum : World (list Sample) :=
  provision (mkConfig 10%float "latency" (100 * Millisecond) (-1)).

(** A latency breaker provisioned on the aggregator that gives no
    histogram, with a minimum of 1. *)
Definition unmerged : World nohistogram.Unmerged :=
  mkWorld 0 (Provision (mkSimple 0 0 None
                          (mkConfig 10%float "latency" (100 * Millisecond) 1))).1 [].

(** TestCaddyfileParsing: the directive written with its name, on the
    dispenser as [caddyfile.NewTestDispenser] gives it. *)
Definition completeLines : list (string * option string) :=
  [("threshold", Some "0.7"); ("factor", Some "error_ratio"); ("trip_duration", Some "10s")].
Definition namedComplete : Cursor :=
  NewTestDispenser (directiveText "circuit_breaker" completeLines).
Definition namedMinimal : Cursor :=
  NewTestDispenser (directiveText "circuit_breaker" [("threshold", Some "0.5")]).
Definition namedBadThreshold : Cursor :=
  NewTestDispenser (directiveText "circuit_breaker" [("threshold", Some "invalid")]).
Definition namedBadDuration : Cursor :=
  NewTestDispenser (directiveText "circuit_breaker" [("trip_duration", Some "invalid")]).
Definition namedUnknown : Cursor :=
  NewTestDispenser (directiveText "circuit_breaker" [("unknown_option", Some "value")]).

(** The lines of [blockZeros] and of [blockBadFactor]. *)
Definition zerosLines : list (string * option string) :=
  [("factor", Some "latency"); ("min_requests", Some "0"); ("trip_duration", Some "0s")].
Definition badFactorLines : list (string * option string) :=
  [("factor", Some "errors")].

End scenario.

(** * Properties *)

(** Reads of fields after assignments. *)
Ltac fields :=
  unfold set_Threshold, set_Factor, set_TripDuration, set_MinRequests, set_config,
    set_tripped, set_cbFactor, set_metrics in *;
  cbn [config Threshold Factor TripDuration MinRequests tripped cbFactor metrics
       now cb sleeping] in *.

(** ** Provisioning *)

Section Provisioning.
Context {M H : Type} `{RTMetrics M H}.
Implicit Types c : Simple M.

Lemma typeCB_lookup (factor : string) (f : Z) :
  typeCB !! factor = Some f <->
  (factor = "latency" /\ f = factorLatency)
  \/ (factor = "error_ratio" /\ f = factorErrorRatio)
  \/ (factor = "status_ratio" /\ f = factorStatusCodeRatio).
Proof.
  unfold typeCB.
  rewrite !lookup_insert_Some, lookup_empty.
  split.
  - intros [[-> <-] | [? [[-> <-] | [? [[-> <-] | [? ?]]]]]]; auto; discriminate.
  - intros [[-> ->] | [[-> ->] | [-> ->]]].
    + left; auto.
    + right; split; [discriminate |]. left; auto.
    + right; split; [discriminate |]. right; split; [discriminate |]. left; auto.
Qed.

Lemma typeCB_valid (factor : string) :
  is_Some (typeCB !! factor) <-> factor ∈ ["latency"; "error_ratio"; "status_ratio"].
Proof.
  rewrite !elem_of_cons, elem_of_nil. split.
  - intros [f Hf]. apply typeCB_lookup in Hf. tauto.
  - intros [-> | [-> | [-> | []]]]; eexists; reflexivity.
Qed.

Lemma typeCB_invalid (factor : string) :
  typeCB !! factor = None <-> factor ∉ ["latency"; "error_ratio"; "status_ratio"].
Proof.
  rewrite <- typeCB_valid, eq_None_not_Some. reflexivity.
Qed.

(** The factor [Provision] works with: the configured one, or the default. *)
Lemma Provision_factor c :
  Factor (config (Provision c).1)
  = if String.eqb (Factor (config c)) "" then "error_ratio" else Factor (config c).
Proof.
  unfold Provision.
  destruct (String.eqb (Factor (config c)) ""); destruct (MinRequests (config _) =? 0);
    cbn; destruct (typeCB !! _); cbn;
    repeat (match goal with |- context [if ?b then _ else _] => destruct b end; cbn);
    try destruct NewRTMetrics; reflexivity.
Qed.

(** [Provision] as one case distinction over the receiver it is given. *)
Lemma Provision_cases c :
  let factor := if String.eqb (Factor (config c)) "" then "error_ratio" else Factor (config c) in
  let minRequests := if MinRequests (config c) =? 0 then 10 else MinRequests (config c) in
  let tripDuration :=
    if TripDuration (config c) =? 0 then defaultTripDuration else TripDuration (config c) in
  Provision c =
    match typeCB !! factor with
    | None =>
        (mkSimple (tripped c) (cbFactor c) (metrics c)
           (mkConfig (Threshold (config c)) factor (TripDuration (config c)) minRequests),
         Some (Errorf ("invalid factor '" +:+ factor
                         +:+ "', must be one of: latency, error_ratio, status_ratio")))
    | Some f =>
        match NewRTMetrics with
        | inl err =>
            (mkSimple (tripped c) (cbFactor c) (metrics c)
               (mkConfig (Threshold (config c)) factor tripDuration minRequests),
             Some (Errorf ("cannot create new metrics: " +:+ Error err)))
        | inr mt =>
            (mkSimple 0 f (Some mt)
               (mkConfig (Threshold (config c)) factor tripDuration minRequests), None)
        end
    end.
Proof.
  destruct c as [t f m [th fa td mr]]. unfold Provision. cbv zeta. fields.
  destruct (String.eqb fa ""); fields;
    (destruct (mr =? 0); fields;
     (destruct (typeCB !! _); [| reflexivity]);
     destruct (td =? 0); fields; destruct NewRTMetrics; reflexivity).
Qed.

(** C6.  [Provision] takes "error_ratio" for an empty [Factor] and 10 for a
    [MinRequests] of zero, and leaves [Threshold] alone.  When the factor,
    so defaulted, is none of latency, error_ratio and status_ratio, it
    returns the error that quotes the factor and lists the three.  Otherwise
    it fails only if no aggregator can be made.  When it returns no error,
    the factor is one of the three, a [TripDuration] of zero has become five
    seconds, [cbFactor] is the code of the factor, the aggregator is a fresh
    one, and the breaker is closed: [OK] answers true. *)
Theorem C6_Provision_defaults_and_validates c :
  let factor := if String.eqb (Factor (config c)) "" then "error_ratio" else Factor (config c) in
  let c' := (Provision c).1 in
  Factor (config c') = factor
  /\ MinRequests (config c') = (if MinRequests (config c) =? 0 then 10 else MinRequests (config c))
  /\ Threshold (config c') = Threshold (config c)
  /\ (factor ∉ ["latency"; "error_ratio"; "status_ratio"] ->
      (Provision c).2 =
        Some (Errorf ("invalid factor '" +:+ factor
                        +:+ "', must be one of: latency, error_ratio, status_ratio")))
  /\ (factor ∈ ["latency"; "error_ratio"; "status_ratio"] ->
      forall mt : M, NewRTMetrics = inr mt -> (Provision c).2 = None)
  /\ ((Provision c).2 = None ->
      factor ∈ ["latency"; "error_ratio"; "status_ratio"]
      /\ TripDuration (config c') =
           (if TripDuration (config c) =? 0 then 5 * Second else TripDuration (config c))
      /\ provisioned c'
      /\ (exists mt : M, NewRTMetrics = inr mt /\ metrics c' = Some mt)
      /\ tripped c' = 0
      /\ OK c' = true).
Proof.
  intros factor c'. subst c'. rewrite (Provision_cases c). cbv zeta. fold factor.
  destruct (typeCB !! factor) as [f |] eqn:Hf.
  - assert (Hin : factor ∈ ["latency"; "error_ratio"; "status_ratio"])
      by (apply typeCB_valid; eauto).
    destruct NewRTMetrics as [e | mt] eqn:Hnew; cbn.
    + repeat split; try reflexivity; try discriminate.
      intros Hbad. contradiction.
    + repeat split; try reflexivity; try assumption; try discriminate.
      * intros Hbad. contradiction.
      * exists mt. split; reflexivity.
  - apply typeCB_invalid in Hf. cbn.
    repeat split; try reflexivity; try discriminate.
    intros Hin. contradiction.
Qed.

End Provisioning.

(** ** The trip policy *)

Section Policy.
Context {M H : Type} `{RTMetrics M H}.
Implicit Types (c : Simple M) (w : World M) (m : M).

Lemma RecordMetric_with_sample w statusCode latency m :
  metrics (cb w) = Some m ->
  RecordMetric statusCode latency w = checkAndSet (with_sample statusCode latency m w).
Proof. intros Hm. unfold RecordMetric. rewrite Hm. reflexivity. Qed.

(** [checkAndSet] below the minimum of requests returns at once. *)
Lemma checkAndSet_below w m :
  metrics (cb w) = Some m ->
  TotalCount (now w) m < MinRequests (config (cb w)) ->
  checkAndSet w = Some w.
Proof.
  intros Hm Hlt. unfold checkAndSet. rewrite Hm. cbn.
  apply Z.ltb_lt in Hlt. rewrite Hlt. reflexivity.
Qed.

(** [checkAndSet] with the minimum of requests reached does what the
    [switch] decides: it returns, it leaves [isTripped] false, or it trips. *)
Lemma checkAndSet_reached w m :
  metrics (cb w) = Some m ->
  MinRequests (config (cb w)) <= TotalCount (now w) m ->
  checkAndSet w =
    match evaluate (now w) m (cb w) with
    | Some true => Some (go_recover (store_tripped 1 w))
    | _ => Some w
    end.
Proof.
  intros Hm Hle. unfold checkAndSet. rewrite Hm. cbn.
  apply Z.ltb_ge in Hle. rewrite Hle.
  destruct (evaluate (now w) m (cb w)) as [[|] |]; reflexivity.
Qed.

(** A list is not its own extension. *)
Lemma cons_not_self {A : Type} (x : A) (l : list A) : l <> x :: l.
Proof. intros Heq. apply (f_equal length) in Heq. cbn in Heq. lia. Qed.

(** The step that trips, and the step that does not. *)
Lemma trips_go_recover w0 w :
  sleeping w = sleeping w0 ->
  trips w0 (go_recover (store_tripped 1 w)) /\ OK (cb (go_recover (store_tripped 1 w))) = false.
Proof.
  intros Hs. unfold trips, go_recover, store_tripped, OK. fields. rewrite Hs. auto.
Qed.

Lemma not_trips_same w0 w : sleeping w = sleeping w0 -> ~ trips w0 w.
Proof. intros Hs [_ Hcons]. rewrite Hs in Hcons. exact (cons_not_self _ _ Hcons). Qed.

(** What a call of [RecordMetric] comes to once the [switch] has set
    [isTripped]. *)
Lemma RecordMetric_decided w statusCode latency m (isTripped : bool) :
  metrics (cb w) = Some m ->
  let m1 := Record_ (now w) statusCode latency m in
  MinRequests (config (cb w)) <= TotalCount (now w) m1 ->
  evaluate (now w) m1 (cb w) = Some isTripped ->
  exists w',
    RecordMetric statusCode latency w = Some w'
    /\ (trips w w' <-> isTripped = true)
    /\ (isTripped = true -> OK (cb w') = false)
    /\ (isTripped = false -> w' = with_sample statusCode latency m w)
    /\ (OK (cb w) = true -> (OK (cb w') = false <-> isTripped = true)).
Proof.
  intros Hm m1 Hle Hev.
  rewrite (RecordMetric_with_sample _ _ _ _ Hm).
  rewrite (checkAndSet_reached (with_sample statusCode latency m w) m1); [| reflexivity | exact Hle].
  change (evaluate (now (with_sample statusCode latency m w)) m1 (cb (with_sample statusCode latency m w)))
    with (evaluate (now w) m1 (set_metrics (Some m1) (cb w))).
  assert (Hev' : evaluate (now w) m1 (set_metrics (Some m1) (cb w)) = Some isTripped)
    by exact Hev.
  rewrite Hev'.
  destruct isTripped.
  - eexists. split; [reflexivity |].
    destruct (trips_go_recover w (with_sample statusCode latency m w) eq_refl) as [Ht Hok].
    repeat split; auto; discriminate.
  - eexists. split; [reflexivity |].
    repeat split; try discriminate; auto.
    + intros Ht. exfalso. revert Ht. apply not_trips_same. reflexivity.
    + intros Hko. unfold with_sample, OK in *. fields. congruence.
Qed.

(** Whatever the policy decides, a call of [RecordMetric] that returns has
    recorded the sample, and has either done nothing else or tripped. *)
Lemma RecordMetric_effect w statusCode latency w' :
  RecordMetric statusCode latency w = Some w' ->
  exists m,
    metrics (cb w) = Some m
    /\ (w' = with_sample statusCode latency m w
        \/ w' = go_recover (store_tripped 1 (with_sample statusCode latency m w))).
Proof.
  unfold RecordMetric. destruct (metrics (cb w)) as [m |] eqn:Hm; [| discriminate].
  cbn. intros Hc. exists m. split; [reflexivity |].
  unfold checkAndSet in Hc. cbn in Hc.
  destruct (_ <? _) in Hc; [left; congruence |].
  destruct (evaluate _ _ _) as [[|] |] in Hc; [right | left | left]; congruence.
Qed.

Lemma RecordMetric_returns w statusCode latency :
  is_Some (metrics (cb w)) -> is_Some (RecordMetric statusCode latency w).
Proof.
  intros [m Hm]. unfold RecordMetric. rewrite Hm. cbn.
  unfold checkAndSet. cbn.
  destruct (_ <? _); [eauto |].
  destruct (evaluate _ _ _) as [[|] |]; eauto.
Qed.

End Policy.

Section Factors.
Context {M H : Type} `{RTMetrics M H}.
Implicit Types (c : Simple M) (w : World M) (m : M).

Lemma provisioned_cbFactor c (factor : string) :
  provisioned c -> Factor (config c) = factor ->
  typeCB !! factor = Some (cbFactor c).
Proof. unfold provisioned. intros Hp <-. exact Hp. Qed.

Lemma evaluate_error_ratio (t : Time) m c :
  provisioned c -> Factor (config c) = "error_ratio" ->
  evaluate t m c =
    Some (gt (NetworkErrorRatio t m) (Threshold (config c))
          || gt (ResponseCodeRatio t 500 600 0 600 m) (Threshold (config c))).
Proof.
  intros Hp Hf. pose proof (provisioned_cbFactor c _ Hp Hf) as Hc.
  apply typeCB_lookup in Hc. destruct Hc as [[? _] | [[_ Hc] | [? _]]]; try discriminate.
  unfold evaluate. rewrite Hc. reflexivity.
Qed.

Lemma evaluate_status_ratio (t : Time) m c :
  provisioned c -> Factor (config c) = "status_ratio" ->
  evaluate t m c = Some (gt (ResponseCodeRatio t 500 600 0 600 m) (Threshold (config c))).
Proof.
  intros Hp Hf. pose proof (provisioned_cbFactor c _ Hp Hf) as Hc.
  apply typeCB_lookup in Hc. destruct Hc as [[? _] | [[? _] | [_ Hc]]]; try discriminate.
  unfold evaluate. rewrite Hc. reflexivity.
Qed.

Lemma evaluate_latency (t : Time) m c :
  provisioned c -> Factor (config c) = "latency" ->
  evaluate t m c =
    match LatencyHistogram t m with
    | inl _ => None
    | inr hist =>
        Some (gt (PrimFloat.div
                    (float64_of_int64 (Nanoseconds (LatencyAtQuantile quantile95 hist)))
                    (float64_of_int64 Millisecond))
                 (Threshold (config c)))
    end.
Proof.
  intros Hp Hf. pose proof (provisioned_cbFactor c _ Hp Hf) as Hc.
  apply typeCB_lookup in Hc. destruct Hc as [[_ Hc] | [[? _] | [? _]]]; try discriminate.
  unfold evaluate. rewrite Hc. reflexivity.
Qed.

(** C3.  When the window, with the new sample in it, counts fewer than
    [MinRequests] samples, [RecordMetric] records the sample and nothing
    else: the flag, the answer of [OK] and the sleeping goroutines are as
    before, whatever the factor, the threshold and the window are. *)
Theorem C3_below_MinRequests_nothing_happens w (statusCode : Z) (latency : Duration) m :
  metrics (cb w) = Some m ->
  TotalCount (now w) (Record_ (now w) statusCode latency m) < MinRequests (config (cb w)) ->
  exists w',
    RecordMetric statusCode latency w = Some w'
    /\ w' = with_sample statusCode latency m w
    /\ tripped (cb w') = tripped (cb w)
    /\ OK (cb w') = OK (cb w)
    /\ sleeping w' = sleeping w
    /\ ~ trips w w'.
Proof.
  intros Hm Hlt. exists (with_sample statusCode latency m w).
  rewrite (RecordMetric_with_sample _ _ _ _ Hm).
  rewrite (checkAndSet_below _ (Record_ (now w) statusCode latency m)); [| reflexivity | exact Hlt].
  repeat split. apply not_trips_same. reflexivity.
Qed.

(** C2.  With the factor error_ratio and at least [MinRequests] samples in
    the window once the new one is recorded, [RecordMetric] trips exactly
    when the ratio of network errors or the ratio of 5xx responses, read
    after the recording, is above [Threshold].  Tripping leaves [OK] false;
    otherwise only the sample is recorded.  For a closed breaker, [OK] is
    false afterwards exactly when one of the two ratios is above. *)
Theorem C2_error_ratio_trips_iff_either_ratio_exceeds
    w (statusCode : Z) (latency : Duration) m :
  metrics (cb w) = Some m ->
  provisioned (cb w) ->
  Factor (config (cb w)) = "error_ratio" ->
  let m1 := Record_ (now w) statusCode latency m in
  MinRequests (config (cb w)) <= TotalCount (now w) m1 ->
  let exceeded :=
    gt (NetworkErrorRatio (now w) m1) (Threshold (config (cb w)))
    || gt (ResponseCodeRatio (now w) 500 600 0 600 m1) (Threshold (config (cb w))) in
  exists w',
    RecordMetric statusCode latency w = Some w'
    /\ (trips w w' <-> exceeded = true)
    /\ (exceeded = true -> OK (cb w') = false)
    /\ (exceeded = false -> w' = with_sample statusCode latency m w)
    /\ (OK (cb w) = true -> (OK (cb w') = false <-> exceeded = true)).
Proof.
  intros Hm Hp Hf m1 Hle exceeded.
  apply RecordMetric_decided; [exact Hm | exact Hle |].
  apply evaluate_error_ratio; assumption.
Qed.

(** C8.  With the factor status_ratio and at least [MinRequests] samples in
    the window once the new one is recorded, [RecordMetric] trips exactly
    when the ratio of 5xx responses, read after the recording, is above
    [Threshold]; no other reading of the aggregator enters. *)
Theorem C8_status_ratio_trips_iff_5xx_ratio_exceeds
    w (statusCode : Z) (latency : Duration) m :
  metrics (cb w) = Some m ->
  provisioned (cb w) ->
  Factor (config (cb w)) = "status_ratio" ->
  let m1 := Record_ (now w) statusCode latency m in
  MinRequests (config (cb w)) <= TotalCount (now w) m1 ->
  let exceeded := gt (ResponseCodeRatio (now w) 500 600 0 600 m1) (Threshold (config (cb w))) in
  exists w',
    RecordMetric statusCode latency w = Some w'
    /\ (trips w w' <-> exceeded = true)
    /\ (exceeded = true -> OK (cb w') = false)
    /\ (exceeded = false -> w' = with_sample statusCode latency m w)
    /\ (OK (cb w) = true -> (OK (cb w') = false <-> exceeded = true)).
Proof.
  intros Hm Hp Hf m1 Hle exceeded.
  apply RecordMetric_decided; [exact Hm | exact Hle |].
  apply evaluate_status_ratio; assumption.
Qed.

End Factors.

(** ** The middleware *)

Section Serving.
Context {M H : Type} `{RTMetrics M H}.
Context {W : Type} `{ResponseWriter W}.
Context {S R : Type}.
Implicit Types (c : Simple M) (w : World M) (m : M).
Implicit Types (wr : W) (r : R) (s : S) (next : Handler W S R).

(** The status the middleware records for a downstream call. *)
Lemma ServeHTTP_closed wr r next s w :
  OK (cb w) = true ->
  let served := next wr r s in
  let status := if returned served is Some _ then 500 else Status served in
  ServeHTTP wr r next s w =
    w' ← RecordMetric status (took served) (mkWorld (now w + took served) (cb w) (sleeping w));
    Some (mkResult w' (writer served) (state served) (returned served)).
Proof.
  intros Hok served status. unfold ServeHTTP. rewrite Hok. cbn [negb]. cbv zeta.
  cbn [now]. fold served.
  replace (now w + took served - now w) with (took served) by lia.
  reflexivity.
Qed.

(** C4.  While the breaker is open, [ServeHTTP] writes the status 503 and
    then the body "Service Unavailable - Circuit Breaker Open" to the
    writer, and returns no error.  The process is as it was, so no metric
    was recorded; the downstream handler's state is as it was and the result
    does not depend on the handler, which is not called. *)
Theorem C4_open_rejects_with_503 wr r next s w :
  OK (cb w) = false ->
  ServeHTTP wr r next s w =
    Some (mkResult w
            (Write "Service Unavailable - Circuit Breaker Open" (WriteHeader 503 wr))
            s None).
Proof.
  intros Hko. unfold ServeHTTP. rewrite Hko. reflexivity.
Qed.

(** C5.  While the breaker is closed (and provisioned, so that [metrics]
    is not nil), [ServeHTTP] calls the downstream handler once, on the
    writer, request and handler state it was given; it then calls
    [RecordMetric], at the time the handler returned, with the status the
    recorder holds, or 500 when the handler returned an error, and with the
    time the call took; what it returns is the handler's error or nil, with
    the writer and state the handler left, and the process [RecordMetric]
    left. *)
Theorem C5_closed_forwards_and_records wr r next s w m :
  OK (cb w) = true ->
  metrics (cb w) = Some m ->
  let served := next wr r s in
  let status := if returned served is Some _ then 500 else Status served in
  let returning := mkWorld (now w + took served) (cb w) (sleeping w) in
  exists w',
    RecordMetric status (took served) returning = Some w'
    /\ metrics (cb w') = Some (Record_ (now w + took served) status (took served) m)
    /\ ServeHTTP wr r next s w
       = Some (mkResult w' (writer served) (state served) (returned served)).
Proof.
  intros Hok Hm served status returning.
  rewrite (ServeHTTP_closed wr r next s w Hok). cbv zeta.
  fold served. fold status. fold returning.
  destruct (RecordMetric_returns returning status (took served)) as [w' Hw'];
    [exists m; exact Hm |].
  exists w'. rewrite Hw'. repeat split.
  apply RecordMetric_effect in Hw'. destruct Hw' as (m' & Hm' & Hw').
  assert (m' = m) as -> by (cbn in Hm'; congruence).
  destruct Hw' as [-> | ->]; reflexivity.
Qed.

End Serving.

(** ** The process over time: trips and recoveries *)

Section Process.
Context {M H : Type} `{RTMetrics M H}.
Context {W : Type} `{ResponseWriter W}.
Context {S R : Type}.
Implicit Types (c : Simple M) (w : World M) (m : M).
Implicit Types (e : @Event W S R) (es : list (@Event W S R)).

Lemma RecordMetric_Change w0 w statusCode latency w' e :
  sleeping w = sleeping w0 -> tripped (cb w) = tripped (cb w0) ->
  RecordMetric statusCode latency w = Some w' ->
  Change w0 e w'.
Proof.
  intros Hs Ht Hrun. apply RecordMetric_effect in Hrun.
  destruct Hrun as (m & Hm & [-> | ->]).
  - apply Change_plain; cbn; assumption.
  - apply Change_trip. apply trips_go_recover. exact Hs.
Qed.

Lemma run_Change e w w' : run e w = Some w' -> Change w e w'.
Proof.
  destruct e as [statusCode latency | wr r next s | | d | i]; cbn.
  - apply RecordMetric_Change; reflexivity.
  - unfold ServeHTTP. destruct (negb (OK (cb w))).
    + cbn. intros [= <-]. apply Change_plain; reflexivity.
    + cbv zeta. destruct (RecordMetric _ _ _) as [w1 |] eqn:Hrec; [| discriminate].
      cbn. intros [= <-]. revert Hrec. apply RecordMetric_Change; reflexivity.
  - intros [= <-]. apply Change_plain; reflexivity.
  - destruct (0 <=? d); [| discriminate]. intros [= <-]. apply Change_plain; reflexivity.
  - unfold wake. destruct (sleeping w !! i) as [t |] eqn:Hi; [| discriminate]. cbn.
    destruct (t <=? now w) eqn:Ht; [| discriminate].
    unfold recovery. cbn. destruct (metrics (cb w)); [| discriminate]. cbn.
    intros [= <-]. apply (Change_wake _ _ _ i t); auto. apply Z.leb_le, Ht.
Qed.

(** No step changes the configuration, and no step that happens leaves the
    breaker without its aggregator. *)
Lemma run_config e w w' :
  run e w = Some w' -> config (cb w') = config (cb w) /\ cbFactor (cb w') = cbFactor (cb w).
Proof.
  destruct e as [statusCode latency | wr r next s | | d | i]; cbn.
  - intros Hrun. apply RecordMetric_effect in Hrun.
    destruct Hrun as (m & Hm & [-> | ->]); split; reflexivity.
  - unfold ServeHTTP. destruct (negb (OK (cb w))).
    + cbn. intros [= <-]. split; reflexivity.
    + cbv zeta. destruct (RecordMetric _ _ _) as [w1 |] eqn:Hrec; [| discriminate].
      cbn. intros [= <-]. apply RecordMetric_effect in Hrec.
      destruct Hrec as (m & Hm & [-> | ->]); split; reflexivity.
  - intros [= <-]. split; reflexivity.
  - destruct (0 <=? d); [| discriminate]. intros [= <-]. split; reflexivity.
  - unfold wake. destruct (sleeping w !! i) as [t |]; [| discriminate]. cbn.
    destruct (t <=? now w); [| discriminate].
    unfold recovery. cbn. destruct (metrics (cb w)); [| discriminate]. cbn.
    intros [= <-]. split; reflexivity.
Qed.

Lemma run_metrics e w w' :
  run e w = Some w' -> is_Some (metrics (cb w)) -> is_Some (metrics (cb w')).
Proof.
  destruct e as [statusCode latency | wr r next s | | d | i]; cbn.
  - intros Hrun _. apply RecordMetric_effect in Hrun.
    destruct Hrun as (m & Hm & [-> | ->]); cbn; eauto.
  - unfold ServeHTTP. destruct (negb (OK (cb w))).
    + cbn. intros [= <-]. auto.
    + cbv zeta. destruct (RecordMetric _ _ _) as [w1 |] eqn:Hrec; [| discriminate].
      cbn. intros [= <-] _. apply RecordMetric_effect in Hrec.
      destruct Hrec as (m & Hm & [-> | ->]); cbn; eauto.
  - intros [= <-]. auto.
  - destruct (0 <=? d); [| discriminate]. intros [= <-]. auto.
  - unfold wake. destruct (sleeping w !! i) as [t |]; [| discriminate]. cbn.
    destruct (t <=? now w); [| discriminate].
    unfold recovery. cbn. destruct (metrics (cb w)); [| discriminate]. cbn.
    intros [= <-] _. cbn. eauto.
Qed.

Lemma run_all_metrics es : forall w w',
  run_all es w = Some w' -> is_Some (metrics (cb w)) -> is_Some (metrics (cb w')).
Proof.
  induction es as [| e es IH]; cbn; intros w w'.
  - intros [= <-]. auto.
  - destruct (run e w) as [w1 |] eqn:Hrun; [| discriminate]. cbn.
    intros Hall Hm. apply (IH w1); [exact Hall |]. exact (run_metrics _ _ _ Hrun Hm).
Qed.

Lemma run_all_app es1 es2 w :
  run_all (es1 ++ es2) w = w1 ← run_all es1 w; run_all es2 w1.
Proof.
  revert w. induction es1 as [| e es1 IH]; intros w; cbn; [reflexivity |].
  destruct (run e w) as [w1 |]; cbn; [apply IH | reflexivity].
Qed.

(** The waking of a goroutine, spelled out. *)
Lemma wake_cases (i : nat) (t : Time) w m :
  sleeping w !! i = Some t ->
  metrics (cb w) = Some m ->
  wake i w =
    if t <=? now w
    then Some (mkWorld (now w) (set_metrics (Some (Reset m)) (set_tripped 0 (cb w)))
                 (delete i (sleeping w)))
    else None.
Proof.
  intros Hi Hm. unfold wake. rewrite Hi. cbn.
  destruct (t <=? now w); [| reflexivity].
  unfold recovery. cbn. rewrite Hm. reflexivity.
Qed.

End Process.

Section Recovery.
Context {M H : Type} `{RTMetrics M H}.
Context {W : Type} `{ResponseWriter W}.
Context {S R : Type}.
Implicit Types (c : Simple M) (w : World M) (m : M).
Implicit Types (e : @Event W S R) (es : list (@Event W S R)).

(** Every goroutine asleep was asleep at the start or was started by a trip
    since. *)
Lemma sleeping_started es : forall w0 w (t : Time),
  run_all es w0 = Some w ->
  t ∈ sleeping w ->
  t ∈ sleeping w0 \/ started_by_trip w0 es t.
Proof.
  induction es as [| e es IH]; cbn; intros w0 w t.
  - intros [= <-]. auto.
  - destruct (run e w0) as [w1 |] eqn:Hrun; [| discriminate]. cbn.
    intros Hall Hin. destruct (IH w1 w t Hall Hin) as [Hin1 | Hlater].
    + destruct (run_Change _ _ _ Hrun) as [_ Hs | [Htr Hs] | i t' _ _ _ _ _ Hs].
      * left. rewrite <- Hs. exact Hin1.
      * rewrite Hs in Hin1. apply elem_of_cons in Hin1. destruct Hin1 as [-> | Hin0].
        -- right. exists [], e, es, w0, w1. repeat split; auto.
        -- left. exact Hin0.
      * left. rewrite Hs in Hin1. exact (list_elem_of_delete_inv _ _ _ Hin1).
    + right. destruct Hlater as (es1 & e1 & es2 & wa & wb & -> & Hpre & Hstep & Htr & ->).
      exists (e :: es1), e1, es2, wa, wb.
      split; [reflexivity |]. split; [cbn; rewrite Hrun; exact Hpre |].
      split; [exact Hstep |]. split; [exact Htr | reflexivity].
Qed.

(** C1.  When the policy trips (the minimum of requests is reached and the
    [switch] sets [isTripped]), [RecordMetric] stores 1 in the flag, so [OK]
    is false, and starts a goroutine that sleeps until [TripDuration] after
    the trip.  Whatever happens next (any events [es]: traffic, time, other
    goroutines), as long as that goroutine is asleep it cannot wake before
    that time, and from that time on it can; when it wakes it stores 0 in
    the flag and resets the aggregator, whatever they hold, and is gone: [OK]
    is true and [TotalCount] is 0. *)
Theorem C1_trip_opens_and_timed_recovery_closes `{!ResetClears M H}
    w (statusCode : Z) (latency : Duration) m :
  metrics (cb w) = Some m ->
  let m1 := Record_ (now w) statusCode latency m in
  MinRequests (config (cb w)) <= TotalCount (now w) m1 ->
  evaluate (now w) m1 (cb w) = Some true ->
  let deadline := now w + TripDuration (config (cb w)) in
  exists w1,
    RecordMetric statusCode latency w = Some w1
    /\ tripped (cb w1) = 1
    /\ OK (cb w1) = false
    /\ sleeping w1 = deadline :: sleeping w
    /\ forall es w2 (i : nat),
         run_all es w1 = Some w2 ->
         sleeping w2 !! i = Some deadline ->
         (now w2 < deadline -> wake i w2 = None)
         /\ (deadline <= now w2 ->
             exists w3 m2,
               wake i w2 = Some w3
               /\ metrics (cb w2) = Some m2
               /\ cb w3 = set_metrics (Some (Reset m2)) (set_tripped 0 (cb w2))
               /\ sleeping w3 = delete i (sleeping w2)
               /\ OK (cb w3) = true
               /\ TotalCount (now w3) (Reset m2) = 0).
Proof.
  intros Hm m1 Hle Hev deadline.
  destruct (RecordMetric_decided w statusCode latency m true Hm Hle Hev)
    as (w1 & Hrun & Htrips & Hok & _ & _).
  exists w1. split; [exact Hrun |].
  pose proof (RecordMetric_effect _ _ _ _ Hrun) as (m' & Hm' & Hw1).
  assert (m' = m) as -> by congruence.
  destruct Hw1 as [-> | ->].
  { exfalso. destruct (proj2 Htrips eq_refl) as [_ Hs]. cbn in Hs.
    exact (cons_not_self _ _ Hs). }
  split; [reflexivity |]. split; [reflexivity |]. split; [reflexivity |].
  intros es w2 i Hall Hi.
  destruct (run_all_metrics es _ _ Hall) as [m2 Hm2]; [cbn; eauto |].
  rewrite (wake_cases i deadline w2 m2 Hi Hm2).
  split.
  - intros Hlt. apply Z.leb_gt in Hlt. rewrite Hlt. reflexivity.
  - intros Hdue. apply Z.leb_le in Hdue. rewrite Hdue.
    eexists _, m2. repeat split; try reflexivity; try assumption.
    apply TotalCount_Reset.
Qed.

(** C10.  A call of [RecordMetric] leaves the flag as it was or sets it to
    1.  And in a process that began with no goroutine asleep, a step that
    finds the breaker open and leaves it closed is the waking of a goroutine
    that a trip among the earlier steps started, no sooner than
    [TripDuration] after that trip. *)
Theorem C10_only_the_timed_recovery_closes :
  (forall w (statusCode : Z) (latency : Duration) w',
     RecordMetric statusCode latency w = Some w' ->
     tripped (cb w') = tripped (cb w) \/ tripped (cb w') = 1)
  /\ (forall w0 es w e w',
       sleeping w0 = [] ->
       run_all es w0 = Some w ->
       run e w = Some w' ->
       OK (cb w) = false ->
       OK (cb w') = true ->
       exists (i : nat) (t : Time),
         e = Wake i
         /\ sleeping w !! i = Some t
         /\ started_by_trip w0 es t
         /\ t <= now w).
Proof.
  split.
  - intros w statusCode latency w' Hrun.
    apply RecordMetric_effect in Hrun. destruct Hrun as (m & _ & [-> | ->]); auto.
  - intros w0 es w e w' Hnone Hall Hrun Hko Hok.
    destruct (run_Change _ _ _ Hrun) as [Ht _ | [Ht _] | i t He Hi Hdue _ _ _].
    + unfold OK in *. rewrite Ht in Hok. congruence.
    + unfold OK in *. rewrite Ht in Hok. discriminate.
    + exists i, t. repeat split; auto.
      destruct (sleeping_started es w0 w t Hall) as [Hin | Hst]; [| | exact Hst].
      * exact (list_elem_of_lookup_2 _ _ _ Hi).
      * rewrite Hnone in Hin. apply elem_of_nil in Hin. contradiction.
Qed.

End Recovery.

Section Latency.
Context {M H : Type} `{RTMetrics M H}.
Context {W : Type} `{ResponseWriter W}.
Context {S R : Type}.
Implicit Types (c : Simple M) (w : World M) (m : M).
Implicit Types (wr : W) (r : R) (s : S) (next : Handler W S R).

(** Without a histogram the latency case returns from [checkAndSet]. *)
Lemma RecordMetric_no_histogram w (statusCode : Z) (latency : Duration) m (e : error) :
  metrics (cb w) = Some m ->
  provisioned (cb w) ->
  Factor (config (cb w)) = "latency" ->
  LatencyHistogram (now w) (Record_ (now w) statusCode latency m) = inl e ->
  RecordMetric statusCode latency w = Some (with_sample statusCode latency m w).
Proof.
  intros Hm Hp Hf Hhist.
  rewrite (RecordMetric_with_sample _ _ _ _ Hm).
  unfold checkAndSet. cbn [with_sample cb metrics set_metrics now]. cbn [mbind option_bind].
  destruct (_ <? _); [reflexivity |].
  rewrite evaluate_latency; [| exact Hp | exact Hf].
  rewrite Hhist. reflexivity.
Qed.

(** A pass of the policy over a window that has no histogram leaves
    everything as it is. *)
Lemma checkAndSet_no_histogram w m (e : error) :
  metrics (cb w) = Some m ->
  provisioned (cb w) ->
  Factor (config (cb w)) = "latency" ->
  LatencyHistogram (now w) m = inl e ->
  checkAndSet w = Some w.
Proof.
  intros Hm Hp Hf Hhist. unfold checkAndSet. rewrite Hm. cbn [mbind option_bind].
  destruct (_ <? _); [reflexivity |].
  rewrite evaluate_latency; [| exact Hp | exact Hf].
  rewrite Hhist. reflexivity.
Qed.

(** C7.  With the factor latency and at least [MinRequests] samples in the
    window once the new one is recorded: when the aggregator gives a
    histogram, [RecordMetric] trips exactly when the latency at the quantile
    0.95 (the float64 of that literal), its nanoseconds divided by those of a
    millisecond, is above [Threshold]; when the aggregator gives an error
    instead, [RecordMetric] records the sample and nothing else.  In that
    case a request served by a closed breaker comes back with the downstream
    handler's own result, the breaker as it was but for the sample.  And a
    pass of the policy over a window as it stands that has no histogram, the
    empty one for instance, leaves the breaker as it is. *)
#[warnings="-inexact-float"] Theorem C7_latency_p95_trips_and_missing_histogram_skips
    w (statusCode : Z) (latency : Duration) m :
  metrics (cb w) = Some m ->
  provisioned (cb w) ->
  Factor (config (cb w)) = "latency" ->
  let m1 := Record_ (now w) statusCode latency m in
  MinRequests (config (cb w)) <= TotalCount (now w) m1 ->
  match LatencyHistogram (now w) m1 with
  | inr hist =>
      let l := LatencyAtQuantile 0.95%float hist in
      let exceeded :=
        gt (PrimFloat.div (float64_of_int64 (Nanoseconds l)) (float64_of_int64 Millisecond))
           (Threshold (config (cb w))) in
      exists w',
        RecordMetric statusCode latency w = Some w'
        /\ (trips w w' <-> exceeded = true)
        /\ (exceeded = true -> OK (cb w') = false)
        /\ (exceeded = false -> w' = with_sample statusCode latency m w)
        /\ (OK (cb w) = true -> (OK (cb w') = false <-> exceeded = true))
  | inl _ =>
      RecordMetric statusCode latency w = Some (with_sample statusCode latency m w)
  end
  /\ (forall wr r next s,
       OK (cb w) = true ->
       let served := next wr r s in
       let status := if returned served is Some _ then 500 else Status served in
       let returning := mkWorld (now w + took served) (cb w) (sleeping w) in
       forall e : error,
         LatencyHistogram (now returning) (Record_ (now returning) status (took served) m) = inl e ->
         ServeHTTP wr r next s w =
           Some (mkResult (with_sample status (took served) m returning)
                   (writer served) (state served) (returned served)))
  /\ (forall e : error, LatencyHistogram (now w) m = inl e -> checkAndSet w = Some w).
Proof.
  intros Hm Hp Hf m1 Hle. split; [| split].
  - destruct (LatencyHistogram (now w) m1) as [e | hist] eqn:Hhist.
    + exact (RecordMetric_no_histogram w statusCode latency m e Hm Hp Hf Hhist).
    + cbv zeta. apply RecordMetric_decided; [exact Hm | exact Hle |].
      rewrite evaluate_latency; [| exact Hp | exact Hf].
      fold m1. rewrite Hhist. reflexivity.
  - intros wr r next s Hok served status returning e Hhist.
    rewrite (ServeHTTP_closed wr r next s w Hok). cbv zeta.
    fold served. fold status. fold returning.
    rewrite (RecordMetric_no_histogram returning status (took served) m e); auto.
  - intros e Hhist. exact (checkAndSet_no_histogram w m e Hm Hp Hf Hhist).
Qed.

End Latency.

(** ** The directive parser *)

Section Parsing.
Context {M : Type}.
Context {D : Type} `{Dispenser D} `{!Consuming D} `{Parsers}.
Implicit Types (c : Simple M) (d : D) (ls : list (string * option string)).

(** The four names, told apart. *)
Lemma known_cases (name : string) :
  known name = true <->
  name = "threshold" \/ name = "factor" \/ name = "trip_duration" \/ name = "min_requests".
Proof.
  unfold known. rewrite !orb_true_iff, !String.eqb_eq. tauto.
Qed.

Ltac name_cases name :=
  destruct (String.eqb name "threshold") eqn:?Hname;
    [| destruct (String.eqb name "factor") eqn:?Hname;
       [| destruct (String.eqb name "trip_duration") eqn:?Hname;
          [| destruct (String.eqb name "min_requests") eqn:?Hname]]];
  repeat match goal with
         | Hn : String.eqb _ _ = true |- _ => apply String.eqb_eq in Hn
         end.

(** A round of the loop does not give tokens back. *)
Lemma directive_remaining d c :
  (remaining (dispenser (directive d c)) <= remaining d)%nat.
Proof.
  unfold directive.
  name_cases (Val d); try (cbn; lia);
    destruct (NextArg d) as [more d2] eqn:Harg;
    apply NextArg_remaining in Harg;
    destruct more; cbn;
    repeat match goal with |- context [match ?r with inl _ => _ | inr _ => _ end] =>
             destruct r end; cbn; lia.
Qed.

(** The loop ends within the bound [UnmarshalCaddyfile] gives it. *)
Lemma blocks_total (rounds : nat) : forall (nesting : Z) d c,
  (remaining d < rounds)%nat -> is_Some (blocks rounds nesting d c).
Proof.
  induction rounds as [| rounds IH]; intros nesting d c Hlt; [lia |].
  cbn. destruct (NextBlock nesting d) as [more d1] eqn:Hblock.
  destruct more; [| eauto].
  apply NextBlock_remaining in Hblock.
  destruct (failure (directive d1 c)); [eauto |].
  apply IH. pose proof (directive_remaining d1 c). lia.
Qed.

Lemma UnmarshalCaddyfile_total d c : is_Some (UnmarshalCaddyfile d c).
Proof. apply blocks_total. lia. Qed.

(** A round on a line the parser accepts assigns what the line says. *)
Lemma directive_accepted d1 d2 c :
  NextArg d1 = (true, d2) ->
  accepted (Val d1, Some (Val d2)) = true ->
  directive d1 c = mkParsed d2 (assign (Val d1, Some (Val d2)) c) None.
Proof.
  intros Harg. unfold accepted, assign, directive.
  name_cases (Val d1); rewrite ?Harg; cbn [negb];
    try discriminate;
    repeat match goal with |- context [match ?r with inl _ => _ | inr _ => _ end] =>
             destruct r; cbn [succeeds] end;
    intros Hacc; try discriminate; reflexivity.
Qed.

(** A round on a line with an argument the parser does not accept. *)
Lemma directive_refused_arg d1 d2 c :
  NextArg d1 = (true, d2) ->
  accepted (Val d1, Some (Val d2)) = false ->
  receiver (directive d1 c) = c /\ refused (Val d1, Some (Val d2)) (directive d1 c).
Proof.
  intros Harg. unfold accepted, directive, refused, known. cbn [fst snd].
  name_cases (Val d1); rewrite ?Hname, ?Hname0, ?Hname1, ?Hname2, ?Harg; cbn [negb orb];
    try discriminate.
  - destruct (ParseFloat (Val d2) 64) as [err |] eqn:Hparse; cbn [succeeds]; [| discriminate].
    intros _. split; [reflexivity |]. eexists. split; [reflexivity |].
    cbn [dispenser]. repeat split; try discriminate.
    intros arg cause [= <-] Hc. congruence.
  - destruct (ParseDuration (Val d2)) as [err |] eqn:Hparse; cbn [succeeds]; [| discriminate].
    intros _. split; [reflexivity |]. eexists. split; [reflexivity |].
    cbn [dispenser]. repeat split; try discriminate.
    intros arg cause [= <-] Hc. congruence.
  - destruct (Atoi (Val d2)) as [err |] eqn:Hparse; cbn [succeeds]; [| discriminate].
    intros _. split; [reflexivity |]. eexists. split; [reflexivity |].
    cbn [dispenser]. repeat split; try discriminate.
    intros arg cause [= <-] Hc. congruence.
  - intros _. split; [reflexivity |]. eexists. split; [reflexivity |].
    cbn [dispenser]. repeat split; try discriminate;
      intros arg cause [= Hn]; rewrite Hn in *; discriminate.
Qed.

(** A round on a line without an argument. *)
Lemma directive_refused_bare d1 d2 c :
  NextArg d1 = (false, d2) ->
  receiver (directive d1 c) = c /\ refused (Val d1, None) (directive d1 c).
Proof.
  intros Harg. unfold directive, refused, known. cbn [fst snd].
  name_cases (Val d1); rewrite ?Hname, ?Hname0, ?Hname1, ?Hname2, ?Harg; cbn [negb orb];
    (split; [reflexivity |]); (eexists; split; [reflexivity |]);
    cbn [dispenser]; repeat split; try discriminate; reflexivity.
Qed.

(** The loop over a block, line by line: it assigns the lines it accepts,
    in order, and stops at the first it does not accept. *)
Lemma blocks_Lines (nesting : Z) d ls d' :
  Lines nesting d ls d' ->
  forall (rounds : nat) c,
    (remaining d < rounds)%nat ->
    exists p,
      blocks rounds nesting d c = Some p
      /\ (forallb accepted ls = true -> p = mkParsed d' (assign_all ls c) None)
      /\ (forall good bad rest,
            ls = good ++ bad :: rest ->
            forallb accepted good = true ->
            accepted bad = false ->
            receiver p = assign_all good c /\ refused bad p).
Proof.
  induction 1 as [d d' Hblock | d d1 d2 ls d' Hblock Harg _ IH | d d1 d2 ls d' Hblock Harg _ _];
    intros rounds c Hlt;
    (destruct rounds as [| rounds]; [lia |]); cbn [blocks]; rewrite Hblock.
  - eexists. split; [reflexivity |]. split; [reflexivity |].
    intros [| ? ?] bad rest Heq; discriminate.
  - pose proof (NextBlock_remaining _ _ _ Hblock) as Hd1.
    pose proof (NextArg_remaining _ _ _ Harg) as Hd2.
    destruct (accepted (Val d1, Some (Val d2))) eqn:Hacc.
    + rewrite (directive_accepted d1 d2 c Harg Hacc). cbn [failure dispenser receiver].
      destruct (IH rounds (assign (Val d1, Some (Val d2)) c)) as (p & Hp & Hall & Hstop); [lia |].
      exists p. split; [exact Hp |]. split.
      * cbn [forallb]. rewrite Hacc. exact Hall.
      * intros [| line good] bad rest Heq Hgood Hbad.
        -- cbn in Heq. injection Heq as <- _. congruence.
        -- cbn in Heq. injection Heq as <- ->. cbn [forallb] in Hgood.
           rewrite Hacc in Hgood. exact (Hstop good bad rest eq_refl Hgood Hbad).
    + destruct (directive_refused_arg d1 d2 c Harg Hacc) as [Hrec Href].
      pose proof Href as (e & He & _). rewrite He.
      eexists. split; [reflexivity |]. split.
      * cbn [forallb]. rewrite Hacc. discriminate.
      * intros [| line good] bad rest Heq Hgood Hbad.
        -- cbn in Heq. injection Heq as <- _. split; [exact Hrec | exact Href].
        -- cbn in Heq. injection Heq as <- _. cbn [forallb] in Hgood.
           rewrite Hacc in Hgood. discriminate.
  - destruct (directive_refused_bare d1 d2 c Harg) as [Hrec Href].
    pose proof Href as (e & He & _). rewrite He.
    eexists. split; [reflexivity |]. split.
    + cbn. destruct (Val d1); discriminate.
    + intros [| line good] bad rest Heq Hgood Hbad.
      * cbn in Heq. injection Heq as <- _. split; [exact Hrec | exact Href].
      * cbn in Heq. injection Heq as <- _. cbn in Hgood. discriminate.
Qed.

(** What the accepted lines of a block leave in each field: the value of
    the last mention, or what was there. *)
Ltac last_mention ls c :=
  revert c; induction ls as [| [name arg] ls IH]; intros c Hall;
  cbn [mentioned forallb] in *; unfold assign_all in *; cbn [foldl];
  [ reflexivity
  | apply andb_true_iff in Hall; destruct Hall as [Hline Hls];
    specialize (IH (assign (name, arg) c) Hls);
    destruct (mentioned _ ls); [exact IH |];
    rewrite IH; clear IH;
    (destruct arg as [arg |]; [| discriminate Hline]);
    unfold accepted in Hline; unfold assign;
    name_cases name; subst; cbn [String.eqb Ascii.eqb Bool.eqb];
    try discriminate Hline;
    repeat match goal with
      | |- context [match ?r with inl _ => _ | inr _ => _ end] =>
          destruct r eqn:?; cbn [succeeds] in Hline
      end;
    try discriminate Hline; fields;
    repeat match goal with
      | Hn : String.eqb ?n _ = false |- context [String.eqb ?n _] => rewrite Hn
      end;
    try reflexivity ].

Lemma assign_all_Threshold ls c :
  forallb accepted ls = true ->
  match mentioned "threshold" ls with
  | Some arg => ParseFloat arg 64 = inr (Threshold (config (assign_all ls c)))
  | None => Threshold (config (assign_all ls c)) = Threshold (config c)
  end.
Proof. last_mention ls c. Qed.

Lemma assign_all_Factor ls c :
  forallb accepted ls = true ->
  match mentioned "factor" ls with
  | Some arg => Factor (config (assign_all ls c)) = arg
  | None => Factor (config (assign_all ls c)) = Factor (config c)
  end.
Proof. last_mention ls c. Qed.

Lemma assign_all_TripDuration ls c :
  forallb accepted ls = true ->
  match mentioned "trip_duration" ls with
  | Some arg => ParseDuration arg = inr (TripDuration (config (assign_all ls c)))
  | None => TripDuration (config (assign_all ls c)) = TripDuration (config c)
  end.
Proof. last_mention ls c. Qed.

Lemma assign_all_MinRequests ls c :
  forallb accepted ls = true ->
  match mentioned "min_requests" ls with
  | Some arg => Atoi arg = inr (MinRequests (config (assign_all ls c)))
  | None => MinRequests (config (assign_all ls c)) = MinRequests (config c)
  end.
Proof. last_mention ls c. Qed.

(** The parser touches the configuration only. *)
Lemma assign_rest (line : string * option string) c :
  tripped (assign line c) = tripped c
  /\ cbFactor (assign line c) = cbFactor c
  /\ metrics (assign line c) = metrics c.
Proof.
  destruct line as [name [arg |]]; [| auto]. unfold assign.
  name_cases name;
    repeat match goal with |- context [match ?r with inl _ => _ | inr _ => _ end] =>
             destruct r end; auto.
Qed.

Lemma assign_all_rest ls c :
  tripped (assign_all ls c) = tripped c
  /\ cbFactor (assign_all ls c) = cbFactor c
  /\ metrics (assign_all ls c) = metrics c.
Proof.
  revert c. induction ls as [| line ls IH]; intros c; [auto |].
  unfold assign_all in *. cbn [foldl].
  destruct (IH (assign line c)) as (-> & -> & ->). apply assign_rest.
Qed.

(** Where the dispenser hands out the lines [ls], [UnmarshalCaddyfile]
    returns.  If a line is the first that the parser does not accept, the
    lines before it have been assigned and the call fails: with the error
    that names the token when the name is none of the four directives, with
    the dispenser's argument error when a directive has no argument, and
    with the error that wraps the parser's when the argument of threshold,
    trip_duration or min_requests is no literal of its kind.  If the parser
    accepts every line, the call returns no error; each of the four fields
    holds the parsed argument of the last line that mentions it or, not
    mentioned, what it held before; and the other fields of the receiver are
    as before.  Which lines the dispenser hands out depends on where it
    stands: see [NextBlock_behind_name] and [Lines_blockText] below. *)
Lemma UnmarshalCaddyfile_Lines d c ls d' :
  Lines (Nesting d) d ls d' ->
  (exists p,
    UnmarshalCaddyfile d c = Some p
    /\ (forall good (name : string) (arg : option string) rest,
          ls = good ++ (name, arg) :: rest ->
          forallb accepted good = true ->
          accepted (name, arg) = false ->
          receiver p = assign_all good c
          /\ exists e : error,
               failure p = Some e
               /\ (known name = false ->
                   e = Errf (dispenser p) ("unrecognized subdirective: " +:+ name))
               /\ (known name = true -> arg = None -> e = ArgErr (dispenser p))
               /\ (forall (a : string) (cause : error),
                     name = "threshold" -> arg = Some a -> ParseFloat a 64 = inl cause ->
                     e = Errf (dispenser p) ("invalid threshold value: " +:+ Error cause))
               /\ (forall (a : string) (cause : error),
                     name = "trip_duration" -> arg = Some a -> ParseDuration a = inl cause ->
                     e = Errf (dispenser p) ("invalid trip_duration: " +:+ Error cause))
               /\ (forall (a : string) (cause : error),
                     name = "min_requests" -> arg = Some a -> Atoi a = inl cause ->
                     e = Errf (dispenser p) ("invalid min_requests value: " +:+ Error cause)))
    /\ (forallb accepted ls = true ->
        let c' := receiver p in
        failure p = None
        /\ dispenser p = d'
        /\ match mentioned "threshold" ls with
           | Some a => ParseFloat a 64 = inr (Threshold (config c'))
           | None => Threshold (config c') = Threshold (config c)
           end
        /\ match mentioned "factor" ls with
           | Some a => Factor (config c') = a
           | None => Factor (config c') = Factor (config c)
           end
        /\ match mentioned "trip_duration" ls with
           | Some a => ParseDuration a = inr (TripDuration (config c'))
           | None => TripDuration (config c') = TripDuration (config c)
           end
        /\ match mentioned "min_requests" ls with
           | Some a => Atoi a = inr (MinRequests (config c'))
           | None => MinRequests (config c') = MinRequests (config c)
           end
        /\ tripped c' = tripped c /\ cbFactor c' = cbFactor c /\ metrics c' = metrics c))
  /\ (forallb accepted ls = true ->
      exists c0 : Simple M,
        parseCaddyfileHandler d = Some (Some c0, None)
        /\ (mentioned "threshold" ls = None -> Threshold (config c0) = 0%float)
        /\ (mentioned "factor" ls = None -> Factor (config c0) = "")
        /\ (mentioned "trip_duration" ls = None -> TripDuration (config c0) = 0)
        /\ (mentioned "min_requests" ls = None -> MinRequests (config c0) = 0))
  /\ (forall good bad rest,
        ls = good ++ bad :: rest ->
        forallb accepted good = true ->
        accepted bad = false ->
        exists e : error, parseCaddyfileHandler (M := M) d = Some (None, Some e)).
Proof.
  intros Hlines.
  destruct (blocks_Lines _ _ _ _ Hlines (Datatypes.S (remaining d)) c) as (p & Hp & Hall & Hstop);
    [lia |].
  destruct (blocks_Lines _ _ _ _ Hlines (Datatypes.S (remaining d)) zeroSimple)
    as (p0 & Hp0 & Hall0 & Hstop0); [lia |].
  split; [| split].
  2: { intros Hacc. exists (assign_all ls zeroSimple).
       unfold parseCaddyfileHandler, UnmarshalCaddyfile. rewrite Hp0, (Hall0 Hacc). cbn.
       split; [reflexivity |].
       pose proof (assign_all_Threshold ls zeroSimple Hacc) as Hth.
       pose proof (assign_all_Factor ls zeroSimple Hacc) as Hfa.
       pose proof (assign_all_TripDuration ls zeroSimple Hacc) as Htd.
       pose proof (assign_all_MinRequests ls zeroSimple Hacc) as Hmr.
       repeat split; intros Hnone; rewrite Hnone in *; assumption. }
  2: { intros good bad rest Heq Hgood Hbad.
       destruct (Hstop0 good bad rest Heq Hgood Hbad) as (_ & e & He & _).
       exists e. unfold parseCaddyfileHandler, UnmarshalCaddyfile. rewrite Hp0. cbn.
       rewrite He. reflexivity. }
  exists p. split; [exact Hp |]. split.
  - intros good name arg rest Heq Hgood Hbad.
    destruct (Hstop good (name, arg) rest Heq Hgood Hbad)
      as (Hrec & e & He & Hunknown & Hbare & Hfloat & Hdur & Hint).
    split; [exact Hrec |]. exists e. split; [exact He |].
    cbn [fst snd] in *.
    repeat split; auto.
    + intros a cause -> -> Hc. exact (Hfloat a cause eq_refl Hc).
    + intros a cause -> -> Hc. exact (Hdur a cause eq_refl Hc).
    + intros a cause -> -> Hc. exact (Hint a cause eq_refl Hc).
  - intros Hacc c'. subst c'. rewrite (Hall Hacc). cbn [failure dispenser receiver].
    split; [reflexivity |]. split; [reflexivity |].
    split; [exact (assign_all_Threshold ls c Hacc) |].
    split; [exact (assign_all_Factor ls c Hacc) |].
    split; [exact (assign_all_TripDuration ls c Hacc) |].
    split; [exact (assign_all_MinRequests ls c Hacc) |].
    apply assign_all_rest.
Qed.

End Parsing.

(** ** The implementations meet what the interfaces ask *)

Import window tokens.

#[export] Instance window_ResetClears : ResetClears (list Sample) (list Z).
Proof. intros t m. reflexivity. Qed.

Lemma next_spec (d : Cursor) (b : bool) (d' : Cursor) :
  next d = (b, d') ->
  toks d' = toks d /\ nesting d' = nesting d
  /\ (if b then cursor d' = cursor d + 1 /\ cursor d < len d - 1 else cursor d' = cursor d).
Proof.
  unfold next. destruct (cursor d <? len d - 1) eqn:Hlt; intros [= <- <-]; cbn.
  - apply Z.ltb_lt in Hlt. auto.
  - auto.
Qed.

Lemma nextOnSameLine_spec (d : Cursor) (b : bool) (d' : Cursor) :
  nextOnSameLine d = (b, d') ->
  toks d' = toks d /\ nesting d' = nesting d
  /\ (if b then cursor d' = cursor d + 1 else cursor d' = cursor d).
Proof.
  unfold nextOnSameLine.
  destruct (cursor d <? 0); [intros [= <- <-]; cbn; auto |].
  destruct (len d - 1 <=? cursor d); [intros [= <- <-]; cbn; auto |].
  destruct (token d); [| intros [= <- <-]; cbn; auto].
  destruct (token (move 1 d)); [| intros [= <- <-]; cbn; auto].
  destruct (negb _); intros [= <- <-]; cbn; auto.
Qed.

Lemma val_in_range (d : Cursor) : val d <> "" -> 0 <= cursor d < len d.
Proof.
  unfold val, token.
  destruct (cursor d <? 0) eqn:Hneg; cbn; [congruence |].
  destruct (len d <=? cursor d) eqn:Hge; cbn; [congruence |].
  intros _. apply Z.ltb_ge in Hneg. apply Z.leb_gt in Hge. lia.
Qed.

Lemma val_brace_in_range (d : Cursor) : String.eqb (val d) "{" = true -> 0 <= cursor d < len d.
Proof.
  intros Heq. apply String.eqb_eq in Heq. apply val_in_range. rewrite Heq. discriminate.
Qed.

Lemma len_same (d d' : Cursor) : toks d' = toks d -> len d' = len d.
Proof. unfold len. intros ->. reflexivity. Qed.


Lemma nextArg_remaining (b : bool) (d d' : Cursor) :
  nextArg d = (b, d') -> (remaining d' <= remaining d)%nat.
Proof.
  unfold nextArg. destruct (nextOnSameLine d) as [same d1] eqn:Hsame.
  apply nextOnSameLine_spec in Hsame. destruct Hsame as (Htoks & _ & Hcur).
  apply len_same in Htoks. cbn [remaining Dispenser_cursor].
  destruct same; cbn [negb].
  - destruct (String.eqb (val d1) "{"); intros [= <- <-]; unfold len in *; cbn in *; lia.
  - intros [= <- <-]. unfold len in *. lia.
Qed.

Lemma nextBlock_remaining (n : Z) (d d' : Cursor) :
  nextBlock n d = (true, d') -> (remaining d' < remaining d)%nat.
Proof.
  unfold nextBlock. cbn [remaining Dispenser_cursor].
  destruct (n <? nesting d).
  - destruct (next d) as [more d1] eqn:Hnext.
    apply next_spec in Hnext. destruct Hnext as (Htoks1 & _ & Hcur1).
    apply len_same in Htoks1.
    destruct more; cbn [negb]; [| discriminate]. destruct Hcur1 as [Hcur1 Hroom].
    assert (Hgoal : forall d2 : Cursor,
               len d2 = len d1 -> cursor d1 <= cursor d2 ->
               (Z.to_nat (len d2 - 1 - cursor d2) < Z.to_nat (len d - 1 - cursor d))%nat)
      by (intros d2 Hl Hc; lia).
    intros [= _ <-]. apply Hgoal;
      repeat match goal with
        | |- context [String.eqb ?a ?b] => destruct (String.eqb a b)
        | |- context [nextOnSameLine ?x] =>
            let Hs := fresh "Hs" in
            let Ht := fresh "Ht" in
            let Hc := fresh "Hc" in
            let same := fresh "same" in
            let dn := fresh "dn" in
            destruct (nextOnSameLine x) as [same dn] eqn:Hs;
            apply nextOnSameLine_spec in Hs; destruct Hs as (Ht & _ & Hc);
            apply len_same in Ht; destruct same; cbn [negb]
        end; unfold len in *; cbn in *; lia.
  - destruct (nextOnSameLine d) as [same d1] eqn:Hsame.
    apply nextOnSameLine_spec in Hsame. destruct Hsame as (Htoks1 & _ & Hcur1).
    apply len_same in Htoks1.
    destruct same; cbn [negb]; [| discriminate].
    destruct (String.eqb (val d1) "{") eqn:Hbrace; cbn [negb]; [| discriminate].
    apply val_brace_in_range in Hbrace.
    destruct (next d1) as [more d2] eqn:Hnext.
    apply next_spec in Hnext. destruct Hnext as (Htoks2 & _ & Hcur2).
    apply len_same in Htoks2.
    destruct (String.eqb (val d2) "}"); [discriminate |].
    intros [= <-]. destruct more; unfold len in *; cbn in *; lia.
Qed.

#[export] Instance Cursor_Consuming : Consuming Cursor.
Proof.
  split.
  - exact nextBlock_remaining.
  - exact nextArg_remaining.
Qed.

(** ** Where the dispenser stands when the parser starts *)

Section Standing.
Context {M : Type} `{Parsers}.
Implicit Types (c : Simple M) (ls : list (string * option string)).

(** On a dispenser that stands before its first token, [NextBlock] looks for
    an opening brace in that token; finding another, or none, it steps back
    and answers false. *)
Lemma NextBlock_behind_name (ts : list Token) :
  (forall t : Token, head ts = Some t -> Text t <> "{") ->
  nextBlock 0 (NewDispenser ts) = (false, NewDispenser ts).
Proof.
  intros Hhead. unfold nextBlock, NewDispenser. cbn [nesting].
  change (0 <? 0) with false. cbv iota.
  unfold nextOnSameLine. cbn [cursor]. change (-1 <? 0) with true. cbv iota beta.
  cbn [negb].
  assert (Hval : String.eqb (val (move 1 (mkCursor ts (-1) 0))) "{" = false).
  { apply String.eqb_neq. unfold val, token, move, len. cbn [cursor toks nesting].
    change (-1 + 1) with 0. destruct ts as [| t ts]; cbn.
    - discriminate.
    - apply Hhead. reflexivity. }
  rewrite Hval. reflexivity.
Qed.

(** The loop of [UnmarshalCaddyfile] on such a dispenser does not run. *)
Lemma UnmarshalCaddyfile_behind_name (ts : list Token) c :
  (forall t : Token, head ts = Some t -> Text t <> "{") ->
  UnmarshalCaddyfile (NewDispenser ts) c = Some (mkParsed (NewDispenser ts) c None).
Proof.
  intros Hhead. unfold UnmarshalCaddyfile. cbn [blocks].
  change (NextBlock (Nesting (NewDispenser ts)) (NewDispenser ts))
    with (nextBlock 0 (NewDispenser ts)).
  rewrite (NextBlock_behind_name ts Hhead). reflexivity.
Qed.

(** C9.  [UnmarshalCaddyfile] starts with [NextBlock] and never consumes the
    name of its directive.  On a dispenser that stands before a first token
    other than an opening brace, which is where the host and
    [caddyfile.NewTestDispenser] leave it for the text
    [circuit_breaker { ... }], the call therefore reads nothing: it returns
    no error whatever the block holds, the receiver is as it was, the
    dispenser stands where it stood, and [parseCaddyfileHandler] returns the
    zero breaker. *)
Theorem C9_block_behind_directive_name_is_not_read (ts : list Token) c :
  (forall t : Token, head ts = Some t -> Text t <> "{") ->
  UnmarshalCaddyfile (NewDispenser ts) c = Some (mkParsed (NewDispenser ts) c None)
  /\ parseCaddyfileHandler (M := M) (NewDispenser ts) = Some (Some zeroSimple, None).
Proof.
  intros Hhead. split; [exact (UnmarshalCaddyfile_behind_name ts c Hhead) |].
  unfold parseCaddyfileHandler.
  rewrite (UnmarshalCaddyfile_behind_name ts zeroSimple Hhead). reflexivity.
Qed.

(** *** The text of a block, token by token *)

Lemma lookup_after (pre l : list Token) (i : nat) :
  (pre ++ l) !! (length pre + i)%nat = l !! i.
Proof. induction pre as [| t pre IH]; [reflexivity | exact IH]. Qed.

Lemma token_after (pre l : list Token) (i : nat) (t : Token) (k n : Z) :
  k = Z.of_nat (length pre + i) ->
  l !! i = Some t ->
  token (mkCursor (pre ++ l) k n) = Some t.
Proof.
  intros -> Hi. pose proof (lookup_lt_Some _ _ _ Hi) as Hlt.
  unfold token, len. cbn [cursor toks]. rewrite length_app.
  destruct (Z.ltb_spec (Z.of_nat (length pre + i)) 0) as [Hneg | _]; [lia |].
  destruct (Z.leb_spec (Z.of_nat (length pre + length l)) (Z.of_nat (length pre + i)))
    as [Hge | _]; [lia |].
  cbn [orb]. rewrite Nat2Z.id, lookup_after. exact Hi.
Qed.

Lemma val_after (pre l : list Token) (i : nat) (t : Token) (k n : Z) :
  k = Z.of_nat (length pre + i) ->
  l !! i = Some t ->
  val (mkCursor (pre ++ l) k n) = Text t.
Proof. intros Hk Hi. unfold val. rewrite (token_after pre l i t k n Hk Hi). reflexivity. Qed.

(** Inside a block, [NextBlock] hands out the next token when it is no
    brace. *)
Lemma nextBlock_inside (pre l : list Token) (t : Token) (k : Z) :
  k = Z.of_nat (length pre) - 1 ->
  l !! 0%nat = Some t ->
  Text t <> "{" -> Text t <> "}" ->
  nextBlock 0 (mkCursor (pre ++ l) k 1) = (true, mkCursor (pre ++ l) (k + 1) 1).
Proof.
  intros Hk Hl Hopen Hclose.
  pose proof (lookup_lt_Some _ _ _ Hl) as Hlt.
  unfold nextBlock. cbn [nesting]. change (0 <? 1) with true. cbv iota.
  unfold next, len. cbn [cursor toks]. rewrite length_app.
  destruct (Z.ltb_spec k (Z.of_nat (length pre + length l) - 1)) as [_ | Hge]; [| lia].
  cbn [negb]. unfold move. cbn [toks cursor nesting].
  rewrite (val_after pre l 0 t (k + 1) 1); [| lia | exact Hl].
  apply String.eqb_neq in Hopen, Hclose. rewrite Hopen, Hclose. reflexivity.
Qed.

(** Inside a block, [NextBlock] on the closing brace that ends the text
    leaves the block. *)
Lemma nextBlock_closing (pre : list Token) (t : Token) (k : Z) :
  k = Z.of_nat (length pre) - 1 ->
  Text t = "}" ->
  nextBlock 0 (mkCursor (pre ++ [t]) k 1) = (false, mkCursor (pre ++ [t]) (k + 1) 0).
Proof.
  intros Hk Ht.
  unfold nextBlock. cbn [nesting]. change (0 <? 1) with true. cbv iota.
  unfold next, len. cbn [cursor toks]. rewrite length_app. cbn [length].
  destruct (Z.ltb_spec k (Z.of_nat (length pre + 1) - 1)) as [_ | Hge]; [| lia].
  cbn [negb]. unfold move. cbn [toks cursor nesting].
  rewrite (val_after pre [t] 0 t (k + 1) 1); [| lia | reflexivity].
  rewrite Ht. cbn [String.eqb Ascii.eqb Bool.eqb].
  unfold nextOnSameLine, len. cbn [cursor toks]. rewrite length_app. cbn [length].
  destruct (Z.ltb_spec (k + 1) 0) as [Hneg | _]; [lia |].
  destruct (Z.leb_spec (Z.of_nat (length pre + 1) - 1) (k + 1)) as [_ | Hlt]; [| lia].
  reflexivity.
Qed.

(** [NextArg] hands out the token that follows on the line, when it is no
    opening brace; it hands out nothing when the next token is on a later
    line. *)
Lemma nextArg_same (pre l : list Token) (t1 t2 : Token) (k n : Z) :
  k = Z.of_nat (length pre) ->
  l !! 0%nat = Some t1 -> l !! 1%nat = Some t2 ->
  File t1 = File t2 -> Line t1 = Line t2 -> Text t2 <> "{" ->
  nextArg (mkCursor (pre ++ l) k n) = (true, mkCursor (pre ++ l) (k + 1) n).
Proof.
  intros Hk H1 H2 Hfile Hline Hopen.
  pose proof (lookup_lt_Some _ _ _ H2) as Hlt.
  unfold nextArg, nextOnSameLine, len. cbn [cursor toks]. rewrite length_app.
  destruct (Z.ltb_spec k 0) as [Hneg | _]; [lia |].
  destruct (Z.leb_spec (Z.of_nat (length pre + length l) - 1) k) as [Hge | _]; [lia |].
  rewrite (token_after pre l 0 t1 k n); [| lia | exact H1].
  unfold move. cbn [toks cursor nesting].
  rewrite (token_after pre l 1 t2 (k + 1) n); [| lia | exact H2].
  unfold isNextOnNewLine. rewrite Hfile, Hline, String.eqb_refl, Z.ltb_irrefl.
  cbn [negb orb].
  rewrite (val_after pre l 1 t2 (k + 1) n); [| lia | exact H2].
  apply String.eqb_neq in Hopen. rewrite Hopen. reflexivity.
Qed.

Lemma nextArg_newline (pre l : list Token) (t1 t2 : Token) (k n : Z) :
  k = Z.of_nat (length pre) ->
  l !! 0%nat = Some t1 -> l !! 1%nat = Some t2 ->
  Line t1 < Line t2 ->
  nextArg (mkCursor (pre ++ l) k n) = (false, mkCursor (pre ++ l) k n).
Proof.
  intros Hk H1 H2 Hline.
  pose proof (lookup_lt_Some _ _ _ H2) as Hlt.
  unfold nextArg, nextOnSameLine, len. cbn [cursor toks]. rewrite length_app.
  destruct (Z.ltb_spec k 0) as [Hneg | _]; [lia |].
  destruct (Z.leb_spec (Z.of_nat (length pre + length l) - 1) k) as [Hge | _]; [lia |].
  rewrite (token_after pre l 0 t1 k n); [| lia | exact H1].
  unfold move. cbn [toks cursor nesting].
  rewrite (token_after pre l 1 t2 (k + 1) n); [| lia | exact H2].
  unfold isNextOnNewLine. apply Z.ltb_lt in Hline. rewrite Hline, orb_true_r.
  reflexivity.
Qed.

(** The rest of a block's text starts with a token on its first line. *)
Lemma lex_head (l : Z) ls :
  exists (s : string) (rest : list Token),
    lex l (List.map words ls ++ [["}"]]) = mkToken "Testfile" l s :: rest.
Proof. destruct ls as [| [n [a |]] ls]; cbn; eauto. Qed.

(** One line of a block, once [NextBlock] has handed out its name. *)
Lemma Lines_line (d : Cursor) (pre : list Token) (l : Z) (n : string) (arg : option string) ls :
  plain (n, arg) = true ->
  nextBlock 0 d
  = (true, mkCursor (pre ++ lex l (List.map words ((n, arg) :: ls) ++ [["}"]]))
             (Z.of_nat (length pre)) 1) ->
  (forall (pre' toks' : list Token) (k' : Z),
     toks' = pre' ++ lex (l + 1) (List.map words ls ++ [["}"]]) ->
     k' = Z.of_nat (length pre') - 1 ->
     exists d', Lines 0 (mkCursor toks' k' 1) ls d') ->
  exists d', Lines 0 d ((n, arg) :: ls) d'.
Proof.
  intros Hplain Hblock Hrest.
  unfold plain in Hplain. cbn [fst snd] in Hplain.
  apply andb_true_iff in Hplain. destruct Hplain as [Hname Harg].
  destruct arg as [a |].
  - apply negb_true_iff, String.eqb_neq in Harg.
    set (tn := mkToken "Testfile" l n) in *.
    set (ta := mkToken "Testfile" l a) in *.
    set (rest := lex (l + 1) (List.map words ls ++ [["}"]])) in *.
    change (lex l (List.map words ((n, Some a) :: ls) ++ [["}"]]))
      with (tn :: ta :: rest) in Hblock.
    destruct (Hrest (pre ++ [tn; ta]) _ _ eq_refl eq_refl) as [d' Hd'].
    exists d'.
    assert (Harg2 : nextArg (mkCursor (pre ++ tn :: ta :: rest) (Z.of_nat (length pre)) 1)
                    = (true, mkCursor (pre ++ tn :: ta :: rest) (Z.of_nat (length pre) + 1) 1))
      by (apply (nextArg_same pre (tn :: ta :: rest) tn ta); auto).
    assert (Hstate : mkCursor ((pre ++ [tn; ta]) ++ rest)
                       (Z.of_nat (length (pre ++ [tn; ta])) - 1) 1
                     = mkCursor (pre ++ tn :: ta :: rest) (Z.of_nat (length pre) + 1) 1).
    { rewrite <- app_assoc, length_app. cbn [app length]. f_equal. lia. }
    rewrite Hstate in Hd'.
    pose proof (Lines_arg 0 d _ _ ls d' Hblock Harg2 Hd') as Hlines.
    change (Val (mkCursor (pre ++ tn :: ta :: rest) (Z.of_nat (length pre)) 1))
      with (val (mkCursor (pre ++ tn :: ta :: rest) (Z.of_nat (length pre)) 1)) in Hlines.
    change (Val (mkCursor (pre ++ tn :: ta :: rest) (Z.of_nat (length pre) + 1) 1))
      with (val (mkCursor (pre ++ tn :: ta :: rest) (Z.of_nat (length pre) + 1) 1)) in Hlines.
    rewrite (val_after pre (tn :: ta :: rest) 0 tn) in Hlines; [| lia | reflexivity].
    rewrite (val_after pre (tn :: ta :: rest) 1 ta) in Hlines; [| lia | reflexivity].
    exact Hlines.
  - set (tn := mkToken "Testfile" l n) in *.
    destruct (lex_head (l + 1) ls) as (s & rest & Hhead).
    change (lex l (List.map words ((n, None) :: ls) ++ [["}"]]))
      with (tn :: lex (l + 1) (List.map words ls ++ [["}"]])) in Hblock.
    destruct (Hrest (pre ++ [tn]) _ _ eq_refl eq_refl) as [d' Hd'].
    exists d'.
    rewrite Hhead in Hblock, Hd'.
    assert (Harg2 : nextArg (mkCursor (pre ++ tn :: mkToken "Testfile" (l + 1) s :: rest)
                               (Z.of_nat (length pre)) 1)
                    = (false, mkCursor (pre ++ tn :: mkToken "Testfile" (l + 1) s :: rest)
                                (Z.of_nat (length pre)) 1)).
    { apply (nextArg_newline pre _ tn (mkToken "Testfile" (l + 1) s)); auto.
      cbn [Line tn]. subst tn. cbn. lia. }
    assert (Hstate : mkCursor ((pre ++ [tn]) ++ mkToken "Testfile" (l + 1) s :: rest)
                       (Z.of_nat (length (pre ++ [tn])) - 1) 1
                     = mkCursor (pre ++ tn :: mkToken "Testfile" (l + 1) s :: rest)
                         (Z.of_nat (length pre)) 1).
    { rewrite <- app_assoc, length_app. cbn [app length]. f_equal. lia. }
    rewrite Hstate in Hd'.
    pose proof (Lines_bare 0 d _ _ ls d' Hblock Harg2 Hd') as Hlines.
    change (Val (mkCursor (pre ++ tn :: mkToken "Testfile" (l + 1) s :: rest)
                   (Z.of_nat (length pre)) 1))
      with (val (mkCursor (pre ++ tn :: mkToken "Testfile" (l + 1) s :: rest)
                   (Z.of_nat (length pre)) 1)) in Hlines.
    rewrite (val_after pre (tn :: mkToken "Testfile" (l + 1) s :: rest) 0 tn) in Hlines;
      [| lia | reflexivity].
    exact Hlines.
Qed.

(** The lines of a block, read from inside it. *)
Lemma Lines_inside ls : forall (pre toks : list Token) (l k : Z),
  forallb plain ls = true ->
  toks = pre ++ lex l (List.map words ls ++ [["}"]]) ->
  k = Z.of_nat (length pre) - 1 ->
  exists d', Lines 0 (mkCursor toks k 1) ls d'.
Proof.
  induction ls as [| [n arg] ls IH]; intros pre toks l k Hplain -> Hk.
  - eexists. apply Lines_end.
    apply (nextBlock_closing pre (mkToken "Testfile" l "}") k Hk). reflexivity.
  - cbn [forallb] in Hplain. apply andb_true_iff in Hplain. destruct Hplain as [Hline Hls].
    apply (Lines_line _ pre l n arg ls Hline).
    + pose proof Hline as Hname. unfold plain in Hname. cbn [fst snd] in Hname.
      apply andb_true_iff in Hname. destruct Hname as [Hname _].
      apply andb_true_iff in Hname. destruct Hname as [Hopen Hclose].
      apply negb_true_iff, String.eqb_neq in Hopen, Hclose.
      destruct (lex_head l ((n, arg) :: ls)) as (s & rest & Hhead).
      assert (Hs : s = n) by (destruct arg; cbn in Hhead; congruence).
      subst s.
      replace (Z.of_nat (length pre)) with (k + 1) by lia.
      apply (nextBlock_inside pre _ (mkToken "Testfile" l n) k Hk); [| exact Hopen | exact Hclose].
      rewrite Hhead. reflexivity.
    + intros pre' toks' k' Htoks' Hk'. exact (IH pre' toks' (l + 1) k' Hls Htoks' Hk').
Qed.

(** The dispenser of a block's text, standing before the opening brace,
    hands out the lines of the block. *)
Lemma Lines_blockText ls :
  forallb plain ls = true ->
  exists d', Lines 0 (NewTestDispenser (blockText ls)) ls d'.
Proof.
  intros Hplain.
  set (open := mkToken "Testfile" 1 "{").
  assert (Hstart : forall (t : Token) (rest : list Token),
            nextBlock 0 (mkCursor (open :: t :: rest) (-1) 0)
            = if String.eqb (Text t) "}"
              then (false, mkCursor (open :: t :: rest) 1 0)
              else (true, mkCursor (open :: t :: rest) 1 1)).
  { intros t rest. unfold nextBlock. cbn [nesting]. change (0 <? 0) with false. cbv iota.
    unfold nextOnSameLine. cbn [cursor]. change (-1 <? 0) with true. cbv iota beta.
    cbn [negb].
    change (move 1 (mkCursor (open :: t :: rest) (-1) 0))
      with (mkCursor (open :: t :: rest) 0 0).
    change (val (mkCursor (open :: t :: rest) 0 0)) with
      (match token (mkCursor ([] ++ open :: t :: rest) 0 0) with
       | Some t' => Text t' | None => "" end).
    rewrite (token_after [] (open :: t :: rest) 0 open 0 0); [| reflexivity | reflexivity].
    cbn [Text open String.eqb Ascii.eqb Bool.eqb negb].
    unfold next, len. cbn [cursor toks length].
    destruct (Z.ltb_spec 0 (Z.of_nat (Datatypes.S (Datatypes.S (length rest))) - 1))
      as [_ | Hge]; [| lia].
    change (move 1 (mkCursor (open :: t :: rest) 0 0))
      with (mkCursor ([open] ++ t :: rest) 1 0).
    rewrite (val_after [open] (t :: rest) 0 t 1 0); [| reflexivity | reflexivity].
    destruct (String.eqb (Text t) "}"); reflexivity. }
  unfold NewTestDispenser, NewDispenser, blockText.
  change (lex 1 (["{"] :: List.map words ls ++ [["}"]]))
    with (open :: lex 2 (List.map words ls ++ [["}"]])).
  destruct ls as [| [n arg] ls].
  - eexists. apply Lines_end. cbn [List.map app lex].
    exact (Hstart (mkToken "Testfile" 2 "}") []).
  - cbn [forallb] in Hplain. apply andb_true_iff in Hplain. destruct Hplain as [Hline Hls].
    apply (Lines_line _ [open] 2 n arg ls Hline).
    + destruct (lex_head 2 ((n, arg) :: ls)) as (s & rest & Hhead).
      assert (Hs : s = n) by (destruct arg; cbn in Hhead; congruence).
      subst s. cbn [app]. rewrite Hhead, Hstart. cbn [Text].
      unfold plain in Hline. cbn [fst snd] in Hline.
      apply andb_true_iff in Hline. destruct Hline as [Hname _].
      apply andb_true_iff in Hname. destruct Hname as [_ Hclose].
      apply negb_true_iff in Hclose. rewrite Hclose. reflexivity.
    + intros pre' toks' k' Htoks' Hk'. exact (Lines_inside ls pre' toks' (2 + 1) k' Hls Htoks' Hk').
Qed.

End Standing.

(** ** The theorems at the scenarios of the tests *)

Import scenario nohistogram httptest literals.

(** C6 at a configuration with nothing set (TestDefaultValues): the
    defaults are taken and the breaker is closed; and at the factor
    "invalid" (TestSimpleProvision): the error quotes it. *)
Lemma C6_witness :
  (let c := (Provision (mkSimple (M := list Sample) 0 0 None zeroConfig)).1 in
   Factor (config c) = "error_ratio" /\ MinRequests (config c) = 10
   /\ TripDuration (config c) = 5000000000 /\ OK c = true)
  /\ (Provision (mkSimple (M := list Sample) 0 0 None
                  (mkConfig 0.5%float "invalid" (5 * Second) 0))).2
     = Some (Errorf
               "invalid factor 'invalid', must be one of: latency, error_ratio, status_ratio").
Proof.
  split.
  - pose proof (C6_Provision_defaults_and_validates
                  (mkSimple (M := list Sample) 0 0 None zeroConfig))
      as (Hf & Hm & _ & _ & Hgood & Hok).
    cbv zeta in *.
    destruct Hok as (_ & Ht & _ & _ & _ & Hclosed); [vm_compute; reflexivity |].
    split; [exact Hf |]. split; [exact Hm |]. split; [exact Ht | exact Hclosed].
  - pose proof (C6_Provision_defaults_and_validates
                  (mkSimple (M := list Sample) 0 0 None
                     (mkConfig 0.5%float "invalid" (5 * Second) 0)))
      as (_ & _ & _ & Hbad & _).
    apply Hbad. rewrite !elem_of_cons, elem_of_nil.
    intros [? | [? | [? | []]]]; discriminate.
Defined.

(** C2 at TestErrorRatioTripping: after three 200s and three 500s, the
    seventh sample, a 500, makes the ratio 4/7 and trips the breaker. *)
Lemma C2_witness :
  OK (cb errorRatio6) = true
  /\ exists w', RecordMetric 500 (10 * Millisecond) errorRatio6 = Some w'
               /\ trips errorRatio6 w' /\ OK (cb w') = false.
Proof.
  split; [vm_compute; reflexivity |].
  destruct (C2_error_ratio_trips_iff_either_ratio_exceeds
              errorRatio6 500 (10 * Millisecond) (window_of errorRatio6))
    as (w' & Hrun & Htrips & Hopen & _).
  - vm_compute. reflexivity.
  - vm_compute. reflexivity.
  - vm_compute. reflexivity.
  - apply Z.leb_le. vm_compute. reflexivity.
  - exists w'. split; [exact Hrun |]. split.
    + apply Htrips. vm_compute. reflexivity.
    + apply Hopen. vm_compute. reflexivity.
Defined.

(** C3 at TestMinimumRequestsRequirement: a fifth 500 where ten requests are
    the minimum leaves the breaker closed. *)
Lemma C3_witness :
  exists w', RecordMetric 500 (10 * Millisecond) tenAtLeast4 = Some w'
             /\ OK (cb w') = true /\ sleeping w' = [].
Proof.
  destruct (C3_below_MinRequests_nothing_happens
              tenAtLeast4 500 (10 * Millisecond) (window_of tenAtLeast4))
    as (w' & Hrun & _ & _ & Hok & Hs & _).
  - vm_compute. reflexivity.
  - apply Z.ltb_lt. vm_compute. reflexivity.
  - exists w'. split; [exact Hrun |]. split.
    + rewrite Hok. vm_compute. reflexivity.
    + rewrite Hs. vm_compute. reflexivity.
Defined.

(** C8 at TestStatusRatioTripping: after three 200s and two 503s, a third
    503 makes the ratio 3/6 and trips the breaker. *)
Lemma C8_witness :
  OK (cb statusRatio5) = true
  /\ exists w', RecordMetric 503 (10 * Millisecond) statusRatio5 = Some w'
               /\ trips statusRatio5 w' /\ OK (cb w') = false.
Proof.
  split; [vm_compute; reflexivity |].
  destruct (C8_status_ratio_trips_iff_5xx_ratio_exceeds
              statusRatio5 503 (10 * Millisecond) (window_of statusRatio5))
    as (w' & Hrun & Htrips & Hopen & _).
  - vm_compute. reflexivity.
  - vm_compute. reflexivity.
  - vm_compute. reflexivity.
  - apply Z.leb_le. vm_compute. reflexivity.
  - exists w'. split; [exact Hrun |]. split.
    + apply Htrips. vm_compute. reflexivity.
    + apply Hopen. vm_compute. reflexivity.
Defined.

(** The histogram that the window gives for the sample about to be recorded,
    computed. *)
Ltac histogram_in Hhist :=
  cbv zeta in Hhist;
  match type of Hhist with
  | match ?hist with inl _ => _ | inr _ => _ end =>
      let computed := eval vm_compute in hist in
      change hist with computed in Hhist; cbv iota in Hhist
  end.

(** C7 against the threshold of 10ms of TestLatencyTripping.  The fifth
    request of 500ms after four of 500ms trips, as in the test.  So does a
    request of 500ms after four of 5ms: four fifths of the latencies are
    within 5ms, fewer than 0.95.  A request of 500ms after nineteen of 5ms
    does not: nineteen twentieths are within 5ms, and the latency at the
    quantile is 5ms.  A pass of the policy over the empty window, which has
    no histogram, of a breaker whose minimum is below zero leaves it as it
    is.  On the aggregator that gives no histogram, a request of 500ms is
    recorded and nothing else happens, and a request that the closed breaker
    serves comes back with the handler's answer. *)
Lemma C7_witness :
  (OK (cb slow4) = true
   /\ exists w', RecordMetric 200 (500 * Millisecond) slow4 = Some w'
                 /\ trips slow4 w' /\ OK (cb w') = false)
  /\ (OK (cb fast4) = true
      /\ exists w', RecordMetric 200 (500 * Millisecond) fast4 = Some w'
                    /\ trips fast4 w' /\ OK (cb w') = false)
  /\ (OK (cb fast19) = true
      /\ RecordMetric 200 (500 * Millisecond) fast19
         = Some (with_sample 200 (500 * Millisecond) (window_of fast19) fast19))
  /\ (MinRequests (config (cb noMinimum)) <= TotalCount 0 (window_of noMinimum)
      /\ LatencyHistogram 0 (window_of noMinimum) = inl (Errorf "no latency recorded")
      /\ checkAndSet noMinimum = Some noMinimum)
  /\ (RecordMetric 200 (500 * Millisecond) unmerged
      = Some (with_sample 200 (500 * Millisecond) (mkUnmerged []) unmerged)
      /\ ServeHTTP NewRecorder tt (answering 200 None (500 * Millisecond)) 0%nat unmerged
         = Some (mkResult
                   (with_sample 200 (500 * Millisecond) (mkUnmerged [])
                      (mkWorld (500 * Millisecond) (cb unmerged) []))
                   (writeHeader 200 NewRecorder) 1%nat None)).
Proof.
  split; [| split; [| split; [| split]]].
  - split; [vm_compute; reflexivity |].
    pose proof (C7_latency_p95_trips_and_missing_histogram_skips
                  (W := ResponseRecorder) (S := nat) (R := unit)
                  slow4 200 (500 * Millisecond) (window_of slow4)) as Hlat.
    destruct Hlat as (Hhist & _ & _).
    + vm_compute. reflexivity.
    + vm_compute. reflexivity.
    + vm_compute. reflexivity.
    + apply Z.leb_le. vm_compute. reflexivity.
    + histogram_in Hhist.
      destruct Hhist as (w' & Hrun & Htrips & Hopen & _).
      exists w'. split; [exact Hrun |]. split.
      * apply Htrips. vm_compute. reflexivity.
      * apply Hopen. vm_compute. reflexivity.
  - split; [vm_compute; reflexivity |].
    pose proof (C7_latency_p95_trips_and_missing_histogram_skips
                  (W := ResponseRecorder) (S := nat) (R := unit)
                  fast4 200 (500 * Millisecond) (window_of fast4)) as Hlat.
    destruct Hlat as (Hhist & _ & _).
    + vm_compute. reflexivity.
    + vm_compute. reflexivity.
    + vm_compute. reflexivity.
    + apply Z.leb_le. vm_compute. reflexivity.
    + histogram_in Hhist.
      destruct Hhist as (w' & Hrun & Htrips & Hopen & _).
      exists w'. split; [exact Hrun |]. split.
      * apply Htrips. vm_compute. reflexivity.
      * apply Hopen. vm_compute. reflexivity.
  - split; [vm_compute; reflexivity |].
    pose proof (C7_latency_p95_trips_and_missing_histogram_skips
                  (W := ResponseRecorder) (S := nat) (R := unit)
                  fast19 200 (500 * Millisecond) (window_of fast19)) as Hlat.
    destruct Hlat as (Hhist & _ & _).
    + vm_compute. reflexivity.
    + vm_compute. reflexivity.
    + vm_compute. reflexivity.
    + apply Z.leb_le. vm_compute. reflexivity.
    + histogram_in Hhist.
      destruct Hhist as (w' & Hrun & _ & _ & Hkept & _).
      rewrite Hrun. f_equal. apply Hkept. vm_compute. reflexivity.
  - pose proof (C7_latency_p95_trips_and_missing_histogram_skips
                  (W := ResponseRecorder) (S := nat) (R := unit)
                  noMinimum 200 (500 * Millisecond) (window_of noMinimum)) as Hlat.
    destruct Hlat as (_ & _ & Hpass).
    + vm_compute. reflexivity.
    + vm_compute. reflexivity.
    + vm_compute. reflexivity.
    + apply Z.leb_le. vm_compute. reflexivity.
    + split; [apply Z.leb_le; vm_compute; reflexivity |].
      split; [vm_compute; reflexivity |].
      apply (Hpass (Errorf "no latency recorded")). vm_compute. reflexivity.
  - pose proof (C7_latency_p95_trips_and_missing_histogram_skips
                  (W := ResponseRecorder) (S := nat) (R := unit)
                  unmerged 200 (500 * Millisecond) (mkUnmerged [])) as Hlat.
    destruct Hlat as (Hhist & Hserved & _).
    + vm_compute. reflexivity.
    + vm_compute. reflexivity.
    + vm_compute. reflexivity.
    + apply Z.leb_le. vm_compute. reflexivity.
    + split; [exact Hhist |].
      apply (Hserved NewRecorder tt (answering 200 None (500 * Millisecond)) 0%nat
               ltac:(vm_compute; reflexivity) (Errorf "cannot merge the histogram")).
      reflexivity.
Defined.

(** C1 at TestErrorRatioTripping, whose [TripDuration] is 100ms: the seventh
    sample trips; 50ms later the recovery cannot run yet; 150ms later, and a
    200 recorded in between, it runs, and leaves the breaker closed and the
    window empty. *)
Lemma C1_witness :
  exists w3,
    RecordMetric 500 (10 * Millisecond) errorRatio6 = Some errorRatio7
    /\ OK (cb errorRatio7) = false
    /\ wake 0 (after [Elapse (50 * Millisecond)] errorRatio7) = None
    /\ wake 0 (after [CallRecordMetric 200 (10 * Millisecond); Elapse (150 * Millisecond)]
                     errorRatio7)
       = Some w3
    /\ OK (cb w3) = true
    /\ TotalCount (now w3) (window_of w3) = 0.
Proof.
  destruct (C1_trip_opens_and_timed_recovery_closes
              (W := ResponseRecorder) (S := nat) (R := unit)
              errorRatio6 500 (10 * Millisecond) (window_of errorRatio6))
    as (w1 & Hrun & _ & Hopen & _ & Hlater).
  - vm_compute. reflexivity.
  - apply Z.leb_le. vm_compute. reflexivity.
  - vm_compute. reflexivity.
  - assert (Hw1 : Some w1 = Some errorRatio7) by (rewrite <- Hrun; vm_compute; reflexivity).
    injection Hw1 as ->.
    pose proof (Hlater [Elapse (50 * Millisecond)]
                  (after [Elapse (50 * Millisecond)] errorRatio7) 0%nat) as [Hearly _];
      [vm_compute; reflexivity | vm_compute; reflexivity |].
    pose proof (Hlater [CallRecordMetric 200 (10 * Millisecond); Elapse (150 * Millisecond)]
                  (after [CallRecordMetric 200 (10 * Millisecond); Elapse (150 * Millisecond)]
                         errorRatio7)
                  0%nat) as [_ Hdue];
      [vm_compute; reflexivity | vm_compute; reflexivity |].
    destruct Hdue as (w3 & m2 & Hwake & Hm2 & Hcb & _ & Hclosed & Hzero);
      [apply Z.leb_le; vm_compute; reflexivity |].
    exists w3. split; [exact Hrun |]. split; [exact Hopen |].
    split; [apply Hearly; apply Z.ltb_lt; vm_compute; reflexivity |].
    split; [exact Hwake |]. split; [exact Hclosed |].
    replace (window_of w3) with (Reset m2); [exact Hzero |].
    unfold window_of. rewrite Hcb. reflexivity.
Defined.

(** C10 at TestErrorRatioTripping: of the steps from provisioning on, the one
    that closes the open breaker is the waking of the goroutine that the
    seventh sample started, 150ms after it. *)
Lemma C10_witness :
  let es : list Ev :=
    calls 3 200 (10 * Millisecond) ++ calls 4 500 (10 * Millisecond)
    ++ [Elapse (150 * Millisecond)] in
  OK (cb (after es errorRatio)) = false
  /\ OK (cb (after (es ++ [Wake 0]) errorRatio)) = true
  /\ exists (i : nat) (t : Z),
       (Wake 0 : Ev) = Wake i
       /\ sleeping (after es errorRatio) !! i = Some t
       /\ started_by_trip errorRatio es t
       /\ t <= now (after es errorRatio).
Proof.
  intros es.
  split; [vm_compute; reflexivity |].
  split; [vm_compute; reflexivity |].
  apply (proj2 (C10_only_the_timed_recovery_closes (W := ResponseRecorder) (S := nat) (R := unit))
           errorRatio es (after es errorRatio) (Wake 0) (after (es ++ [Wake 0]) errorRatio));
    vm_compute; reflexivity.
Defined.

(** C4 at TestServeHTTPCircuitOpen: the open breaker answers 503 with the
    fixed body, the handler's count of calls stays 0, and the window holds
    the five samples it held. *)
Lemma C4_witness :
  OK (cb opened) = false
  /\ exists res,
       ServeHTTP NewRecorder tt (answering 200 None (7 * Millisecond)) 0%nat opened = Some res
       /\ Code (response res) = 503
       /\ Body (response res) = "Service Unavailable - Circuit Breaker Open"
       /\ downstream res = 0%nat
       /\ err res = None
       /\ world res = opened.
Proof.
  split; [vm_compute; reflexivity |].
  eexists. split.
  - apply (C4_open_rejects_with_503 NewRecorder tt (answering 200 None (7 * Millisecond))
             0%nat opened).
    vm_compute. reflexivity.
  - repeat split.
Defined.

(** C5 at TestServeHTTPCircuitClosed: the closed breaker calls the handler
    once and records its 200 with the 7ms it took; and when the handler
    returns an error, that error comes back and a 500 is recorded. *)
Lemma C5_witness :
  (exists w',
     ServeHTTP NewRecorder tt (answering 200 None (7 * Millisecond)) 0%nat closed
       = Some (mkResult w' (mkRecorder 200 "" true) 1%nat None)
     /\ metrics (cb w') = Some [mkSample 7000000 200 7000000])
  /\ (exists w',
        ServeHTTP NewRecorder tt
          (answering 200 (Some (Errorf "dial tcp: connection refused")) (7 * Millisecond))
          0%nat closed
        = Some (mkResult w' (mkRecorder 200 "" true) 1%nat
                  (Some (Errorf "dial tcp: connection refused")))
        /\ metrics (cb w') = Some [mkSample 7000000 500 7000000]).
Proof.
  split.
  - destruct (C5_closed_forwards_and_records NewRecorder tt
                (answering 200 None (7 * Millisecond)) 0%nat closed (window_of closed))
      as (w' & _ & Hm & Hserve); [vm_compute; reflexivity | vm_compute; reflexivity |].
    exists w'. split; [exact Hserve | exact Hm].
  - destruct (C5_closed_forwards_and_records NewRecorder tt
                (answering 200 (Some (Errorf "dial tcp: connection refused")) (7 * Millisecond))
                0%nat closed (window_of closed))
      as (w' & _ & Hm & Hserve); [vm_compute; reflexivity | vm_compute; reflexivity |].
    exists w'. split; [exact Hserve | exact Hm].
Defined.

(** Reading a block off a dispenser of tokens. *)
Ltac read_block :=
  repeat first
    [ eapply Lines_end; [lazy; reflexivity]
    | eapply Lines_arg; [lazy; reflexivity | lazy; reflexivity |]
    | eapply Lines_bare; [lazy; reflexivity | lazy; reflexivity |] ].

(** [UnmarshalCaddyfile_Lines] at the blocks of the tests, which start at
    their opening brace.  The block of
    TestCircuitBreakerDirectiveRegistration parses, and each field holds the
    value of its literal.  A threshold that is no number fails with the
    parser's error wrapped, after the line before it was assigned; a name
    that is no directive fails with the error that names it; a directive
    alone on its line fails with the dispenser's argument error. *)
Lemma UnmarshalCaddyfile_Lines_at_the_tests :
  (exists c0 : Simple (list Sample),
     parseCaddyfileHandler block = Some (Some c0, None)
     /\ ParseFloat "0.1" 64 = inr (Threshold (config c0))
     /\ Factor (config c0) = "error_ratio"
     /\ ParseDuration "30s" = inr (TripDuration (config c0))
     /\ Atoi "5" = inr (MinRequests (config c0)))
  /\ (exists (p : Parsed (M := list Sample)) (cause : error),
        UnmarshalCaddyfile blockBadThreshold zeroSimple = Some p
        /\ ParseFloat "invalid" 64 = inl cause
        /\ failure p
           = Some (Errf (dispenser p) ("invalid threshold value: " +:+ Error cause))
        /\ Factor (config (receiver p)) = "latency")
  /\ (exists p : Parsed (M := list Sample),
        UnmarshalCaddyfile blockUnknown zeroSimple = Some p
        /\ failure p
           = Some (Errf (dispenser p) "unrecognized subdirective: unknown_option"))
  /\ (exists p : Parsed (M := list Sample),
        UnmarshalCaddyfile blockBare zeroSimple = Some p
        /\ failure p = Some (ArgErr (dispenser p))).
Proof.
  split; [| split; [| split]].
  - eassert (Hlines : Lines (Nesting block) block _ _) by read_block.
    destruct (UnmarshalCaddyfile_Lines
                block (zeroSimple (M := list Sample)) _ _ Hlines)
      as ((p & Hp & _ & Hgood) & _ & _).
    destruct Hgood as (_ & _ & Hth & Hfa & Htd & Hmr & _); [lazy; reflexivity |].
    assert (Hc0 : parseCaddyfileHandler block = Some (Some (receiver p), None)).
    { unfold parseCaddyfileHandler. rewrite Hp.
      revert Hp. lazy. intros [= <-]. reflexivity. }
    exists (receiver p). split; [exact Hc0 |].
    split; [exact Hth |]. split; [exact Hfa |]. split; [exact Htd | exact Hmr].
  - eassert (Hlines : Lines (Nesting blockBadThreshold) blockBadThreshold _ _) by read_block.
    destruct (UnmarshalCaddyfile_Lines
                blockBadThreshold (zeroSimple (M := list Sample)) _ _ Hlines)
      as ((p & Hp & Hbad & _) & _ & _).
    destruct (Hbad [("factor", Some "latency")] "threshold" (Some "invalid") [])
      as (Hrec & e & He & _ & _ & Hfloat & _);
      [reflexivity | reflexivity | reflexivity |].
    destruct (ParseFloat "invalid" 64) as [cause |] eqn:Hparse; [| discriminate Hparse].
    exists p, cause. split; [exact Hp |]. split; [reflexivity |].
    split.
    + rewrite He. f_equal.
      apply (Hfloat "invalid" cause); [reflexivity | reflexivity | exact Hparse].
    + rewrite Hrec. reflexivity.
  - eassert (Hlines : Lines (Nesting blockUnknown) blockUnknown _ _) by read_block.
    destruct (UnmarshalCaddyfile_Lines
                blockUnknown (zeroSimple (M := list Sample)) _ _ Hlines)
      as ((p & Hp & Hbad & _) & _ & _).
    destruct (Hbad [] "unknown_option" (Some "value") [])
      as (_ & e & He & Hunknown & _);
      [reflexivity | reflexivity | reflexivity |].
    exists p. split; [exact Hp |]. rewrite He. f_equal. apply Hunknown. reflexivity.
  - eassert (Hlines : Lines (Nesting blockBare) blockBare _ _) by read_block.
    destruct (UnmarshalCaddyfile_Lines
                blockBare (zeroSimple (M := list Sample)) _ _ Hlines)
      as ((p & Hp & Hbad & _) & _ & _).
    destruct (Hbad [] "min_requests" None [])
      as (_ & e & He & _ & Hbare & _);
      [reflexivity | reflexivity | reflexivity |].
    exists p. split; [exact Hp |]. rewrite He. f_equal. apply Hbare; reflexivity.
Qed.

(** C9 at TestCaddyfileParsing, on the dispenser as the test makes it.  The
    complete and the minimal block leave the receiver at its zero value; the
    blocks with a threshold and a duration that are no literals and with an
    unknown name return no error.  Once the name is consumed, as by
    [d.Next()], the same texts parse as the test expects: the values of the
    complete block are assigned, and the three others fail. *)
Lemma C9_witness :
  (UnmarshalCaddyfile namedComplete (zeroSimple (M := list Sample))
   = Some (mkParsed namedComplete zeroSimple None)
   /\ parseCaddyfileHandler (M := list Sample) namedComplete = Some (Some zeroSimple, None))
  /\ UnmarshalCaddyfile namedMinimal (zeroSimple (M := list Sample))
     = Some (mkParsed namedMinimal zeroSimple None)
  /\ UnmarshalCaddyfile namedBadThreshold (zeroSimple (M := list Sample))
     = Some (mkParsed namedBadThreshold zeroSimple None)
  /\ UnmarshalCaddyfile namedBadDuration (zeroSimple (M := list Sample))
     = Some (mkParsed namedBadDuration zeroSimple None)
  /\ UnmarshalCaddyfile namedUnknown (zeroSimple (M := list Sample))
     = Some (mkParsed namedUnknown zeroSimple None)
  /\ (exists p : Parsed (M := list Sample),
        UnmarshalCaddyfile (afterNext namedComplete) zeroSimple = Some p
        /\ failure p = None
        /\ ParseFloat "0.7" 64 = inr (Threshold (config (receiver p)))
        /\ Factor (config (receiver p)) = "error_ratio"
        /\ TripDuration (config (receiver p)) = 10 * Second)
  /\ (exists (p : Parsed (M := list Sample)) (e : error),
        UnmarshalCaddyfile (afterNext namedBadThreshold) zeroSimple = Some p
        /\ failure p = Some e)
  /\ (exists (p : Parsed (M := list Sample)) (e : error),
        UnmarshalCaddyfile (afterNext namedBadDuration) zeroSimple = Some p
        /\ failure p = Some e)
  /\ (exists p : Parsed (M := list Sample),
        UnmarshalCaddyfile (afterNext namedUnknown) zeroSimple = Some p
        /\ failure p
           = Some (Errf (dispenser p) "unrecognized subdirective: unknown_option")).
Proof.
  assert (Hnamed : forall ls (t : Token),
            head (lex 1 (directiveText "circuit_breaker" ls)) = Some t -> Text t <> "{").
  { intros ls t [= <-]. discriminate. }
  split; [| split; [| split; [| split; [| split]]]].
  - exact (C9_block_behind_directive_name_is_not_read
             (lex 1 (directiveText "circuit_breaker" completeLines)) zeroSimple
             (Hnamed completeLines)).
  - exact (proj1 (C9_block_behind_directive_name_is_not_read
                    (lex 1 (directiveText "circuit_breaker" [("threshold", Some "0.5")]))
                    zeroSimple (Hnamed _))).
  - exact (proj1 (C9_block_behind_directive_name_is_not_read
                    (lex 1 (directiveText "circuit_breaker" [("threshold", Some "invalid")]))
                    zeroSimple (Hnamed _))).
  - exact (proj1 (C9_block_behind_directive_name_is_not_read
                    (lex 1 (directiveText "circuit_breaker" [("trip_duration", Some "invalid")]))
                    zeroSimple (Hnamed _))).
  - exact (proj1 (C9_block_behind_directive_name_is_not_read
                    (lex 1 (directiveText "circuit_breaker" [("unknown_option", Some "value")]))
                    zeroSimple (Hnamed _))).
  - split; [| split; [| split]].
    + eexists. split; [vm_compute; reflexivity |].
      split; [reflexivity |]. split; [vm_compute; reflexivity |].
      split; vm_compute; reflexivity.
    + eexists. eexists. split; vm_compute; reflexivity.
    + eexists. eexists. split; vm_compute; reflexivity.
    + eexists. split; vm_compute; reflexivity.
Defined.

(** * Further properties of the package *)

(** ** The running breaker *)

Section Running.
Context {M H : Type} `{RTMetrics M H}.
Context {W : Type} `{ResponseWriter W}.
Context {S R : Type}.
Implicit Types (c : Simple M) (w : World M) (m : M).
Implicit Types (wr : W) (r : R) (s : S) (next : Handler W S R).
Implicit Types (e : @Event W S R) (es : list (@Event W S R)).

(** What every step of a kind keeps, every sequence of such steps keeps. *)
Lemma run_all_invariant (Q : @Event W S R -> Prop) (P : World M -> Prop) :
  (forall e w w', Q e -> P w -> run e w = Some w' -> P w') ->
  forall es w w', Forall Q es -> P w -> run_all es w = Some w' -> P w'.
Proof.
  intros Hstep. induction es as [| e es IH]; cbn; intros w w' HQ HP.
  - intros [= <-]. exact HP.
  - destruct (run e w) as [w1 |] eqn:Hrun; [| discriminate]. cbn.
    apply Forall_cons in HQ. destruct HQ as [He Hes].
    apply IH; [exact Hes |]. exact (Hstep e w w1 He HP Hrun).
Qed.

Lemma Forall_any es : Forall (fun _ : @Event W S R => True) es.
Proof. apply Forall_forall. auto. Qed.

Lemma run_all_config es w w' :
  run_all es w = Some w' ->
  config (cb w') = config (cb w) /\ cbFactor (cb w') = cbFactor (cb w).
Proof.
  apply (run_all_invariant (fun _ => True)
           (fun x => config (cb x) = config (cb w) /\ cbFactor (cb x) = cbFactor (cb w)));
    [| apply Forall_any | auto].
  intros e w1 w2 _ [Hc Hf] Hrun. destruct (run_config _ _ _ Hrun) as [-> ->]. auto.
Qed.

(** [RecordMetric] panics exactly on a nil [metrics]. *)
Lemma RecordMetric_None w (statusCode : Z) (latency : Duration) :
  RecordMetric statusCode latency w = None <-> metrics (cb w) = None.
Proof.
  split.
  - intros Hnone. destruct (metrics (cb w)) as [m |] eqn:Hm; [| reflexivity].
    destruct (RecordMetric_returns w statusCode latency) as [w' Hw']; [eauto |]. congruence.
  - intros Hm. unfold RecordMetric. rewrite Hm. reflexivity.
Qed.

(** X2.  [RecordMetric] panics exactly on a nil [metrics]; [ServeHTTP] panics
    exactly when the breaker lets the request through and [metrics] is nil,
    so an open breaker rejects even when it was never provisioned.  A call of
    [RecordMetric] that returns has recorded the sample, once, at the time
    of the call, and has neither moved the clock nor touched the
    configuration. *)
Theorem nil_metrics_is_the_only_panic w :
  (forall (statusCode : Z) (latency : Duration),
     RecordMetric statusCode latency w = None <-> metrics (cb w) = None)
  /\ (forall wr r next s,
       ServeHTTP wr r next s w = None <-> OK (cb w) = true /\ metrics (cb w) = None)
  /\ (forall (statusCode : Z) (latency : Duration) w',
       RecordMetric statusCode latency w = Some w' ->
       now w' = now w
       /\ config (cb w') = config (cb w)
       /\ cbFactor (cb w') = cbFactor (cb w)
       /\ exists m, metrics (cb w) = Some m
                    /\ metrics (cb w') = Some (Record_ (now w) statusCode latency m)).
Proof.
  split; [intros; apply RecordMetric_None |]. split.
  - intros wr r next s. destruct (OK (cb w)) eqn:Hok.
    + rewrite (ServeHTTP_closed wr r next s w Hok). cbv zeta.
      destruct (RecordMetric _ _ _) as [w1 |] eqn:Hrec; cbn.
      * split; [discriminate |]. intros [_ Hnil].
        apply RecordMetric_effect in Hrec. destruct Hrec as (m & Hm & _).
        cbn in Hm. congruence.
      * apply RecordMetric_None in Hrec. cbn in Hrec. split; auto.
    + unfold ServeHTTP. rewrite Hok. cbn [negb].
      split; [discriminate | intros [? _]; discriminate].
  - intros statusCode latency w' Hrun. apply RecordMetric_effect in Hrun.
    destruct Hrun as (m & Hm & [-> | ->]); repeat split; exists m; split; auto.
Qed.

(** What a [Provision] that returns no error has set up. *)
Lemma Provision_success c :
  (Provision c).2 = None ->
  provisioned (Provision c).1 /\ is_Some (metrics (Provision c).1)
  /\ tripped (Provision c).1 = 0.
Proof.
  rewrite (Provision_cases c). cbv zeta.
  destruct (typeCB !! _) as [f |] eqn:Hf; [| discriminate].
  destruct NewRTMetrics as [e | mt]; [discriminate |]. cbn. intros _.
  repeat split; eauto.
Qed.

(** X1.  A breaker that [Provision] has set up keeps its configuration, its
    factor's code and its aggregator whatever happens; its flag is 0 or 1;
    and no call of [RecordMetric] or [ServeHTTP] and no recovery whose sleep
    is over panics on it. *)
Theorem provisioned_breaker_never_panics c (t0 : Time) es w :
  (Provision c).2 = None ->
  run_all es (mkWorld t0 (Provision c).1 []) = Some w ->
  config (cb w) = config (Provision c).1
  /\ provisioned (cb w)
  /\ (tripped (cb w) = 0 \/ tripped (cb w) = 1)
  /\ (forall (statusCode : Z) (latency : Duration),
        is_Some (RecordMetric statusCode latency w))
  /\ (forall wr r next s, is_Some (ServeHTTP wr r next s w))
  /\ (forall (i : nat) (t : Time),
        sleeping w !! i = Some t -> t <= now w -> is_Some (wake i w)).
Proof.
  intros Hok Hall.
  destruct (Provision_success c Hok) as (Hprov & Hmet & Htrip).
  destruct (run_all_config _ _ _ Hall) as [Hconfig Hfactor]. cbn in Hconfig, Hfactor.
  assert (Hm : is_Some (metrics (cb w))) by exact (run_all_metrics es _ _ Hall Hmet).
  assert (Hflag : tripped (cb w) = 0 \/ tripped (cb w) = 1).
  { revert Hall.
    apply (run_all_invariant (fun _ => True)
             (fun x => tripped (cb x) = 0 \/ tripped (cb x) = 1));
      [| apply Forall_any | left; exact Htrip].
    intros e w1 w2 _ Hflag Hrun.
    destruct (run_Change _ _ _ Hrun) as [-> _ | [-> _] | i t _ _ _ _ -> _]; auto. }
  split; [exact Hconfig |]. split.
  { unfold provisioned in *. rewrite Hconfig, Hfactor. exact Hprov. }
  split; [exact Hflag |]. split.
  { intros statusCode latency. apply RecordMetric_returns. exact Hm. }
  split.
  - intros wr r next s. destruct (OK (cb w)) eqn:Hopen.
    + rewrite (ServeHTTP_closed wr r next s w Hopen). cbv zeta.
      destruct (RecordMetric_returns
                  (mkWorld (now w + took (next wr r s)) (cb w) (sleeping w))
                  (if returned (next wr r s) is Some _ then 500 else Status (next wr r s))
                  (took (next wr r s))) as [w1 Hw1]; [exact Hm |].
      rewrite Hw1. cbn. eauto.
    + unfold ServeHTTP. rewrite Hopen. cbn. eauto.
  - intros i t Hi Hdue. destruct Hm as [m Hm].
    rewrite (wake_cases i t w m Hi Hm).
    apply Z.leb_le in Hdue. rewrite Hdue. eauto.
Qed.

(** X3.  Requests that all come through the middleware, from a closed breaker
    with no goroutine asleep: the breaker is open exactly while one recovery
    goroutine sleeps, and there is never a second. *)
Theorem through_middleware_one_recovery_at_most es w0 w :
  tripped (cb w0) = 0 ->
  sleeping w0 = [] ->
  forallb through_middleware es = true ->
  run_all es w0 = Some w ->
  (tripped (cb w) = 0 /\ sleeping w = [])
  \/ (tripped (cb w) = 1 /\ exists t : Time, sleeping w = [t]).
Proof.
  intros Ht Hs Hmid Hall. revert Hall.
  apply (run_all_invariant (fun e => through_middleware e = true)
           (fun x => (tripped (cb x) = 0 /\ sleeping x = [])
                     \/ (tripped (cb x) = 1 /\ exists t : Time, sleeping x = [t])));
    [| apply Forall_forall; intros e He;
       exact (proj1 (forallb_forall _ _) Hmid e (proj1 (list_elem_of_In _ _) He))
     | left; auto].
  intros e w1 w2 He Hinv Hrun.
  destruct e as [statusCode latency | wr r next s | | d | i]; cbn in Hrun;
    [discriminate He | | | |].
  - unfold ServeHTTP in Hrun. destruct Hinv as [[Hflag Hnone] | [Hflag Hone]].
    + unfold OK in Hrun. rewrite Hflag in Hrun. cbn in Hrun.
      destruct (RecordMetric _ _ _) as [w3 |] eqn:Hrec; [| discriminate].
      cbn in Hrun. injection Hrun as <-.
      apply RecordMetric_effect in Hrec. destruct Hrec as (m & _ & [-> | ->]); cbn.
      * left. auto.
      * right. rewrite Hnone. eauto.
    + unfold OK in Hrun. rewrite Hflag in Hrun. cbn in Hrun. injection Hrun as <-.
      right. auto.
  - injection Hrun as <-. exact Hinv.
  - destruct (0 <=? d); [| discriminate]. injection Hrun as <-. exact Hinv.
  - unfold wake in Hrun. destruct Hinv as [[Hflag Hnone] | [Hflag [t Hone]]].
    + rewrite Hnone in Hrun. discriminate.
    + rewrite Hone in Hrun. destruct i as [| i]; [| discriminate]. cbn in Hrun.
      destruct (t <=? now w1); [| discriminate].
      unfold recovery in Hrun. cbn in Hrun.
      destruct (metrics (cb w1)); [| discriminate]. cbn in Hrun.
      injection Hrun as <-. left. auto.
Qed.

(** X4.  Recoveries are not cancelled: a goroutine whose sleep is over closes the
    breaker although another one, started by a later trip, still sleeps; that
    one stays asleep and keeps its time. *)
Theorem earlier_recovery_closes_during_later_trip w (i j : nat) (t t' : Time) m :
  metrics (cb w) = Some m ->
  sleeping w !! i = Some t ->
  sleeping w !! j = Some t' ->
  t <= now w < t' ->
  exists w',
    wake i w = Some w'
    /\ OK (cb w') = true
    /\ metrics (cb w') = Some (Reset m)
    /\ t' ∈ sleeping w'
    /\ now w' < t'
    /\ (length (sleeping w') = length (sleeping w) - 1)%nat.
Proof.
  intros Hm Hi Hj [Hdue Hlater].
  rewrite (wake_cases i t w m Hi Hm).
  apply Z.leb_le in Hdue. rewrite Hdue. eexists. split; [reflexivity |].
  cbn. repeat split; try assumption.
  - assert (Hne : i <> j) by (intros ->; rewrite Hi in Hj; injection Hj as ->;
                              apply Z.leb_le in Hdue; lia).
    destruct (decide (j < i)%nat) as [Hlt | Hge].
    + apply (list_elem_of_lookup_2 _ j). rewrite list_lookup_delete_lt; assumption.
    + apply (list_elem_of_lookup_2 _ (Nat.pred j)).
      rewrite list_lookup_delete_ge; [| lia].
      replace (Datatypes.S (Nat.pred j)) with j by lia. exact Hj.
  - rewrite length_delete; [reflexivity |]. eauto.
Qed.

(** X5.  The request whose sample trips the breaker is still answered by the
    downstream handler; the requests after it are rejected without a call of
    the handler, as long as the breaker is open. *)
Theorem tripping_request_is_served_next_is_rejected wr r next s w m :
  OK (cb w) = true ->
  metrics (cb w) = Some m ->
  let served := next wr r s in
  let status := if returned served is Some _ then 500 else Status served in
  let t := now w + took served in
  let m1 := Record_ t status (took served) m in
  MinRequests (config (cb w)) <= TotalCount t m1 ->
  evaluate t m1 (cb w) = Some true ->
  exists res,
    ServeHTTP wr r next s w = Some res
    /\ response res = writer served
    /\ downstream res = state served
    /\ err res = returned served
    /\ OK (cb (world res)) = false
    /\ sleeping (world res) = (t + TripDuration (config (cb w))) :: sleeping w
    /\ forall wr' r' next' s',
         ServeHTTP wr' r' next' s' (world res)
         = Some (mkResult (world res)
                   (Write "Service Unavailable - Circuit Breaker Open" (WriteHeader 503 wr'))
                   s' None).
Proof.
  intros Hok Hm served status t m1 Hle Hev.
  rewrite (ServeHTTP_closed wr r next s w Hok). cbv zeta.
  fold served. fold status. fold t.
  set (returning := mkWorld t (cb w) (sleeping w)).
  assert (Hm' : metrics (cb returning) = Some m) by exact Hm.
  rewrite (RecordMetric_with_sample returning status (took served) m Hm').
  rewrite (checkAndSet_reached (with_sample status (took served) m returning) m1);
    [| reflexivity | exact Hle].
  change (evaluate (now (with_sample status (took served) m returning)) m1
            (cb (with_sample status (took served) m returning)))
    with (evaluate t m1 (set_metrics (Some m1) (cb w))).
  assert (Hev' : evaluate t m1 (set_metrics (Some m1) (cb w)) = Some true) by exact Hev.
  rewrite Hev'. cbn. eexists. split; [reflexivity |]. cbn.
  repeat split.
Qed.

End Running.

Section Floor.
Context {M H : Type} `{RTMetrics M H} `{!RecordCountsOne M H}.
Context {W : Type} `{ResponseWriter W}.
Context {S R : Type}.
Implicit Types (c : Simple M) (w : World M) (m : M).
Implicit Types (e : @Event W S R) (es : list (@Event W S R)).

Lemma recordings_cons e es :
  recordings (e :: es) = (if records e then 1 else 0) + recordings es.
Proof.
  unfold recordings. cbn [List.filter]. destruct (records e); cbn [length]; lia.
Qed.

Lemma recordings_nonneg es : 0 <= recordings es.
Proof. unfold recordings. lia. Qed.

(** Below the minimum, a call of [RecordMetric] on a window that counts at
    most [k] samples leaves one that counts at most [k + 1]. *)
Lemma RecordMetric_counted w (statusCode : Z) (latency : Duration) m (k : Z) w' :
  metrics (cb w) = Some m ->
  (forall t : Time, TotalCount t m <= k) ->
  k + 1 < MinRequests (config (cb w)) ->
  RecordMetric statusCode latency w = Some w' ->
  w' = with_sample statusCode latency m w
  /\ forall t : Time, TotalCount t (Record_ (now w) statusCode latency m) <= k + 1.
Proof.
  intros Hm Hk Hlt Hrun.
  assert (Hbound : forall t : Time, TotalCount t (Record_ (now w) statusCode latency m) <= k + 1).
  { intros t. pose proof (TotalCount_Record t (now w) statusCode latency m).
    pose proof (Hk t). lia. }
  split; [| exact Hbound].
  rewrite (RecordMetric_with_sample _ _ _ _ Hm) in Hrun.
  rewrite (checkAndSet_below _ (Record_ (now w) statusCode latency m)) in Hrun;
    [congruence | reflexivity |].
  cbn. pose proof (Hbound (now w)). lia.
Qed.

Lemma below_floor es : forall w0 w m0 (k : Z),
  sleeping w0 = [] ->
  metrics (cb w0) = Some m0 ->
  (forall t : Time, TotalCount t m0 <= k) ->
  k + recordings es < MinRequests (config (cb w0)) ->
  run_all es w0 = Some w ->
  tripped (cb w) = tripped (cb w0) /\ sleeping w = []
  /\ exists m, metrics (cb w) = Some m
               /\ forall t : Time, TotalCount t m <= k + recordings es.
Proof.
  induction es as [| e es IH]; intros w0 w m0 k Hs Hm Hk Hlt; cbn [run_all].
  - intros [= <-]. repeat split; auto. exists m0. split; [exact Hm |].
    intros t. pose proof (Hk t). pose proof (recordings_nonneg (@nil (@Event W S R))). lia.
  - rewrite recordings_cons in *. pose proof (recordings_nonneg es) as Hnn.
    destruct (run e w0) as [w1 |] eqn:Hrun; [| discriminate]. cbn [mbind option_bind].
    intros Hall.
    destruct e as [statusCode latency | wr r next s | | d | i]; cbn in Hrun; cbn [records] in *.
    + destruct (RecordMetric_counted w0 statusCode latency m0 k w1 Hm Hk) as [-> Hk1];
        [lia | exact Hrun |].
      destruct (IH (with_sample statusCode latency m0 w0) w
                  (Record_ (now w0) statusCode latency m0) (k + 1) Hs eq_refl Hk1)
        as (Ht & Hs' & m & Hm' & Hb); [cbn; lia | exact Hall |].
      split; [exact Ht |]. split; [exact Hs' |]. exists m. split; [exact Hm' |].
      intros t. pose proof (Hb t). lia.
    + unfold ServeHTTP in Hrun. destruct (negb (OK (cb w0))).
      * cbn in Hrun. injection Hrun as <-.
        destruct (IH w0 w m0 k Hs Hm Hk) as (Ht & Hs' & m & Hm' & Hb);
          [lia | exact Hall |].
        split; [exact Ht |]. split; [exact Hs' |]. exists m. split; [exact Hm' |].
        intros t. pose proof (Hb t). lia.
      * cbv zeta in Hrun.
        destruct (RecordMetric _ _ _) as [w2 |] eqn:Hrec; [| discriminate].
        cbn in Hrun. injection Hrun as <-.
        match type of Hrec with
        | RecordMetric ?st ?lat ?w1 = _ =>
            destruct (RecordMetric_counted w1 st lat m0 k w2 Hm Hk) as [-> Hk1];
              [cbn; lia | exact Hrec |]
        end.
        match type of Hall with
        | run_all es ?w2 = _ =>
            destruct (IH w2 w _ (k + 1) Hs eq_refl Hk1) as (Ht & Hs' & m & Hm' & Hb);
              [cbn; lia | exact Hall |]
        end.
        split; [exact Ht |]. split; [exact Hs' |]. exists m. split; [exact Hm' |].
        intros t. pose proof (Hb t). lia.
    + injection Hrun as <-.
      destruct (IH w0 w m0 k Hs Hm Hk) as (Ht & Hs' & m & Hm' & Hb); [lia | exact Hall |].
      split; [exact Ht |]. split; [exact Hs' |]. exists m. split; [exact Hm' |].
      intros t. pose proof (Hb t). lia.
    + destruct (0 <=? d); [| discriminate]. injection Hrun as <-.
      destruct (IH (mkWorld (now w0 + d) (cb w0) (sleeping w0)) w m0 k Hs Hm Hk)
        as (Ht & Hs' & m & Hm' & Hb); [cbn; lia | exact Hall |].
      split; [exact Ht |]. split; [exact Hs' |]. exists m. split; [exact Hm' |].
      intros t. pose proof (Hb t). lia.
    + unfold wake in Hrun. rewrite Hs in Hrun. discriminate.
Qed.

(** X6.  A window that counts nothing, as after [Provision] or a recovery, and no
    goroutine asleep: events that record fewer than [MinRequests] samples in
    all never trip the breaker, whatever the samples are. *)
Theorem fewer_than_MinRequests_samples_never_trip es w0 w m0 :
  sleeping w0 = [] ->
  metrics (cb w0) = Some m0 ->
  (forall t : Time, TotalCount t m0 <= 0) ->
  recordings es < MinRequests (config (cb w0)) ->
  run_all es w0 = Some w ->
  tripped (cb w) = tripped (cb w0) /\ OK (cb w) = OK (cb w0) /\ sleeping w = [].
Proof.
  intros Hs Hm Hzero Hlt Hall.
  destruct (below_floor es w0 w m0 0 Hs Hm Hzero) as (Ht & Hs' & _); [lia | exact Hall |].
  unfold OK. rewrite Ht. auto.
Qed.

End Floor.

(** ** Provisioning, again *)

Section Reprovisioning.
Context {M H : Type} `{RTMetrics M H}.
Implicit Types c : Simple M.

Lemma defaulted_Factor (factor : string) :
  String.eqb (if String.eqb factor "" then "error_ratio" else factor) "" = false.
Proof. destruct (String.eqb factor "") eqn:He; [reflexivity | exact He]. Qed.

Lemma defaulted_MinRequests (n : Z) : ((if n =? 0 then 10 else n) =? 0) = false.
Proof. destruct (n =? 0) eqn:He; [reflexivity | exact He]. Qed.

Lemma defaulted_TripDuration (d : Duration) :
  ((if d =? 0 then defaultTripDuration else d) =? 0) = false.
Proof. destruct (d =? 0) eqn:He; [reflexivity | exact He]. Qed.

(** X8.  [Provision] is idempotent: run on what it left, it leaves the same and
    returns the same. *)
Theorem Provision_idempotent c : Provision (Provision c).1 = Provision c.
Proof.
  rewrite (Provision_cases c). cbv zeta.
  destruct (typeCB !! _) as [f |] eqn:Hf.
  - destruct NewRTMetrics as [e | mt] eqn:Hnew; cbn [fst];
      rewrite Provision_cases; cbv zeta; fields;
      rewrite defaulted_Factor, defaulted_MinRequests, defaulted_TripDuration, Hf, Hnew;
      reflexivity.
  - cbn [fst]. rewrite Provision_cases. cbv zeta. fields.
    rewrite defaulted_Factor, defaulted_MinRequests, Hf. reflexivity.
Qed.

(** X9.  After [Provision], failed or not, neither [Factor] is empty nor
    [MinRequests] zero; after a [Provision] that did not fail,
    [TripDuration] is not zero either.  A zero in the configuration is
    therefore the same as no value.  What is not zero, negative numbers
    included, is kept. *)
Theorem Provision_leaves_no_zero c :
  Factor (config (Provision c).1) <> ""
  /\ MinRequests (config (Provision c).1) <> 0
  /\ ((Provision c).2 = None -> TripDuration (config (Provision c).1) <> 0)
  /\ (MinRequests (config c) <> 0 ->
      MinRequests (config (Provision c).1) = MinRequests (config c))
  /\ (TripDuration (config c) <> 0 ->
      TripDuration (config (Provision c).1) = TripDuration (config c)).
Proof.
  rewrite (Provision_cases c). cbv zeta.
  pose proof (defaulted_Factor (Factor (config c))) as Hfa.
  pose proof (defaulted_MinRequests (MinRequests (config c))) as Hmr.
  pose proof (defaulted_TripDuration (TripDuration (config c))) as Htd.
  apply String.eqb_neq in Hfa. apply Z.eqb_neq in Hmr. apply Z.eqb_neq in Htd.
  assert (Hkeep_mr : MinRequests (config c) <> 0 ->
                     (if MinRequests (config c) =? 0 then 10 else MinRequests (config c))
                     = MinRequests (config c))
    by (intros Hn; apply Z.eqb_neq in Hn; rewrite Hn; reflexivity).
  assert (Hkeep_td : TripDuration (config c) <> 0 ->
                     (if TripDuration (config c) =? 0 then defaultTripDuration
                      else TripDuration (config c))
                     = TripDuration (config c))
    by (intros Hn; apply Z.eqb_neq in Hn; rewrite Hn; reflexivity).
  destruct (typeCB !! _) as [f |]; [destruct NewRTMetrics as [e | mt] |]; cbn;
    repeat split; auto; discriminate.
Qed.

(** X10.  A [Provision] that fails installs nothing: the flag, the factor's code,
    the aggregator and the threshold are as they were.  When it fails on the
    factor, it has defaulted [Factor] and [MinRequests] in place, so that a
    zero minimum has become 10, but it has not touched [TripDuration]; the
    error quotes the factor as defaulted. *)
Theorem Provision_failure_installs_nothing c (e : error) :
  (Provision c).2 = Some e ->
  tripped (Provision c).1 = tripped c
  /\ cbFactor (Provision c).1 = cbFactor c
  /\ metrics (Provision c).1 = metrics c
  /\ Threshold (config (Provision c).1) = Threshold (config c)
  /\ (typeCB !! Factor (config (Provision c).1) = None ->
      Factor (config (Provision c).1)
        = (if String.eqb (Factor (config c)) "" then "error_ratio" else Factor (config c))
      /\ MinRequests (config (Provision c).1)
        = (if MinRequests (config c) =? 0 then 10 else MinRequests (config c))
      /\ TripDuration (config (Provision c).1) = TripDuration (config c)
      /\ e = Errorf ("invalid factor '" +:+ Factor (config (Provision c).1)
                       +:+ "', must be one of: latency, error_ratio, status_ratio")).
Proof.
  rewrite (Provision_cases c). cbv zeta.
  destruct (typeCB !! _) as [f |] eqn:Hf; [destruct NewRTMetrics as [e' | mt] |]; cbn.
  - intros _. repeat split; try reflexivity; congruence.
  - discriminate.
  - intros [= <-]. repeat split; reflexivity.
Qed.

End Reprovisioning.

(** ** A threshold that is not a number *)

Section NotANumber.
Context {M H : Type} `{RTMetrics M H}.
Context {W : Type} `{ResponseWriter W}.
Context {S R : Type}.
Implicit Types (c : Simple M) (w : World M) (m : M).
Implicit Types (e : @Event W S R) (es : list (@Event W S R)).

Lemma SFeqb_self (f : SpecFloat.spec_float) :
  SpecFloat.SFeqb f f = false -> f = SpecFloat.S754_nan.
Proof.
  destruct f as [s | s | | s mant ex]; unfold SpecFloat.SFeqb; cbn; try discriminate.
  - destruct s; discriminate.
  - reflexivity.
  - rewrite Z.compare_refl.
    assert (Hm : Pos.compare_cont Eq mant mant = Eq) by apply Pos.compare_refl.
    destruct s; rewrite Hm; discriminate.
Qed.

(** No float64 is above a NaN. *)
Lemma gt_nan (x t : float) : PrimFloat.is_nan t = true -> gt x t = false.
Proof.
  unfold PrimFloat.is_nan, gt. intros Hnan. apply negb_true_iff in Hnan.
  rewrite FloatAxioms.eqb_spec in Hnan. apply SFeqb_self in Hnan.
  rewrite FloatAxioms.ltb_spec, Hnan. reflexivity.
Qed.

Lemma evaluate_nan (t : Time) m c :
  PrimFloat.is_nan (Threshold (config c)) = true ->
  evaluate t m c = Some false \/ evaluate t m c = None.
Proof.
  intros Hnan. unfold evaluate.
  destruct (cbFactor c =? factorErrorRatio); [rewrite !gt_nan by exact Hnan; auto |].
  destruct (cbFactor c =? factorLatency).
  - destruct (LatencyHistogram t m); [auto |]. rewrite gt_nan by exact Hnan. auto.
  - destruct (cbFactor c =? factorStatusCodeRatio); [rewrite gt_nan by exact Hnan |]; auto.
Qed.

Lemma RecordMetric_nan w (statusCode : Z) (latency : Duration) w' :
  PrimFloat.is_nan (Threshold (config (cb w))) = true ->
  RecordMetric statusCode latency w = Some w' ->
  tripped (cb w') = tripped (cb w) /\ sleeping w' = sleeping w
  /\ config (cb w') = config (cb w).
Proof.
  intros Hnan. unfold RecordMetric.
  destruct (metrics (cb w)) as [m |]; [| discriminate]. cbn [mbind option_bind].
  unfold checkAndSet. cbn [with_sample cb metrics set_metrics now]. cbn [mbind option_bind].
  destruct (_ <? _); [intros [= <-]; auto |].
  destruct (evaluate_nan (now w) (Record_ (now w) statusCode latency m)
              (set_metrics (Some (Record_ (now w) statusCode latency m)) (cb w)) Hnan)
    as [-> | ->]; intros [= <-]; auto.
Qed.

(** X11.  With a [Threshold] that is NaN, which [strconv.ParseFloat] gives for the
    literal NaN, no comparison of [checkAndSet] holds: a closed breaker with
    no goroutine asleep stays closed whatever is recorded, for every factor. *)
Theorem NaN_threshold_never_trips es w0 w :
  PrimFloat.is_nan (Threshold (config (cb w0))) = true ->
  tripped (cb w0) = 0 ->
  sleeping w0 = [] ->
  run_all es w0 = Some w ->
  OK (cb w) = true /\ sleeping w = [].
Proof.
  intros Hnan Ht Hs Hall.
  assert (Hinv : config (cb w) = config (cb w0) /\ tripped (cb w) = 0 /\ sleeping w = []).
  { revert Hall.
    apply (run_all_invariant (fun _ => True)
             (fun x => config (cb x) = config (cb w0) /\ tripped (cb x) = 0 /\ sleeping x = []));
      [| apply Forall_any | auto].
    intros e w1 w2 _ (Hc & Hflag & Hnone) Hrun.
    assert (Hnan1 : PrimFloat.is_nan (Threshold (config (cb w1))) = true)
      by (rewrite Hc; exact Hnan).
    destruct e as [statusCode latency | wr r next s | | d | i]; cbn in Hrun.
    - destruct (RecordMetric_nan _ _ _ _ Hnan1 Hrun) as (-> & -> & ->). auto.
    - unfold ServeHTTP in Hrun. unfold OK in Hrun. rewrite Hflag in Hrun. cbn in Hrun.
      destruct (RecordMetric _ _ _) as [w3 |] eqn:Hrec; [| discriminate].
      cbn in Hrun. injection Hrun as <-.
      apply RecordMetric_nan in Hrec; [| exact Hnan1].
      destruct Hrec as (-> & -> & ->). auto.
    - injection Hrun as <-. auto.
    - destruct (0 <=? d); [| discriminate]. injection Hrun as <-. auto.
    - unfold wake in Hrun. rewrite Hnone in Hrun. discriminate. }
  destruct Hinv as (_ & Hflag & Hnone). unfold OK. rewrite Hflag. auto.
Qed.

End NotANumber.

(** ** From the block to the provisioned breaker *)

Section Configuring.
Context {M H : Type} `{RTMetrics M H}.
Context {D : Type} `{Dispenser D} `{!Consuming D} `{Parsers}.
Implicit Types (c : Simple M) (d : D) (ls : list (string * option string)).

(** The last mention of a directive is a line of the block; and when no
    directive is named twice, a line is the last mention of its directive. *)
Lemma mentioned_elem_of (name arg : string) ls :
  mentioned name ls = Some arg -> (name, Some arg) ∈ ls.
Proof.
  induction ls as [| [name' arg'] ls IH]; cbn; [discriminate |].
  destruct (mentioned name ls) as [a |].
  - intros [= ->]. right. apply IH. reflexivity.
  - destruct (String.eqb name' name) eqn:Hn; [| discriminate].
    apply String.eqb_eq in Hn. intros ->. subst. left.
Qed.

Lemma elem_of_mentioned (name arg : string) ls :
  NoDup ls.*1 -> (name, Some arg) ∈ ls -> mentioned name ls = Some arg.
Proof.
  induction ls as [| [name' arg'] ls IH]; cbn; intros Hnd Hin.
  - apply elem_of_nil in Hin. contradiction.
  - apply NoDup_cons in Hnd. destruct Hnd as [Hfresh Hnd].
    apply elem_of_cons in Hin. destruct Hin as [[= <- <-] | Hin].
    + destruct (mentioned name ls) as [a |] eqn:Hm.
      * exfalso. apply Hfresh. apply mentioned_elem_of in Hm.
        apply (list_elem_of_fmap_2 fst) in Hm. exact Hm.
      * rewrite String.eqb_refl. reflexivity.
    + rewrite (IH Hnd Hin). reflexivity.
Qed.

Lemma mentioned_Permutation (name : string) ls1 ls2 :
  ls1 ≡ₚ ls2 -> NoDup ls1.*1 -> mentioned name ls1 = mentioned name ls2.
Proof.
  intros Hperm Hnd1.
  assert (Hnd2 : NoDup ls2.*1) by (rewrite <- Hperm; exact Hnd1).
  destruct (mentioned name ls1) as [a |] eqn:H1'.
  - symmetry. apply elem_of_mentioned; [exact Hnd2 |].
    rewrite <- Hperm. apply mentioned_elem_of. exact H1'.
  - destruct (mentioned name ls2) as [a |] eqn:H2'; [| reflexivity].
    apply mentioned_elem_of in H2'. rewrite <- Hperm in H2'.
    apply (elem_of_mentioned _ _ _ Hnd1) in H2'. congruence.
Qed.

Lemma accepted_Permutation ls1 ls2 :
  ls1 ≡ₚ ls2 -> forallb accepted ls1 = true -> forallb accepted ls2 = true.
Proof.
  intros Hperm Hacc. apply forallb_forall. intros line Hin.
  apply (proj1 (forallb_forall _ _) Hacc).
  apply list_elem_of_In. rewrite Hperm. apply list_elem_of_In. exact Hin.
Qed.

(** X12.  The order of the directives of a block does not matter: two blocks with
    the same lines, none naming a directive twice, all accepted, leave the
    same receiver. *)
Theorem directive_order_is_insignificant d1 d2 ls1 ls2 d1' d2' c :
  Lines (Nesting d1) d1 ls1 d1' ->
  Lines (Nesting d2) d2 ls2 d2' ->
  ls1 ≡ₚ ls2 ->
  NoDup ls1.*1 ->
  forallb accepted ls1 = true ->
  exists p1 p2,
    UnmarshalCaddyfile d1 c = Some p1
    /\ UnmarshalCaddyfile d2 c = Some p2
    /\ failure p1 = None /\ failure p2 = None
    /\ receiver p1 = receiver p2.
Proof.
  intros Hl1 Hl2 Hperm Hnd Hacc1.
  pose proof (accepted_Permutation _ _ Hperm Hacc1) as Hacc2.
  destruct (blocks_Lines _ _ _ _ Hl1 (Datatypes.S (remaining d1)) c) as (p1 & Hp1 & Hall1 & _);
    [lia |].
  destruct (blocks_Lines _ _ _ _ Hl2 (Datatypes.S (remaining d2)) c) as (p2 & Hp2 & Hall2 & _);
    [lia |].
  exists p1, p2. split; [exact Hp1 |]. split; [exact Hp2 |].
  rewrite (Hall1 Hacc1), (Hall2 Hacc2). cbn [failure receiver].
  split; [reflexivity |]. split; [reflexivity |].
  pose proof (assign_all_Threshold ls1 c Hacc1) as Hth1.
  pose proof (assign_all_Threshold ls2 c Hacc2) as Hth2.
  pose proof (assign_all_Factor ls1 c Hacc1) as Hfa1.
  pose proof (assign_all_Factor ls2 c Hacc2) as Hfa2.
  pose proof (assign_all_TripDuration ls1 c Hacc1) as Htd1.
  pose proof (assign_all_TripDuration ls2 c Hacc2) as Htd2.
  pose proof (assign_all_MinRequests ls1 c Hacc1) as Hmr1.
  pose proof (assign_all_MinRequests ls2 c Hacc2) as Hmr2.
  rewrite <- (mentioned_Permutation _ _ _ Hperm Hnd) in Hth2.
  rewrite <- (mentioned_Permutation _ _ _ Hperm Hnd) in Hfa2.
  rewrite <- (mentioned_Permutation _ _ _ Hperm Hnd) in Htd2.
  rewrite <- (mentioned_Permutation _ _ _ Hperm Hnd) in Hmr2.
  destruct (assign_all_rest ls1 c) as (Ht1 & Hf1 & Hm1).
  destruct (assign_all_rest ls2 c) as (Ht2 & Hf2 & Hm2).
  destruct (assign_all ls1 c) as [t1 f1 m1 [th1 fa1 td1 mr1]].
  destruct (assign_all ls2 c) as [t2 f2 m2 [th2 fa2 td2 mr2]].
  cbn in *.
  assert (th1 = th2) by (destruct (mentioned "threshold" ls1); congruence).
  assert (fa1 = fa2) by (destruct (mentioned "factor" ls1); congruence).
  assert (td1 = td2) by (destruct (mentioned "trip_duration" ls1); congruence).
  assert (mr1 = mr2) by (destruct (mentioned "min_requests" ls1); congruence).
  congruence.
Qed.

End Configuring.

(** ** From the text of a directive to the provisioned breaker *)

Section Written.
Context {M H : Type} `{RTMetrics M H} `{Parsers}.
Implicit Types (c : Simple M) (ls : list (string * option string)).

(** X13.  A block of lines that the parser accepts, read from its opening
    brace: the parser validates no factor, and what it returns is not
    provisioned, [metrics] being nil.  [Provision] on the parsed handler then
    works with the factor the block mentions last, or with error_ratio when
    the block mentions none or an empty one; it fails with the error that
    quotes an invalid factor; and when it succeeds, every other field holds
    the parsed value of its last mention, except that a zero [min_requests]
    or [trip_duration], like one not mentioned, has become 10 or five
    seconds, and a threshold not mentioned is 0.  The same block behind the
    name of a directive is not read: the handler is the zero breaker, and
    [Provision] gives it the defaults and the threshold 0, whatever the
    block says. *)
Theorem parse_then_Provision (name : string) ls :
  name <> "{" ->
  forallb accepted ls = true ->
  forallb plain ls = true ->
  (exists c0 : Simple M,
    parseCaddyfileHandler (NewTestDispenser (blockText ls)) = Some (Some c0, None)
    /\ metrics c0 = None /\ cbFactor c0 = 0 /\ OK c0 = true
    /\ let factor :=
         match mentioned "factor" ls with
         | Some a => if String.eqb a "" then "error_ratio" else a
         | None => "error_ratio"
         end in
       (factor ∉ ["latency"; "error_ratio"; "status_ratio"] ->
        (Provision c0).2 =
          Some (Errorf ("invalid factor '" +:+ factor
                          +:+ "', must be one of: latency, error_ratio, status_ratio")))
       /\ (factor ∈ ["latency"; "error_ratio"; "status_ratio"] ->
           forall mt : M, NewRTMetrics = inr mt ->
             let c1 := (Provision c0).1 in
             (Provision c0).2 = None
             /\ OK c1 = true /\ metrics c1 = Some mt
             /\ Factor (config c1) = factor
             /\ match mentioned "threshold" ls with
                | Some a => ParseFloat a 64 = inr (Threshold (config c1))
                | None => Threshold (config c1) = 0%float
                end
             /\ match mentioned "min_requests" ls with
                | Some a => exists n : Z,
                    Atoi a = inr n /\ MinRequests (config c1) = if n =? 0 then 10 else n
                | None => MinRequests (config c1) = 10
                end
             /\ match mentioned "trip_duration" ls with
                | Some a => exists dur : Duration,
                    ParseDuration a = inr dur
                    /\ TripDuration (config c1) = if dur =? 0 then 5 * Second else dur
                | None => TripDuration (config c1) = 5 * Second
                end))
  /\ (parseCaddyfileHandler (M := M) (NewTestDispenser (directiveText name ls))
      = Some (Some zeroSimple, None)
      /\ forall mt : M, NewRTMetrics = inr mt ->
           Provision (zeroSimple (M := M))
           = (mkSimple 0 factorErrorRatio (Some mt)
                (mkConfig 0%float "error_ratio" (5 * Second) 10), None)).
Proof.
  intros Hname Hacc Hplain. split.
  2: { split.
       - unfold parseCaddyfileHandler, NewTestDispenser.
         rewrite UnmarshalCaddyfile_behind_name; [reflexivity |].
         intros t [= <-]. exact Hname.
       - intros mt Hnew. rewrite (Provision_cases (zeroSimple (M := M))). cbv zeta.
         assert (Hcode : typeCB !! "error_ratio" = Some factorErrorRatio)
           by (vm_compute; reflexivity).
         cbn [zeroSimple zeroConfig config Factor MinRequests TripDuration Threshold
              tripped cbFactor metrics String.eqb Z.eqb].
         rewrite Hcode, Hnew. reflexivity. }
  destruct (Lines_blockText ls Hplain) as [d' Hlines].
  set (d := NewTestDispenser (blockText ls)) in *.
  destruct (blocks_Lines _ _ _ _ Hlines (Datatypes.S (remaining d)) (zeroSimple (M := M)))
    as (p & Hp & Hall & _); [lia |].
  exists (assign_all ls zeroSimple).
  split.
  { unfold parseCaddyfileHandler, UnmarshalCaddyfile.
    change (Nesting d) with 0. rewrite Hp, (Hall Hacc). reflexivity. }
  destruct (assign_all_rest ls (zeroSimple (M := M))) as (Ht & Hf & Hm).
  split; [exact Hm |]. split; [exact Hf |]. split; [unfold OK; rewrite Ht; reflexivity |].
  pose proof (assign_all_Threshold ls (zeroSimple (M := M)) Hacc) as Hth.
  pose proof (assign_all_Factor ls (zeroSimple (M := M)) Hacc) as Hfa.
  pose proof (assign_all_TripDuration ls (zeroSimple (M := M)) Hacc) as Htd.
  pose proof (assign_all_MinRequests ls (zeroSimple (M := M)) Hacc) as Hmr.
  rewrite (Provision_cases (assign_all ls zeroSimple)). cbv zeta.
  assert (Hfactor :
            (if String.eqb (Factor (config (assign_all ls (zeroSimple (M := M))))) ""
             then "error_ratio" else Factor (config (assign_all ls (zeroSimple (M := M)))))
            = match mentioned "factor" ls with
              | Some a => if String.eqb a "" then "error_ratio" else a
              | None => "error_ratio"
              end).
  { destruct (mentioned "factor" ls) as [a |]; rewrite Hfa; reflexivity. }
  rewrite Hfactor. split.
  - intros Hbad. apply typeCB_invalid in Hbad. rewrite Hbad. reflexivity.
  - intros Hgood mt Hnew. apply typeCB_valid in Hgood. destruct Hgood as [f Hf'].
    rewrite Hf', Hnew. cbn.
    split; [reflexivity |]. split; [reflexivity |]. split; [reflexivity |].
    split; [reflexivity |]. split; [| split].
    + destruct (mentioned "threshold" ls); exact Hth.
    + destruct (mentioned "min_requests" ls) as [a |].
      * eexists. split; [exact Hmr | reflexivity].
      * rewrite Hmr. reflexivity.
    + destruct (mentioned "trip_duration" ls) as [a |].
      * eexists. split; [exact Htd | reflexivity].
      * rewrite Htd. reflexivity.
Qed.

End Written.

(** ** After a recovery *)

Section Recovered.
Context {M H : Type} `{RTMetrics M H} `{!RecordCountsOne M H} `{!ResetClears M H}.
Context {W : Type} `{ResponseWriter W}.
Context {S R : Type}.
Implicit Types (c : Simple M) (w : World M) (m : M).
Implicit Types (e : @Event W S R) (es : list (@Event W S R)).

(** X7.  When the only recovery goroutine has run, the breaker starts over: it is
    closed, and again fewer than [MinRequests] samples cannot trip it. *)
Theorem recovered_breaker_starts_over w (t : Time) m es w'' :
  metrics (cb w) = Some m ->
  sleeping w = [t] ->
  t <= now w ->
  recordings es < MinRequests (config (cb w)) ->
  exists w',
    wake 0 w = Some w'
    /\ OK (cb w') = true
    /\ (run_all es w' = Some w'' -> OK (cb w'') = true /\ sleeping w'' = []).
Proof.
  intros Hm Hs Hdue Hlt.
  assert (Hi : sleeping w !! 0%nat = Some t) by (rewrite Hs; reflexivity).
  rewrite (wake_cases 0 t w m Hi Hm).
  apply Z.leb_le in Hdue. rewrite Hdue. eexists. split; [reflexivity |].
  split; [reflexivity |]. intros Hall.
  match type of Hall with
  | run_all es ?w1 = _ =>
      destruct (below_floor es w1 w'' (Reset m) 0) as (Ht & Hs' & _)
  end.
  - cbn. rewrite Hs. reflexivity.
  - reflexivity.
  - intros t1. rewrite TotalCount_Reset. lia.
  - cbn. lia.
  - exact Hall.
  - unfold OK. rewrite Ht. auto.
Qed.

End Recovered.

(** ** The further properties at the scenarios *)

#[export] Instance window_RecordCountsOne : RecordCountsOne (list Sample) (list Z).
Proof.
  intros t t' code d m. cbn. unfold total, recent. cbn [List.filter].
  destruct (t - period <? at_ _); cbn [length]; lia.
Qed.

(** The breaker of TestErrorRatioTripping, provisioned and tripped by seven
    samples, answers every further call. *)
Lemma provisioned_breaker_never_panics_witness :
  provisioned (cb errorRatio7)
  /\ tripped (cb errorRatio7) = 1
  /\ is_Some (RecordMetric 200 (10 * Millisecond) errorRatio7)
  /\ is_Some (ServeHTTP NewRecorder tt (answering 200 None (7 * Millisecond)) 0%nat errorRatio7).
Proof.
  destruct (provisioned_breaker_never_panics
              (W := ResponseRecorder) (S := nat) (R := unit)
              (mkSimple 0 0 None (mkConfig 0.5%float "error_ratio" (100 * Millisecond) 5))
              0 (calls 3 200 (10 * Millisecond) ++ calls 4 500 (10 * Millisecond)) errorRatio7)
    as (_ & Hprov & _ & Hrec & Hserve & _).
  - vm_compute. reflexivity.
  - vm_compute. reflexivity.
  - split; [exact Hprov |]. split; [vm_compute; reflexivity |].
    split; [apply Hrec | apply Hserve].
Defined.

(** Through the middleware: the request that trips leaves one goroutine
    asleep, the rejected request adds none. *)
Lemma through_middleware_one_recovery_at_most_witness :
  tripped (cb (after served oneAtLeast)) = 1
  /\ sleeping (after served oneAtLeast) = [1007000000].
Proof.
  destruct (through_middleware_one_recovery_at_most served oneAtLeast (after served oneAtLeast))
    as [[Hflag _] | [Hflag [t Hone]]].
  - vm_compute. reflexivity.
  - vm_compute. reflexivity.
  - vm_compute. reflexivity.
  - vm_compute. reflexivity.
  - exfalso. revert Hflag. vm_compute. discriminate.
  - split; [exact Hflag |]. rewrite Hone. f_equal.
    assert (Hhead : head (sleeping (after served oneAtLeast)) = Some 1007000000)
      by (vm_compute; reflexivity).
    rewrite Hone in Hhead. cbn in Hhead. congruence.
Defined.

(** The breaker tripped at 0 and again at 60ms, with 100ms to stay open: at
    100ms the first recovery closes it, 40ms after the last trip, while the
    second still sleeps until 160ms. *)
Lemma earlier_recovery_closes_during_later_trip_witness :
  sleeping trippedTwice = [160000000; 100000000]
  /\ now trippedTwice = 100000000
  /\ exists w',
       wake 1 trippedTwice = Some w'
       /\ OK (cb w') = true
       /\ sleeping w' = [160000000].
Proof.
  split; [vm_compute; reflexivity |]. split; [vm_compute; reflexivity |].
  destruct (earlier_recovery_closes_during_later_trip trippedTwice 1 0
              100000000 160000000 (window_of trippedTwice))
    as (w' & Hwake & Hok & _).
  - vm_compute. reflexivity.
  - vm_compute. reflexivity.
  - vm_compute. reflexivity.
  - split; [apply Z.leb_le | apply Z.ltb_lt]; vm_compute; reflexivity.
  - exists w'. split; [exact Hwake |]. split; [exact Hok |].
    revert Hwake. vm_compute. intros [= <-]. reflexivity.
Defined.

(** TestErrorRatioTripping through the middleware: the seventh request is
    answered 500 by the handler, which is called, and trips the breaker; the
    eighth is answered 503 and the handler is not called. *)
Lemma tripping_request_is_served_next_is_rejected_witness :
  exists res res',
    ServeHTTP NewRecorder tt (answering 500 None (7 * Millisecond)) 0%nat errorRatio6 = Some res
    /\ Code (response res) = 500 /\ downstream res = 1%nat
    /\ ServeHTTP NewRecorder tt (answering 200 None (7 * Millisecond)) 1%nat (world res)
       = Some res'
    /\ Code (response res') = 503 /\ downstream res' = 1%nat.
Proof.
  destruct (tripping_request_is_served_next_is_rejected
              NewRecorder tt (answering 500 None (7 * Millisecond)) 0%nat errorRatio6
              (window_of errorRatio6))
    as (res & Hserve & Hresp & Hdown & _ & _ & _ & Hnext).
  - vm_compute. reflexivity.
  - vm_compute. reflexivity.
  - apply Z.leb_le. vm_compute. reflexivity.
  - vm_compute. reflexivity.
  - exists res. eexists. split; [exact Hserve |].
    split; [rewrite Hresp; vm_compute; reflexivity |].
    split; [rewrite Hdown; vm_compute; reflexivity |].
    split; [apply Hnext |]. split; reflexivity.
Defined.

(** TestMinimumRequestsRequirement: nine 500s where ten requests are the
    minimum leave the breaker closed. *)
Lemma fewer_than_MinRequests_samples_never_trip_witness :
  OK (cb (after (calls 9 500 (10 * Millisecond)) tenAtLeast)) = true
  /\ sleeping (after (calls 9 500 (10 * Millisecond)) tenAtLeast) = [].
Proof.
  destruct (fewer_than_MinRequests_samples_never_trip
              (W := ResponseRecorder) (S := nat) (R := unit)
              (calls 9 500 (10 * Millisecond)) tenAtLeast
              (after (calls 9 500 (10 * Millisecond)) tenAtLeast) [])
    as (_ & Hok & Hs).
  - reflexivity.
  - vm_compute. reflexivity.
  - intros t. change (0 <= 0). lia.
  - apply Z.ltb_lt. vm_compute. reflexivity.
  - vm_compute. reflexivity.
  - split; [rewrite Hok; vm_compute; reflexivity | exact Hs].
Defined.

(** A configuration with the factor "invalid" and nothing else set: after the
    failed [Provision] the minimum is 10 and the duration still 0. *)
Lemma Provision_failure_installs_nothing_witness :
  (Provision refusedConfig).2
  = Some (Errorf "invalid factor 'invalid', must be one of: latency, error_ratio, status_ratio")
  /\ metrics (Provision refusedConfig).1 = None
  /\ MinRequests (config (Provision refusedConfig).1) = 10
  /\ TripDuration (config (Provision refusedConfig).1) = 0.
Proof.
  destruct (Provision_failure_installs_nothing refusedConfig
              (Errorf "invalid factor 'invalid', must be one of: latency, error_ratio, status_ratio"))
    as (_ & _ & Hm & _ & Hfactor).
  - vm_compute. reflexivity.
  - destruct Hfactor as (_ & Hmr & Htd & _); [vm_compute; reflexivity |].
    split; [vm_compute; reflexivity |]. split; [exact Hm |].
    split; [exact Hmr | exact Htd].
Defined.

(** Ten 503s against a threshold that is NaN: the breaker stays closed. *)
Lemma NaN_threshold_never_trips_witness :
  OK (cb (after (calls 10 503 (10 * Millisecond)) notANumber)) = true
  /\ TotalCount 0 (window_of (after (calls 10 503 (10 * Millisecond)) notANumber)) = 10.
Proof.
  destruct (NaN_threshold_never_trips
              (W := ResponseRecorder) (S := nat) (R := unit)
              (calls 10 503 (10 * Millisecond)) notANumber
              (after (calls 10 503 (10 * Millisecond)) notANumber))
    as [Hok _].
  - vm_compute. reflexivity.
  - vm_compute. reflexivity.
  - vm_compute. reflexivity.
  - vm_compute. reflexivity.
  - split; [exact Hok | vm_compute; reflexivity].
Defined.

(** The block of TestUnmarshalCaddyfile read forth and back gives the same
    receiver. *)
Lemma directive_order_is_insignificant_witness :
  exists p1 p2 : Parsed (M := list Sample),
    UnmarshalCaddyfile blockForth zeroSimple = Some p1
    /\ UnmarshalCaddyfile blockBack zeroSimple = Some p2
    /\ receiver p1 = receiver p2.
Proof.
  eassert (Hforth : Lines (Nesting blockForth) blockForth _ _) by read_block.
  eassert (Hback : Lines (Nesting blockBack) blockBack _ _) by read_block.
  destruct (directive_order_is_insignificant
              blockForth blockBack _ _ _ _ (zeroSimple (M := list Sample)) Hforth Hback)
    as (p1 & p2 & Hp1 & Hp2 & _ & _ & Heq).
  - apply Permutation_sym.
    apply perm_trans with (1 := Permutation_rev _). reflexivity.
  - lazy. repeat constructor; rewrite ?elem_of_cons, ?elem_of_nil;
      intros Hin; repeat destruct Hin as [Hin | Hin]; try discriminate Hin; exact Hin.
  - lazy. reflexivity.
  - exists p1, p2. auto.
Defined.

(** A block with a zero minimum and a zero duration provisions to 10 and five
    seconds, with the threshold 0 it does not mention; behind the name
    circuit_breaker it is not read, and the handler provisions to the
    defaults: the factor is error_ratio, not the latency of the block.  A
    block whose factor is "errors" parses, and fails in [Provision]. *)
Lemma parse_then_Provision_witness :
  (exists c0 : Simple (list Sample),
     parseCaddyfileHandler blockZeros = Some (Some c0, None)
     /\ (Provision c0).2 = None
     /\ config (Provision c0).1 = mkConfig 0%float "latency" 5000000000 10)
  /\ (parseCaddyfileHandler (M := list Sample)
        (NewTestDispenser (directiveText "circuit_breaker" zerosLines))
      = Some (Some zeroSimple, None)
      /\ config (Provision (zeroSimple (M := list Sample))).1
         = mkConfig 0%float "error_ratio" 5000000000 10)
  /\ (exists c0 : Simple (list Sample),
        parseCaddyfileHandler blockBadFactor = Some (Some c0, None)
        /\ (Provision c0).2
           = Some (Errorf
                     "invalid factor 'errors', must be one of: latency, error_ratio, status_ratio")).
Proof.
  assert (Hname : "circuit_breaker" <> "{") by discriminate.
  destruct (parse_then_Provision (M := list Sample) "circuit_breaker" zerosLines Hname)
    as ((c0 & Hparse & _ & _ & _ & _ & Hgood) & Hnamed & Hdefaults);
    [lazy; reflexivity | reflexivity |].
  destruct (parse_then_Provision (M := list Sample) "circuit_breaker" badFactorLines Hname)
    as ((c0' & Hparse' & _ & _ & _ & Hbad & _) & _);
    [lazy; reflexivity | reflexivity |].
  split; [| split].
  - destruct (Hgood ltac:(rewrite !elem_of_cons; left; reflexivity) [] eq_refl)
      as (Hnone & _ & _ & Hfa & Hth & Hmr & Htd).
    exists c0. split; [exact Hparse |]. split; [exact Hnone |].
    cbv zeta in *.
    cbn [zerosLines mentioned String.eqb Ascii.eqb Bool.eqb] in Hth, Hmr, Htd, Hfa.
    destruct Hmr as (n & Hn & Hmr). destruct Htd as (dur & Hdur & Htd).
    assert (n = 0) as -> by (revert Hn; vm_compute; congruence).
    assert (dur = 0) as -> by (revert Hdur; vm_compute; congruence).
    destruct (config (Provision c0).1) as [th fa td mr]. cbn in *.
    rewrite Hth, Hmr, Htd, Hfa. reflexivity.
  - split; [exact Hnamed |]. rewrite (Hdefaults [] eq_refl). reflexivity.
  - exists c0'. split; [exact Hparse' |]. apply Hbad.
    rewrite !elem_of_cons, elem_of_nil.
    intros [Hin | [Hin | [Hin | []]]]; vm_compute in Hin; discriminate Hin.
Defined.

(** The breaker of TestErrorRatioTripping 150ms after its trip: the recovery
    runs, and four 500s, one fewer than the minimum, do not trip it again. *)
Lemma recovered_breaker_starts_over_witness :
  exists w',
    wake 0 (after [Elapse (150 * Millisecond)] errorRatio7) = Some w'
    /\ OK (cb w') = true
    /\ OK (cb (after (calls 4 500 (10 * Millisecond)) w')) = true.
Proof.
  destruct (recovered_breaker_starts_over
              (W := ResponseRecorder) (S := nat) (R := unit)
              (after [Elapse (150 * Millisecond)] errorRatio7) 100000000
              (window_of (after [Elapse (150 * Millisecond)] errorRatio7))
              (calls 4 500 (10 * Millisecond))
              (after (calls 4 500 (10 * Millisecond))
                 (default errorRatio (wake 0 (after [Elapse (150 * Millisecond)] errorRatio7)))))
    as (w' & Hwake & Hok & Hlater).
  - vm_compute. reflexivity.
  - vm_compute. reflexivity.
  - apply Z.leb_le. vm_compute. reflexivity.
  - apply Z.ltb_lt. vm_compute. reflexivity.
  - exists w'. split; [exact Hwake |]. split; [exact Hok |].
    assert (Hw' : default errorRatio (wake 0 (after [Elapse (150 * Millisecond)] errorRatio7)) = w')
      by (rewrite Hwake; reflexivity).
    rewrite Hw' in Hlater. apply Hlater.
    rewrite <- Hw'. vm_compute. reflexivity.
Defined.
